(** * Smart-home command pipeline: a shallow embedding and its properties

    The development follows [SHAgent.py] (device registry, controller-backed
    tools, rule-based intent parser, command pipeline) and [tools.py] (the
    file-backed tool set).

    Conventions.
    - A Python [str] is a Rocq [string]; the text functions ([lower], [strip],
      the character classes of [re]) are the ASCII ones, so the embedding
      speaks about commands written in ASCII.
    - A Python [dict] whose iteration order the code relies on (the device
      registry, the gadget table) is an association list with the update
      discipline of [dict]; a [dict] used as a bag of named fields (a device
      state, a gadget) is a [gmap string _].
    - Code that can raise returns a [result]; [try]/[except] is [try_except].
    - The clock, the language model and the agent executor are parameters. *)

From Stdlib Require Import ZArith String Ascii List Bool Floats Uint63 Lia.
From Stdlib Require Import DecimalString.
From stdpp Require Import base option gmap strings list fin_maps.
Import ListNotations.
Local Open Scope string_scope.

(** ** Python text primitives *)

Module PyStr.

Definition code (c : ascii) : nat := nat_of_ascii c.

Definition between (lo hi : nat) (c : ascii) : bool :=
  Nat.leb lo (code c) && Nat.leb (code c) hi.

(** [str.isspace] on one ASCII character; also the class [\s] of [re]. *)
Definition is_space (c : ascii) : bool :=
  between 9 13 c || between 28 32 c.

Definition is_digit (c : ascii) : bool := between 48 57 c.
Definition is_upper (c : ascii) : bool := between 65 90 c.
Definition is_lower (c : ascii) : bool := between 97 122 c.

(** The class [\w] of [re]. *)
Definition is_word (c : ascii) : bool :=
  is_lower c || is_upper c || is_digit c || Ascii.eqb c "_".

(** The class matched by [.] (no DOTALL flag): anything but a newline. *)
Definition is_dot (c : ascii) : bool := negb (Ascii.eqb c "010").

Definition lower_char (c : ascii) : ascii :=
  if is_upper c then ascii_of_nat (code c + 32) else c.

(** [s.lower()] *)
Fixpoint lower (s : string) : string :=
  match s with
  | EmptyString => EmptyString
  | String c s' => String (lower_char c) (lower s')
  end.

Definition rev (s : string) : string :=
  string_of_list_ascii (List.rev (list_ascii_of_string s)).

Fixpoint lstrip (s : string) : string :=
  match s with
  | EmptyString => EmptyString
  | String c s' => if is_space c then lstrip s' else s
  end.

Definition rstrip (s : string) : string := rev (lstrip (rev s)).

(** [s.strip()] *)
Definition strip (s : string) : string := rstrip (lstrip s).

(** [s.replace(a, b)] for one-character [a] and [b]. *)
Fixpoint replace (a b : ascii) (s : string) : string :=
  match s with
  | EmptyString => EmptyString
  | String c s' => String (if Ascii.eqb c a then b else c) (replace a b s')
  end.

Fixpoint startswith (p s : string) : bool :=
  match p, s with
  | EmptyString, _ => true
  | String a p', String b s' => Ascii.eqb a b && startswith p' s'
  | String _ _, EmptyString => false
  end.

(** [sub in s] on strings. *)
Fixpoint contains (sub s : string) : bool :=
  startswith sub s ||
  match s with
  | EmptyString => false
  | String _ s' => contains sub s'
  end.

(** [x in l] on a list of strings. *)
Definition mem (x : string) (l : list string) : bool :=
  existsb (String.eqb x) l.

(** [sep.join(l)] *)
Fixpoint join (sep : string) (l : list string) : string :=
  match l with
  | [] => ""
  | [x] => x
  | x :: l' => x +:+ sep +:+ join sep l'
  end.

(** [sorted(set(l))]: insertion into a strictly increasing list. *)
Fixpoint insert_sorted (x : string) (l : list string) : list string :=
  match l with
  | [] => [x]
  | y :: l' =>
      match String.compare x y with
      | Lt => x :: l
      | Eq => l
      | Gt => y :: insert_sorted x l'
      end
  end.

Definition sorted_set (l : list string) : list string :=
  fold_right insert_sorted [] l.

End PyStr.

(** ** The fragment of [re] the parser uses

    A backtracking matcher with the priorities of Python's engine: the
    alternatives of [|] are tried left to right, repetitions and [?] are
    greedy, and the first start position with a match wins. *)

Module Re.
Import PyStr.

Inductive regex :=
| Eps
| Chr (p : ascii -> bool)
| Seq (r1 r2 : regex)
| Alt (r1 r2 : regex)
| Rep (p : ascii -> bool) (lo : nat) (hi : option nat)
| Group (n : nat) (r : regex)
| WordB
| EndAnchor.

(** A position in the subject: the character before it, the text after it,
    its index, and the spans of the groups closed so far. *)
Record mstate := MState {
  m_prev : option ascii;
  m_rest : string;
  m_pos : nat;
  m_caps : list (nat * (nat * nat))
}.

Definition word_at (o : option ascii) : bool :=
  match o with Some c => is_word c | None => false end.

Definition next_char (s : string) : option ascii :=
  match s with String c _ => Some c | EmptyString => None end.

(** Greedy bounded repetition of a character class. *)
Fixpoint rep_match (p : ascii -> bool) (lo : nat) (hi : option nat)
    (prev : option ascii) (rest : string) (pos : nat)
    (caps : list (nat * (nat * nat)))
    (k : mstate -> option mstate) {struct rest} : option mstate :=
  let stop :=
    match lo with
    | O => k (MState prev rest pos caps)
    | S _ => None
    end in
  match hi with
  | Some O => stop
  | _ =>
      match rest with
      | String c rest' =>
          if p c then
            match rep_match p (Nat.pred lo) (Nat.pred <$> hi)
                    (Some c) rest' (S pos) caps k with
            | Some st => Some st
            | None => stop
            end
          else stop
      | EmptyString => stop
      end
  end.

Fixpoint rmatch (r : regex) (st : mstate)
    (k : mstate -> option mstate) {struct r} : option mstate :=
  match r with
  | Eps => k st
  | Chr p =>
      match m_rest st with
      | String c rest' =>
          if p c then k (MState (Some c) rest' (S (m_pos st)) (m_caps st))
          else None
      | EmptyString => None
      end
  | Seq r1 r2 => rmatch r1 st (fun st' => rmatch r2 st' k)
  | Alt r1 r2 =>
      match rmatch r1 st k with
      | Some st' => Some st'
      | None => rmatch r2 st k
      end
  | Rep p lo hi =>
      rep_match p lo hi (m_prev st) (m_rest st) (m_pos st) (m_caps st) k
  | Group n r1 =>
      rmatch r1 st (fun st' =>
        k (MState (m_prev st') (m_rest st') (m_pos st')
             ((n, (m_pos st, m_pos st')) :: m_caps st')))
  | WordB =>
      if xorb (word_at (m_prev st)) (word_at (next_char (m_rest st)))
      then k st else None
  | EndAnchor =>
      match m_rest st with
      | EmptyString => k st
      | String c EmptyString => if Ascii.eqb c "010" then k st else None
      | _ => None
      end
  end.

(** Pattern syntax. *)
Fixpoint lit (s : string) : regex :=
  match s with
  | EmptyString => Eps
  | String c s' => Seq (Chr (Ascii.eqb c)) (lit s')
  end.

Definition opt (r : regex) : regex := Alt r Eps.

Fixpoint alts (l : list regex) : regex :=
  match l with
  | [] => Chr (fun _ => false)
  | [r] => r
  | r :: l' => Alt r (alts l')
  end.

Fixpoint seqs (l : list regex) : regex :=
  match l with
  | [] => Eps
  | [r] => r
  | r :: l' => Seq r (seqs l')
  end.

Definition star (p : ascii -> bool) : regex := Rep p 0 None.
Definition plus (p : ascii -> bool) : regex := Rep p 1 None.

(** A match object: the subject, the span of the match and of its groups. *)
Record rmatch_obj := MatchObj {
  mo_text : string;
  mo_start : nat;
  mo_end : nat;
  mo_caps : list (nat * (nat * nat))
}.

Fixpoint lookup_cap (n : nat) (caps : list (nat * (nat * nat)))
  : option (nat * nat) :=
  match caps with
  | [] => None
  | (m, span) :: caps' => if Nat.eqb n m then Some span else lookup_cap n caps'
  end.

(** [m.group(n)]: [None] when the group took no part in the match. *)
Definition group (n : nat) (m : rmatch_obj) : option string :=
  match lookup_cap n (mo_caps m) with
  | Some (a, b) => Some (String.substring a (b - a) (mo_text m))
  | None => None
  end.

Fixpoint search_from (r : regex) (text : string) (prev : option ascii)
    (rest : string) (pos : nat) {struct rest} : option rmatch_obj :=
  match rmatch r (MState prev rest pos []) Some with
  | Some st => Some (MatchObj text pos (m_pos st) (m_caps st))
  | None =>
      match rest with
      | String c rest' => search_from r text (Some c) rest' (S pos)
      | EmptyString => None
      end
  end.

(** [re.search(r, text)] *)
Definition search (r : regex) (text : string) : option rmatch_obj :=
  search_from r text None text 0.

Definition found (r : regex) (text : string) : bool :=
  match search r text with Some _ => true | None => false end.

(** [re.sub(r, repl, text)] for a pattern that cannot match the empty
    string (both patterns of [_normalize_room] are of that kind): [skip]
    counts the characters of the current match still to be dropped. *)
Fixpoint sub_from (r : regex) (repl : string) (prev : option ascii)
    (rest : string) (pos skip : nat) {struct rest} : string :=
  match rest with
  | EmptyString => EmptyString
  | String c rest' =>
      match skip with
      | S n => sub_from r repl (Some c) rest' (S pos) n
      | O =>
          match rmatch r (MState prev rest pos []) Some with
          | Some st =>
              repl +:+ sub_from r repl (Some c) rest' (S pos)
                         (Nat.pred (m_pos st - pos))
          | None => String c (sub_from r repl (Some c) rest' (S pos) 0)
          end
      end
  end.

Definition sub (r : regex) (repl text : string) : string :=
  sub_from r repl None text 0 0.

End Re.

(** ** Values, results and formatting *)

(** Numbers as Python has them: [int] and [float]. *)
Inductive num :=
| NInt (z : Z)
| NFloat (f : float).

(** The values stored in device states and gadgets (JSON values). *)
#[warnings="-register-all"]
Inductive value :=
| VNull
| VBool (b : bool)
| VNum (n : num)
| VStr (s : string)
| VList (l : list value)
| VObj (fields : list (string * value)).

(** Outcome of code that may raise: [Raise e] is a Python [Exception]. *)
Inductive result (A : Type) :=
| Ok (a : A)
| Raise (e : string).
Arguments Ok {A} a.
Arguments Raise {A} e.

Definition bind {A B} (r : result A) (f : A -> result B) : result B :=
  match r with
  | Ok a => f a
  | Raise e => Raise e
  end.

(** [try: body  except Exception: handler] *)
Definition try_except {A} (body : result A) (handler : string -> result A)
  : result A :=
  match body with
  | Ok a => Ok a
  | Raise e => handler e
  end.

Notation "'let!' x ':=' c1 'in' c2" := (bind c1 (fun x => c2))
  (at level 10, x pattern, c1 at level 100, c2 at level 200).

Definition str_nat (n : nat) : string :=
  DecimalString.NilZero.string_of_uint (Nat.to_uint n).

Definition str_Z (z : Z) : string :=
  DecimalString.NilZero.string_of_int (Z.to_int z).

(** ** Device registry and controller ([SHAgent.py]) *)

Record datetime := DateTime {
  dt_iso : string;     (* [isoformat()] *)
  dt_hour : nat        (* [.hour] *)
}.

(** A device document: [{id, name, type, location: {room}, state,
    last_updated}]. *)
Record device := Device {
  d_id : string;
  d_name : string;
  d_type : string;
  d_room : string;
  d_state : gmap string value;
  d_last_updated : string
}.

Record CommandHistory := MkCommandHistory {
  timestamp : datetime;
  command : string;
  devices_affected : list string;
  action : string;
  success : bool
}.

(** [SmartHomeController]: the [devices] dict in insertion order, the
    history, and the number of clock readings made so far. *)
Record controller := Controller {
  devices : list (string * device);
  command_history : list CommandHistory;
  ticks : nat
}.

(** [DeviceType] values used by the tools. *)
Definition LIGHT : string := "light".
Definition THERMOSTAT : string := "thermostat".

(** [dict.get] / [in] / item update on the registry. *)
Fixpoint get_dev (device_id : string) (l : list (string * device))
  : option device :=
  match l with
  | [] => None
  | (k, d) :: l' => if String.eqb k device_id then Some d else get_dev device_id l'
  end.

Fixpoint alter_dev (f : device -> device) (device_id : string)
    (l : list (string * device)) : list (string * device) :=
  match l with
  | [] => []
  | (k, d) :: l' =>
      if String.eqb k device_id then (k, f d) :: l'
      else (k, d) :: alter_dev f device_id l'
  end.

(** [d['state'].update(new_state); d['last_updated'] = stamp] *)
Definition merge_state (new_state : gmap string value) (stamp : string)
    (d : device) : device :=
  Device (d_id d) (d_name d) (d_type d) (d_room d)
         (new_state ∪ d_state d) stamp.

Section Controller.

(** [datetime.now()] at the n-th reading of the clock, [str] of a float and
    [str] of a dict. *)
Variable clock : nat -> datetime.
Variable str_float : float -> string.
Variable str_dict : gmap string value -> string.

Definition str_num (n : num) : string :=
  match n with
  | NInt z => str_Z z
  | NFloat f => str_float f
  end.

Definition get_device (c : controller) (device_id : string) : option device :=
  get_dev device_id (devices c).

Definition get_devices_by_room (c : controller) (room : string) : list device :=
  List.filter (fun d => String.eqb (PyStr.lower (d_room d)) (PyStr.lower room))
    (List.map snd (devices c)).

Definition get_devices_by_type (c : controller) (device_type : string)
  : list device :=
  List.filter (fun d => String.eqb (d_type d) device_type)
    (List.map snd (devices c)).

Definition update_device_state (device_id : string)
    (new_state : gmap string value) (c : controller) : bool * controller :=
  match get_dev device_id (devices c) with
  | Some _ =>
      (true,
       Controller
         (alter_dev (merge_state new_state (dt_iso (clock (ticks c))))
            device_id (devices c))
         (command_history c) (S (ticks c)))
  | None => (false, c)
  end.

Definition log_command (cmd : string) (devs : list string) (act : string)
    (ok : bool) (c : controller) : controller :=
  Controller (devices c)
    (command_history c ++ [MkCommandHistory (clock (ticks c)) cmd devs act ok])
    (S (ticks c)).

(** The [for light in lights] loop of [control_lights]. *)
Fixpoint update_lights (lights : list device) (new_state : gmap string value)
    (affected : list string) (c : controller) : list string * controller :=
  match lights with
  | [] => (affected, c)
  | light :: rest =>
      let '(ok, c') := update_device_state (d_id light) new_state c in
      update_lights rest new_state
        (if ok then affected ++ [d_id light] else affected) c'
  end.

Definition control_lights (room act : string) (c : controller)
  : string * controller :=
  let devs := get_devices_by_room c room in
  let lights := List.filter (fun d => String.eqb (d_type d) LIGHT) devs in
  match lights with
  | [] => ("No lights found in " +:+ room, c)
  | _ =>
      let new_state : gmap string value :=
        <["power" := VStr act]> (<["status" := VStr act]> ∅) in
      let '(affected, c1) := update_lights lights new_state [] c in
      let c2 := log_command ("Turn " +:+ act +:+ " lights in " +:+ room)
                  affected act (Nat.ltb 0 (length affected)) c1 in
      ("Turned " +:+ act +:+ " " +:+ str_nat (length affected)
         +:+ " lights in " +:+ room, c2)
  end.

Definition set_thermostat (room : string) (temperature : num) (c : controller)
  : string * controller :=
  let devs := get_devices_by_room c room in
  let thermostats := List.filter (fun d => String.eqb (d_type d) THERMOSTAT) devs in
  match thermostats with
  | [] => ("No thermostat found in " +:+ room, c)
  | thermostat :: _ =>
      let new_state : gmap string value :=
        <["target_temperature" := VNum temperature]>
          (<["status" := VStr "on"]> ∅) in
      let '(ok, c1) := update_device_state (d_id thermostat) new_state c in
      if ok then
        let c2 := log_command
                    ("Set thermostat in " +:+ room +:+ " to " +:+ str_num temperature)
                    [d_id thermostat]
                    ("set_temperature_" +:+ str_num temperature) true c1 in
        ("Set thermostat in " +:+ room +:+ " to " +:+ str_num temperature
           +:+ "°C", c2)
      else ("Failed to set thermostat in " +:+ room, c1)
  end.

Definition control_device (device_id : string) (act : gmap string value)
    (c : controller) : string * controller :=
  match get_device c device_id with
  | None => ("Device " +:+ device_id +:+ " not found", c)
  | Some device =>
      let '(ok, c1) := update_device_state device_id act c in
      if ok then
        let c2 := log_command ("Control device " +:+ device_id) [device_id]
                    (str_dict act) true c1 in
        ("Successfully updated " +:+ d_name device, c2)
      else ("Failed to update " +:+ d_name device, c1)
  end.

End Controller.

(** ** Rule-based intent parser ([SmartHomeAgent] in [SHAgent.py]) *)

(** An intent document [{action, targets, parameters}]. *)
Record intent := Intent {
  i_action : string;
  i_targets : list string;
  i_parameters : gmap string value
}.

Module Parser.
Import PyStr Re.

(** [float(s)] for [s] of the shape [\d+(\.\d+)?].  Python rounds the decimal
    correctly; so does the IEEE quotient of two integers that binary64 holds
    exactly, which covers numerals of at most 15 digits.  Longer numerals are
    outside the embedding ([None]). *)
Fixpoint digits_value (s : string) (acc : Z) : Z :=
  match s with
  | EmptyString => acc
  | String c s' => digits_value s' (10 * acc + Z.of_nat (code c - 48))
  end.

Fixpoint split_point (s : string) : string * string :=
  match s with
  | EmptyString => (EmptyString, EmptyString)
  | String c s' =>
      if Ascii.eqb c "." then (EmptyString, s')
      else let '(a, b) := split_point s' in (String c a, b)
  end.

Definition float_of_Z (z : Z) : float := PrimFloat.of_uint63 (Uint63.of_Z z).

Definition py_float (s : string) : option float :=
  let '(ip, fp) := split_point s in
  if Nat.leb (String.length ip + String.length fp) 15 then
    Some (PrimFloat.div (float_of_Z (digits_value (ip +:+ fp) 0))
                        (float_of_Z (10 ^ Z.of_nat (String.length fp))))
  else None.

(** The patterns of [_normalize_room] and [_rule_based_intent]. *)
Definition filler_re : regex :=
  seqs [WordB;
        Group 1 (alts [lit "the"; lit "all"; lit "devices"; lit "in"; lit "on";
                       lit "of"; lit "room"; lit "rooms"]);
        WordB].

Definition spaces_re : regex := plus is_space.

Definition number_re : regex :=
  Seq (plus is_digit) (opt (Seq (lit ".") (plus is_digit))).

Definition temp_re : regex :=
  seqs [alts [lit "set"; lit "adjust"; lit "change"];
        Rep is_dot 0 (Some 40);
        lit "temp"; opt (lit "erature");
        star is_space; opt (alts [lit "to"; lit "at"]); star is_space;
        Group 1 number_re].

Definition rel_re : regex :=
  seqs [Group 1 (alts [lit "increase"; lit "decrease"; lit "raise";
                       lit "lower"; lit "warmer"; lit "cooler"]);
        Rep is_dot 0 (Some 20);
        lit "temp"; opt (lit "erature");
        opt (seqs [plus is_space; lit "by"; plus is_space; Group 2 number_re])].

Definition room_re : regex :=
  Group 1 (alts [seqs [lit "living"; star is_space; lit "room"];
                 seqs [lit "master"; star is_space; lit "bedroom"];
                 lit "bedroom"; lit "kitchen"; lit "entrance"; lit "garage"]).

Definition unlock_word_re : regex := seqs [WordB; lit "unlock"; WordB].
Definition lock_word_re : regex := seqs [WordB; lit "lock"; WordB].
Definition unlock_re : regex := lit "unlock".
Definition front_door_re : regex := seqs [lit "front"; plus is_space; lit "door"].

Definition light_on_re : regex :=
  Group 1 (alts [seqs [alts [lit "turn"; lit "switch"]; plus is_space; lit "on"];
                 seqs [lit "light"; opt (lit "s"); plus is_space; lit "on"]]).

Definition light_off_re : regex :=
  Group 1 (alts [seqs [alts [lit "turn"; lit "switch"]; plus is_space; lit "off"];
                 seqs [lit "light"; opt (lit "s"); plus is_space; lit "off"]]).

Definition is_room_char (c : ascii) : bool :=
  is_lower c || Ascii.eqb c "_" || is_space c.

Definition in_room_re : regex :=
  Alt (seqs [lit "in"; plus is_space; lit "the"; plus is_space;
             Group 1 (plus is_room_char); EndAnchor])
      (seqs [lit "in"; plus is_space; Group 2 (plus is_room_char); EndAnchor]).

Definition warmer_re : regex := seqs [WordB; lit "warmer"; WordB].
Definition cooler_re : regex := seqs [WordB; lit "cooler"; WordB].

(** The synonym table of [_normalize_room], in insertion order. *)
Definition synonyms : list (string * string) :=
  [("living room", "living_room");
   ("master bedroom", "master_bedroom");
   ("bedroom", "master_bedroom")].

Section Agent.

Variable ctrl : controller.

(** [sorted({v["location"]["room"] for v in devices.values()})] *)
Definition _available_rooms : list string :=
  sorted_set (List.map (fun kv => d_room (snd kv)) (devices ctrl)).

(** The text as [_normalize_room] cleans it: stripped, lowered, fillers
    removed, runs of white space collapsed. *)
Definition room_text (text : string) : string :=
  let t := strip (lower text) in
  let t := strip (sub filler_re "" t) in
  sub spaces_re " " t.

(** [candidates]: the three spellings of the text, then every key and value
    of the synonym table. *)
Definition candidates (t : string) : list string :=
  List.app [t; replace " " "_" t; replace "_" " " t]
           (flat_map (fun kv => [fst kv; snd kv]) synonyms).

(** The two loops over [candidates] and over [available]. *)
Definition match_room (available : list string) (t : string) : option string :=
  match List.find (fun cand => mem (replace " " "_" cand) available)
          (candidates t) with
  | Some cand => Some (replace " " "_" cand)
  | None =>
      (* partial match *)
      List.find (fun room => contains (replace "_" " " room) t
                             || contains t (replace "_" " " room)) available
  end.

Definition _normalize_room (text : string) : option string :=
  if String.eqb text "" then None
  else match_room _available_rooms (room_text text).

(** [x or d] on an optional string: [None] and [""] are falsy. *)
Definition or_str (x : option string) (d : string) : string :=
  match x with
  | Some s => if String.eqb s "" then d else s
  | None => d
  end.

Definition opt_str (x : option string) : value :=
  match x with
  | Some s => VStr s
  | None => VNull
  end.

(** [_normalize_room(room_match.group(1)) if room_match else dflt] *)
Definition room_of (c : string) (dflt : option string) : option string :=
  match search room_re c with
  | Some m => _normalize_room (default "" (group 1 m))
  | None => dflt
  end.

Definition lock_intent (act c : string) : intent :=
  if found front_door_re c
  then Intent act ["lock_front_door"] {[ "scope" := VStr "front" ]}
  else Intent act [] {[ "scope" := VStr "all" ]}.

Definition adjust_intent (room : option string) (delta : float) : intent :=
  Intent "adjust_temperature" []
    (<["room" := opt_str room]> {[ "delta" := VNum (NFloat delta) ]}).

Definition negating (direction : string) : bool :=
  mem direction ["decrease"; "lower"; "cooler"].

Definition _rule_based_intent (cmd : string) : option intent :=
  let c := lower cmd in
  match search temp_re c with
  | Some temp_match =>
      (* absolute temperature *)
      temp ← py_float (default "" (group 1 temp_match));
      let room := room_of c None in
      Some (Intent "set_temperature" []
              (<["room" := VStr (or_str room "living_room")]>
                 {[ "temperature" := VNum (NFloat temp) ]}))
  | None =>
  match search rel_re c with
  | Some rel_match =>
      (* relative adjustment *)
      let direction := default "" (group 1 rel_match) in
      delta ← match group 2 rel_match with
               | Some delta_str =>
                   if String.eqb delta_str "" then Some 1%float
                   else py_float delta_str
               | None => Some 1%float
               end;
      let delta := if negating direction then PrimFloat.opp delta else delta in
      Some (adjust_intent (room_of c (Some "living_room")) delta)
  | None =>
  if found unlock_word_re c then Some (lock_intent "unlock" c)
  else if found lock_word_re c && negb (found unlock_re c)
  then Some (lock_intent "lock" c)
  else
  let light_on := found light_on_re c in
  let light_off := found light_off_re c in
  if (contains "light" c || contains "lights" c) && (light_on || light_off) then
    let act := if light_on then "light_on" else "light_off" in
    let room_match := search in_room_re c in
    let room_text :=
      match room_match with
      | Some m =>
          match group 1 m with
          | Some g1 => if String.eqb g1 "" then group 2 m else Some g1
          | None => group 2 m
          end
      | None => None
      end in
    let room_text :=
      if String.eqb (default "" room_text) "" then
        match search room_re c with
        | Some m => group 1 m
        | None => None
        end
      else room_text in
    let room := or_str (_normalize_room (default "" room_text)) "kitchen" in
    Some (Intent act [] {[ "room" := VStr room ]})
  else if existsb (fun k => contains k c) ["status"; "what's"; "what is"; "show"]
  then
    let room := room_of c None in
    Some (Intent "status"
            (match room with
             | Some r => if String.eqb r "" then [] else [r]
             | None => []
             end) ∅)
  else if found warmer_re c then
    Some (adjust_intent (room_of c (Some "living_room")) 1%float)
  else if found cooler_re c then
    Some (adjust_intent (room_of c (Some "living_room")) (-1)%float)
  else Some (Intent "unknown" [] ∅)
  end end.

End Agent.
End Parser.

(** ** Command pipeline ([SmartHomeAgent] in [SHAgent.py]) *)

Module Pipeline.

(** What [agent_executor.ainvoke] returns: a dict (with or without an
    ["output"] entry) or some other object, of which only [str] is used. *)
Inductive outcome :=
| OutDict (output : option string)
| OutOther (repr : string).

(** What [llm.invoke] returns: its [content] attribute, if any, and its [str]. *)
Record llm_reply := LlmReply {
  content : option string;
  reply_str : string
}.

Inductive message :=
| HumanMessage (text : string)
| AIMessage (text : string).

(** The workflow state dict; an absent key is [None]. *)
Record wstate := WState {
  st_command : option string;
  st_intent : option intent;
  st_results : option (list string);
  st_learned_patterns : option (gmap nat (list string));
  st_response : option string
}.

Record agent := Agent {
  a_controller : controller;
  memory : list message;
  last_intent : option intent;
  last_results : list string;
  last_response : option string
}.

Definition friendly : string :=
  "Sorry, I hit a parsing hiccup. Please rephrase or try again.".

Definition fallback_prompt (cmd : string) : string :=
  "You are a smart home assistant. Answer the user's request concisely. If you cannot act on devices due to a planning error, still provide a helpful response."
  +:+ String "010" (String "010" "User: ") +:+ cmd.

(** [x or y] on optional strings. *)
Definition truthy (x : option string) : bool :=
  match x with
  | Some s => negb (String.eqb s "")
  | None => false
  end.

(** [recent_commands = history[-20:]] *)
Definition last_n {A} (n : nat) (l : list A) : list A :=
  List.skipn (length l - n) l.

Section Agent.

(** The tool-using executor (it may update the registry through the tools
    before it returns or raises) and the plain completion; [None] when the
    agent was built with [use_llm=False]. *)
Variable agent_executor :
  option (string -> controller -> result outcome * controller).
Variable llm : option (string -> result llm_reply).

Definition parse_intent (st : wstate) (a : agent) : result (wstate * agent) :=
  let i := Intent "tool_agent" []
             {[ "command" := VStr (default "" (st_command st)) ]} in
  Ok (WState (st_command st) (Some i) (st_results st)
        (st_learned_patterns st) (st_response st),
      Agent (a_controller a) (memory a) (Some i) (last_results a)
        (last_response a)).

Definition intent_command (i : option intent) : string :=
  match i with
  | Some i =>
      match i_parameters i !! "command" with
      | Some (VStr s) => s
      | _ => ""
      end
  | None => ""
  end.

(** The inner [try] of [execute_action]: the completion without tools. *)
Definition fallback_answer (cmd : string) : result (list string) :=
  match llm with
  | Some invoke =>
      let! fallback := invoke (fallback_prompt cmd) in
      Ok [if truthy (content fallback) then default "" (content fallback)
          else reply_str fallback]
  | None => Ok ["I'm unable to process this right now."]
  end.

Definition execute_action (st : wstate) (a : agent) : result (wstate * agent) :=
  let act := match st_intent st with Some i => i_action i | None => "" end in
  let '(results, ctrl) :=
    match agent_executor with
    | Some ainvoke =>
        if String.eqb act "tool_agent" then
          let cmd := intent_command (st_intent st) in
          let '(r, ctrl) := ainvoke cmd (a_controller a) in
          (try_except
             (let! out := r in
              let final := match out with
                           | OutDict o => o
                           | OutOther s => Some s
                           end in
              Ok (if truthy final then [default "" final] else []))
             (fun _ =>
                try_except (fallback_answer cmd) (fun _ => Ok [friendly])),
           ctrl)
        else (Ok ["No agent available to handle the request."], a_controller a)
    | None => (Ok ["No agent available to handle the request."], a_controller a)
    end in
  let! results := results in
  Ok (WState (st_command st) (st_intent st) (Some results)
        (st_learned_patterns st) (st_response st),
      Agent ctrl (memory a) (last_intent a) results (last_response a)).

(** The results [execute_action] computes for the intent that
    [parse_intent] builds from the command. *)
Definition answer (cmd : string) (ctrl : controller) : list string :=
  match agent_executor with
  | Some ainvoke =>
      match fst (ainvoke cmd ctrl) with
      | Ok (OutDict o) => if truthy o then [default "" o] else []
      | Ok (OutOther s) => if truthy (Some s) then [s] else []
      | Raise _ =>
          match llm with
          | Some invoke =>
              match invoke (fallback_prompt cmd) with
              | Ok reply =>
                  [if truthy (content reply) then default "" (content reply)
                   else reply_str reply]
              | Raise _ => [friendly]
              end
          | None => ["I'm unable to process this right now."]
          end
      end
  | None => ["No agent available to handle the request."]
  end.

(** [time_patterns]: the recent commands bucketed by hour. *)
Definition time_patterns (recent : list CommandHistory) : gmap nat (list string) :=
  fold_left
    (fun (m : gmap nat (list string)) cmd =>
       <[dt_hour (timestamp cmd) :=
           List.app (default [] (m !! dt_hour (timestamp cmd))) [command cmd]]> m)
    recent ∅.

Definition learn_from_history (st : wstate) (a : agent)
  : result (wstate * agent) :=
  let history := command_history (a_controller a) in
  if Nat.ltb 10 (length history) then
    Ok (WState (st_command st) (st_intent st) (st_results st)
          (Some (time_patterns (last_n 20 history))) (st_response st), a)
  else Ok (st, a).

Definition generate_response (st : wstate) (a : agent)
  : result (wstate * agent) :=
  let results := default [] (st_results st) in
  let response :=
    match results with
    | [] => "I couldn't understand that command. Please try again."
    | _ => PyStr.join (String "010" "") results
    end in
  Ok (WState (st_command st) (st_intent st) (st_results st)
        (st_learned_patterns st) (Some response),
      Agent (a_controller a)
        (List.app (memory a) [HumanMessage (default "" (st_command st));
                              AIMessage response])
        (last_intent a) (last_results a) (Some response)).

(** The compiled graph: parse_intent, execute_action, learn_pattern, respond. *)
Definition workflow (st : wstate) (a : agent) : result (wstate * agent) :=
  let! (st1, a1) := parse_intent st a in
  let! (st2, a2) := execute_action st1 a1 in
  let! (st3, a3) := learn_from_history st2 a2 in
  generate_response st3 a3.

Definition process_command (cmd : string) (a : agent) : result (string * agent) :=
  let initial_state := WState (Some cmd) None None None None in
  let! (st, a') := workflow initial_state a in
  Ok (default "Error processing command" (st_response st), a').

End Agent.
End Pipeline.

(** ** The file-backed tool set ([SmartHomeTools] in [tools.py]) *)

Module Tools.

(** A gadget document of [devices.json]: its identifying entries and the
    remaining, type-specific entries ([state], [on], [temperature], [range],
    [locked], ...). *)
Record gadget := Gadget {
  g_id : string;
  g_type : string;
  g_room : string;
  g_fields : gmap string value
}.

Record room := Room {
  r_name : string;
  r_fields : gmap string value
}.

(** The parsed content of [devices.json]. *)
Record document := Document {
  doc_gadgets : list gadget;
  doc_rooms : list room
}.

(** A [SmartHomeTools] object together with the file it reads and writes.
    [self.data["gadgets"]] is only read by [load_devices] right after it was
    parsed and overwritten by [save_devices], so of [self.data] the rooms are
    kept; the gadget objects live in [gadgets]. *)
Record tools := ToolsState {
  disk : document;
  data_rooms : list room;
  gadgets : list (string * gadget);
  rooms : list (string * room)
}.

(** [d[k] = v] on a dict in insertion order. *)
Fixpoint dict_set {A} (k : string) (v : A) (d : list (string * A))
  : list (string * A) :=
  match d with
  | [] => [(k, v)]
  | (k', v') :: d' =>
      if String.eqb k' k then (k, v) :: d'
      else (k', v') :: dict_set k v d'
  end.

Fixpoint dict_get {A} (k : string) (d : list (string * A)) : option A :=
  match d with
  | [] => None
  | (k', v) :: d' => if String.eqb k' k then Some v else dict_get k d'
  end.

(** [d[k] = f(d[k])] for a key of the dict. *)
Fixpoint dict_alter {A} (f : A -> A) (k : string) (d : list (string * A))
  : list (string * A) :=
  match d with
  | [] => []
  | (k', v) :: d' =>
      if String.eqb k' k then (k', f v) :: d'
      else (k', v) :: dict_alter f k d'
  end.

(** [{key(x): x for x in l}] *)
Definition dict_of_list {A} (key : A -> string) (l : list A)
  : list (string * A) :=
  fold_left (fun d x => dict_set (key x) x d) l [].

(** A dict whose entry for [k] is found under a key derived from the value:
    what [{key(x): x for x in l}] builds. *)
Definition keyed {A} (key : A -> string) (d : list (string * A)) : Prop :=
  NoDup d.*1 /\ Forall (fun kv => key (snd kv) = fst kv) d.

Definition load_devices (t : tools) : tools :=
  ToolsState (disk t) (doc_rooms (disk t))
    (dict_of_list g_id (doc_gadgets (disk t)))
    (dict_of_list r_name (doc_rooms (disk t))).

Definition save_devices (t : tools) : tools :=
  ToolsState (Document (List.map snd (gadgets t)) (data_rooms t))
    (data_rooms t) (gadgets t) (rooms t).

(** [device[k] = v] and [device.update(changes)] on a gadget. *)
Definition set_field (k : string) (v : value) (g : gadget) : gadget :=
  Gadget (g_id g) (g_type g) (g_room g) (<[k := v]> (g_fields g)).

Definition update_fields (changes : gmap string value) (g : gadget) : gadget :=
  Gadget (g_id g) (g_type g) (g_room g) (changes ∪ g_fields g).

Definition with_gadgets (gs : list (string * gadget)) (t : tools) : tools :=
  ToolsState (disk t) (data_rooms t) gs (rooms t).

(** [device["color_modes"]]: a list of mode names, as [devices.json] has
    it; a list holding anything else is reported as an error of the
    embedding. *)
Fixpoint strings_of (l : list value) : result (list string) :=
  match l with
  | [] => Ok []
  | VStr s :: l' => let! r := strings_of l' in Ok (s :: r)
  | _ :: _ => Raise "TypeError"
  end.

Definition color_modes (g : gadget) : result (list string) :=
  match g_fields g !! "color_modes" with
  | Some (VList l) => strings_of l
  | Some _ => Raise "TypeError"
  | None => Raise "KeyError: 'color_modes'"
  end.

Fixpoint index_of (x : string) (l : list string) (i : Z) : Z :=
  match l with
  | [] => i
  | y :: l' => if String.eqb y x then i else index_of x l' (i + 1)
  end.

Definition control_light (device_id mode : string) (t : tools)
  : result string * tools :=
  let t := load_devices t in
  match dict_get device_id (gadgets t) with
  | None => (Ok ("Device " +:+ device_id +:+ " not found"), t)
  | Some device =>
      if negb (String.eqb (g_type device) "light")
      then (Ok (device_id +:+ " is not a light"), t)
      else
        match color_modes device with
        | Raise e => (Raise e, t)
        | Ok modes =>
            if negb (PyStr.mem mode modes)
            then (Ok ("Invalid mode. Available: " +:+ PyStr.join ", " modes), t)
            else
              let t1 := with_gadgets
                          (dict_alter
                             (set_field "state" (VNum (NInt (index_of mode modes 0))))
                             device_id (gadgets t)) t in
              (Ok ("Set " +:+ device_id +:+ " to " +:+ mode), save_devices t1)
        end
  end.

(** [min_temp, max_temp = device["range"]] for a range of two integers, as
    [devices.json] declares it; a range of another shape is reported as an
    error of the embedding. *)
Definition temp_range (g : gadget) : result (Z * Z) :=
  match g_fields g !! "range" with
  | Some (VList [VNum (NInt lo); VNum (NInt hi)]) => Ok (lo, hi)
  | Some _ => Raise "range: not a pair of integers"
  | None => Raise "KeyError: 'range'"
  end.

Definition on_off (b : bool) : string := if b then "ON" else "OFF".

Definition control_ac (device_id power : string) (temperature : option Z)
    (t : tools) : result string * tools :=
  let t := load_devices t in
  match dict_get device_id (gadgets t) with
  | None => (Ok ("Device " +:+ device_id +:+ " not found"), t)
  | Some device =>
      if negb (String.eqb (g_type device) "ac")
      then (Ok (device_id +:+ " is not an AC"), t)
      else
        let on := String.eqb (PyStr.lower power) "on" in
        (* device["on"] = power.lower() == "on" *)
        let t1 := with_gadgets
                    (dict_alter (set_field "on" (VBool on)) device_id (gadgets t))
                    t in
        let finish (t2 : tools) :=
          let status :=
            if on && match temperature with
                     | Some temp => negb (Z.eqb temp 0)
                     | None => false
                     end
            then on_off on +:+ " at " +:+ str_Z (default 0%Z temperature) +:+ "°C"
            else on_off on in
          (Ok ("Set " +:+ device_id +:+ " to " +:+ status), save_devices t2) in
        match temperature with
        | None => finish t1
        | Some temp =>
            match temp_range device with
            | Raise e => (Raise e, t1)
            | Ok (min_temp, max_temp) =>
                if Z.leb min_temp temp && Z.leb temp max_temp then
                  finish (with_gadgets
                            (dict_alter
                               (set_field "temperature" (VNum (NInt temp)))
                               device_id (gadgets t1)) t1)
                else
                  (Ok ("Temperature must be between " +:+ str_Z min_temp
                         +:+ "°C and " +:+ str_Z max_temp +:+ "°C"), t1)
            end
        end
  end.

Definition control_door_lock (device_id act : string) (t : tools)
  : result string * tools :=
  let t := load_devices t in
  match dict_get device_id (gadgets t) with
  | None => (Ok ("Device " +:+ device_id +:+ " not found"), t)
  | Some device =>
      if negb (String.eqb (g_type device) "door_lock")
      then (Ok (device_id +:+ " is not a door lock"), t)
      else
        let locked := String.eqb (PyStr.lower act) "lock" in
        let t1 := with_gadgets
                    (dict_alter (set_field "locked" (VBool locked))
                       device_id (gadgets t)) t in
        (Ok (device_id +:+ " is now "
               +:+ (if locked then "locked" else "unlocked")),
         save_devices t1)
  end.

(** The scene table of [create_scene]. *)
Record scene := Scene {
  description : string;
  actions : list (string * gmap string value)
}.

Definition int_v (z : Z) : value := VNum (NInt z).

Definition scenes : list (string * scene) :=
  [("movie", Scene "Movie night mode"
       [("light_living", {[ "state" := int_v 0 ]});
        ("tv_living", {[ "channel" := int_v 4 ]});
        ("ac_living", <["on" := VBool true]> {[ "temperature" := int_v 22 ]})]);
   ("sleep", Scene "Sleep mode"
       [("light_living", {[ "state" := int_v 0 ]});
        ("light_bedroom", {[ "state" := int_v 0 ]});
        ("tv_living", {[ "channel" := int_v 0 ]});
        ("door_bedroom", {[ "locked" := VBool true ]})]);
   ("away", Scene "Away mode - secure home"
       [("light_living", {[ "state" := int_v 0 ]});
        ("light_bedroom", {[ "state" := int_v 0 ]});
        ("tv_living", {[ "channel" := int_v 0 ]});
        ("ac_living", {[ "on" := VBool false ]});
        ("door_bedroom", {[ "locked" := VBool true ]})]);
   ("morning", Scene "Morning mode"
       [("light_living", {[ "state" := int_v 2 ]});
        ("light_bedroom", {[ "state" := int_v 1 ]});
        ("tv_living", {[ "channel" := int_v 1 ]});
        ("door_bedroom", {[ "locked" := VBool false ]})])].

(** [for device_id, changes in scene["actions"]: if device_id in
    self.gadgets: self.gadgets[device_id].update(changes)]; [dict_alter]
    leaves the dict alone when the key is absent. *)
Definition apply_actions (acts : list (string * gmap string value))
    (gs : list (string * gadget)) : list (string * gadget) :=
  fold_left (fun gs a => dict_alter (update_fields (snd a)) (fst a) gs) acts gs.

(** What a list of scene actions does to the gadget stored under [k]. *)
Definition scene_effect (acts : list (string * gmap string value)) (k : string)
    (g : gadget) : gadget :=
  fold_left
    (fun g a => if String.eqb k (fst a) then update_fields (snd a) g else g)
    acts g.

Definition create_scene (scene_name : string) (t : tools)
  : result string * tools :=
  let t := load_devices t in
  match dict_get (PyStr.lower scene_name) scenes with
  | None =>
      (Ok ("Scene '" +:+ scene_name +:+ "' not found. Available: "
             +:+ PyStr.join ", " (List.map fst scenes)), t)
  | Some sc =>
      let t1 := with_gadgets (apply_actions (actions sc) (gadgets t)) t in
      (Ok ("Activated scene: " +:+ description sc), save_devices t1)
  end.

End Tools.

(** ** Well-formed registries and sample data *)

(** A registry as [json.load] and [dict] make it: keys are unique and every
    device is stored under its own id. *)
Definition registry_wf (c : controller) : Prop :=
  NoDup (devices c).*1
  /\ Forall (fun kv => d_id (snd kv) = fst kv) (devices c).

(** The registry has a device whose room is [r]. *)
Definition has_room (c : controller) (r : string) : bool :=
  PyStr.mem r (List.map (fun kv => d_room (snd kv)) (devices c)).

Module Sample.

Definition clock (n : nat) : datetime := DateTime "2024-05-01T08:00:00" 8.
Definition str_float (f : float) : string := "22.0".
Definition str_dict (d : gmap string value) : string := "{...}".

Definition dev (id name ty room : string) (st : gmap string value)
  : string * device :=
  (id, Device id name ty room st "2024-04-30T21:00:00").

Definition home : controller :=
  Controller
    [dev "light_living" "Living Room Light" "light" "living_room"
       (<["power" := VStr "off"]> {[ "brightness" := VNum (NInt 80) ]});
     dev "thermostat_living" "Living Room Thermostat" "thermostat" "living_room"
       (<["target_temperature" := VNum (NInt 20)]>
          {[ "current_temperature" := VNum (NInt 21) ]});
     dev "light_bedroom" "Bedroom Light" "light" "master_bedroom"
       {[ "power" := VStr "on" ]};
     dev "lock_front_door" "Front Door" "lock" "entrance"
       {[ "locked" := VBool true ]}]
    [] 0.

Definition gadget_of (id ty rm : string) (fields : gmap string value)
  : Tools.gadget := Tools.Gadget id ty rm fields.

Definition file : Tools.document :=
  Tools.Document
    [gadget_of "light_living" "light" "living"
       (<["state" := VNum (NInt 1)]>
          {[ "color_modes" :=
               VList [VStr "off"; VStr "warm_white"; VStr "bright_yellow";
                      VStr "cool_blue"] ]});
     gadget_of "ac_living" "ac" "living"
       (<["on" := VBool false]>
          (<["temperature" := VNum (NInt 24)]>
             {[ "range" := VList [VNum (NInt 18); VNum (NInt 28)] ]}));
     gadget_of "tv_living" "tv" "living" {[ "channel" := VNum (NInt 1) ]};
     gadget_of "door_bedroom" "door_lock" "bedroom" {[ "locked" := VBool false ]}]
    [Tools.Room "living" ∅; Tools.Room "bedroom" ∅].

(** A freshly constructed [SmartHomeTools] object. *)
Definition tools0 : Tools.tools :=
  Tools.load_devices (Tools.ToolsState file [] [] []).

End Sample.

(** ** Further code of [SHAgent.py] *)

(** The position after a literal that [Re.rmatch] has read. *)
Fixpoint advance (s : string) (st : Re.mstate) : Re.mstate :=
  match s with
  | EmptyString => st
  | String _ s' =>
      match Re.m_rest st with
      | String c rest' =>
          advance s' (Re.MState (Some c) rest' (S (Re.m_pos st)) (Re.m_caps st))
      | EmptyString => st
      end
  end.

(** The action labels of the rule-based parser. *)
Definition intent_actions : list string :=
  ["set_temperature"; "adjust_temperature"; "unlock"; "lock"; "light_on";
   "light_off"; "status"; "unknown"].

(** Adjacent elements are in strictly increasing order. *)
Fixpoint increasing (l : list string) : bool :=
  match l with
  | x :: (y :: _) as l' =>
      match String.compare x y with Lt => increasing l' | _ => false end
  | _ => true
  end.

Section RoomStatus.

(** [str] of a state dict. *)
Variable str_dict : gmap string value -> string.

(** The tool [get_room_status] of [SHAgent.py]; it reads the registry and
    hands the controller back as it got it. *)
Definition get_room_status (room : string) (c : controller)
  : string * controller :=
  match get_devices_by_room c room with
  | [] => ("No devices found in " +:+ room, c)
  | devs =>
      (fold_left
         (fun status d =>
            status +:+ "- " +:+ d_name d +:+ " (" +:+ d_type d +:+ "): "
              +:+ str_dict (d_state d) +:+ String "010" "")
         devs ("Status of devices in " +:+ room +:+ String ":" (String "010" "")),
       c)
  end.

End RoomStatus.

Module Json.

(** The loop of [_extract_json_object]: [i] is the index of the next
    character, [start] the index of the pending opening brace and [depth] the
    nesting counter, which the code lets go negative. *)
Fixpoint extract_from (text rest : string) (i : nat) (start : option nat)
    (depth : Z) {struct rest} : option string :=
  match rest with
  | EmptyString => None
  | String ch rest' =>
      if Ascii.eqb ch "{" then
        extract_from text rest' (S i)
          (if Z.eqb depth 0 then Some i else start) (depth + 1)
      else if Ascii.eqb ch "}" then
        match Z.eqb (depth - 1) 0, start with
        | true, Some s => Some (String.substring s (S i - s) text)
        | _, _ => extract_from text rest' (S i) start (depth - 1)
        end
      else extract_from text rest' (S i) start depth
  end.

Definition _extract_json_object (text : string) : option string :=
  extract_from text text 0 None 0.

(** No brace occurs in the text. *)
Fixpoint brace_free (s : string) : bool :=
  match s with
  | EmptyString => true
  | String ch s' =>
      negb (Ascii.eqb ch "{") && negb (Ascii.eqb ch "}") && brace_free s'
  end.

(** The nesting depth after reading [s] at depth [d], provided it stays
    positive all the way. *)
Fixpoint stays_open (d : nat) (s : string) : option nat :=
  match s with
  | EmptyString => Some d
  | String ch s' =>
      if Ascii.eqb ch "{" then stays_open (S d) s'
      else if Ascii.eqb ch "}" then
        match d with
        | S (S d') => stays_open (S d') s'
        | _ => None
        end
      else stays_open d s'
  end.

End Json.


(** ** Further code of [tools.py] *)

Module Reports.
Import Tools.

(** The truth value of a JSON value ([if x:]) and the test [x != 0]. *)
Definition truthy (v : value) : bool :=
  match v with
  | VNull => false
  | VBool b => b
  | VNum (NInt z) => negb (Z.eqb z 0)
  | VNum (NFloat f) => negb (PrimFloat.eqb f 0%float)
  | VStr s => negb (String.eqb s "")
  | VList l => match l with [] => false | _ :: _ => true end
  | VObj fs => match fs with [] => false | _ :: _ => true end
  end.

Definition nonzero (v : value) : bool :=
  match v with
  | VBool b => b
  | VNum (NInt z) => negb (Z.eqb z 0)
  | VNum (NFloat f) => negb (PrimFloat.eqb f 0%float)
  | _ => true
  end.

(** [device[k]]: a missing entry raises [KeyError]. *)
Definition field (k : string) (g : gadget) : result value :=
  match g_fields g !! k with
  | Some v => Ok v
  | None => Raise ("KeyError: '" +:+ k +:+ "'")
  end.

(** The integer an index stands for ([bool] is an [int] in Python). *)
Definition index_int (v : value) : option Z :=
  match v with
  | VNum (NInt z) => Some z
  | VBool b => Some (if b then 1%Z else 0%Z)
  | _ => None
  end.

(** [l[z]] with Python's negative indices. *)
Definition list_item {A} (l : list A) (z : Z) : option A :=
  let n := Z.of_nat (length l) in
  if Z.leb 0 z && Z.ltb z n then List.nth_error l (Z.to_nat z)
  else if Z.leb (- n) z && Z.ltb z 0 then List.nth_error l (Z.to_nat (z + n))
  else None.

Fixpoint obj_get (k : string) (fs : list (string * value)) : option value :=
  match fs with
  | [] => None
  | (k', v) :: fs' => if String.eqb k' k then Some v else obj_get k fs'
  end.

(** [seq[idx]] on JSON values: lists and strings take integers, objects take
    string keys. *)
Definition subscript (seq idx : value) : result value :=
  match seq with
  | VList l =>
      match index_int idx with
      | Some z =>
          match list_item l z with
          | Some v => Ok v
          | None => Raise "IndexError"
          end
      | None => Raise "TypeError"
      end
  | VStr s =>
      match index_int idx with
      | Some z =>
          match list_item (list_ascii_of_string s) z with
          | Some c => Ok (VStr (String c ""))
          | None => Raise "IndexError"
          end
      | None => Raise "TypeError"
      end
  | VObj fs =>
      match idx with
      | VStr k =>
          match obj_get k fs with
          | Some v => Ok v
          | None => Raise "KeyError"
          end
      | _ => Raise "KeyError"
      end
  | _ => Raise "TypeError"
  end.

Section Formatting.

(** [str] of the JSON values that take more than a table to print: floats,
    lists and objects. *)
Variable str_other : value -> string.

(** What an f-string prints for a value. *)
Definition str_value (v : value) : string :=
  match v with
  | VStr s => s
  | VNum (NInt z) => str_Z z
  | VBool true => "True"
  | VBool false => "False"
  | VNull => "None"
  | _ => str_other v
  end.

Definition _get_device_status (device : gadget) : result string :=
  if String.eqb (g_type device) "light" then
    let! modes := field "color_modes" device in
    let! state := field "state" device in
    let! mode := subscript modes state in
    Ok (str_value mode)
  else if String.eqb (g_type device) "ac" then
    let! on := field "on" device in
    let! temperature := field "temperature" device in
    Ok ((if truthy on then "ON" else "OFF") +:+ ", "
          +:+ str_value temperature +:+ "°C")
  else if String.eqb (g_type device) "tv" then
    let! channels := field "channels" device in
    let! channel := field "channel" device in
    let! ch := subscript channels channel in
    let! ch_id := subscript ch (VStr "id") in
    let! ch_name := subscript ch (VStr "name") in
    Ok ("Channel " +:+ str_value ch_id +:+ ": " +:+ str_value ch_name)
  else if String.eqb (g_type device) "door_lock" then
    let! locked := field "locked" device in
    Ok (if truthy locked then "Locked" else "Unlocked")
  else Ok "unknown".

(** A loop that builds a list of lines and stops at the first exception. *)
Fixpoint lines_of {A} (line : A -> result string) (l : list A)
  : result (list string) :=
  match l with
  | [] => Ok []
  | x :: l' =>
      let! s := line x in
      let! rest := lines_of line l' in
      Ok (s :: rest)
  end.

Definition newline : string := String "010" "".

Definition get_all_devices (t : tools) : result string * tools :=
  let t := load_devices t in
  ((let! device_list :=
      lines_of
        (fun kv =>
           let! status := _get_device_status (snd kv) in
           Ok ("- " +:+ fst kv +:+ " (" +:+ g_type (snd kv) +:+ " in "
                 +:+ g_room (snd kv) +:+ "): " +:+ status))
        (gadgets t) in
    Ok (PyStr.join newline device_list)), t).

Definition get_room_status (room_name : string) (t : tools)
  : result string * tools :=
  let t := load_devices t in
  match dict_get room_name (rooms t) with
  | None =>
      (Ok ("Room '" +:+ room_name +:+ "' not found. Available: "
             +:+ PyStr.join ", " (List.map fst (rooms t))), t)
  | Some _ =>
      let room_devices :=
        List.filter (fun g => String.eqb (g_room g) room_name)
          (List.map snd (gadgets t)) in
      match room_devices with
      | [] => (Ok ("No devices found in " +:+ room_name), t)
      | _ :: _ =>
          ((let! status_list :=
              lines_of
                (fun g =>
                   let! status := _get_device_status g in
                   Ok ("- " +:+ g_id g +:+ ": " +:+ status))
                room_devices in
            Ok ("Status of " +:+ room_name +:+ ":" +:+ newline
                  +:+ PyStr.join newline status_list)), t)
      end
  end.

End Formatting.

(** [get_energy_usage]: the loop yields the lines and the total. *)
Definition watts (g : gadget) : result (option Z) :=
  if String.eqb (g_type g) "light" then
    let! state := field "state" g in
    Ok (if nonzero state then Some 10%Z else None)
  else if String.eqb (g_type g) "ac" then
    let! on := field "on" g in
    Ok (if truthy on then Some 1500%Z else None)
  else if String.eqb (g_type g) "tv" then
    let! channel := field "channel" g in
    Ok (if nonzero channel then Some 100%Z else None)
  else Ok None.

Fixpoint energy_loop (gs : list gadget) (active : list string) (total : Z)
  : result (list string * Z) :=
  match gs with
  | [] => Ok (active, total)
  | g :: gs' =>
      let! w := watts g in
      match w with
      | Some n =>
          energy_loop gs'
            (List.app active [g_id g +:+ ": ~" +:+ str_Z n +:+ "W"])
            (total + n)
      | None => energy_loop gs' active total
      end
  end.

Definition get_energy_usage (t : tools) : result string * tools :=
  let t := load_devices t in
  ((let! (active_devices, total_watts) :=
      energy_loop (List.map snd (gadgets t)) [] 0 in
    match active_devices with
    | [] => Ok "No devices currently consuming energy"
    | _ :: _ =>
        Ok ("Active devices:" +:+ newline
              +:+ PyStr.join newline active_devices
              +:+ newline +:+ newline +:+ "Total: ~"
              +:+ str_Z total_watts +:+ "W")
    end), t).

(** [get_security_status]: the loop yields the lines and [all_locked]. *)
Fixpoint security_loop (locks : list gadget) (status_list : list string)
    (all_locked : bool) : result (list string * bool) :=
  match locks with
  | [] => Ok (status_list, all_locked)
  | lock :: locks' =>
      let! locked := field "locked" lock in
      security_loop locks'
        (List.app status_list
           [g_id lock +:+ ": "
              +:+ (if truthy locked then "🔒 Locked" else "🔓 Unlocked")])
        (if truthy locked then all_locked else false)
  end.

Definition get_security_status (t : tools) : result string * tools :=
  let t := load_devices t in
  let locks := List.filter (fun g => String.eqb (g_type g) "door_lock")
                 (List.map snd (gadgets t)) in
  match locks with
  | [] => (Ok "No door locks found", t)
  | _ :: _ =>
      ((let! (status_list, all_locked) := security_loop locks [] true in
        Ok ((if all_locked then "Secure - all doors locked"
             else "Warning - some doors unlocked")
              +:+ newline +:+ PyStr.join newline status_list)), t)
  end.

(** [control_tv]: the channel table [{name.lower(): id}] of the device. *)
Fixpoint channel_table (chs : list value) (table : list (string * value))
  : result (list (string * value)) :=
  match chs with
  | [] => Ok table
  | ch :: chs' =>
      let! name := subscript ch (VStr "name") in
      match name with
      | VStr n =>
          let! id := subscript ch (VStr "id") in
          channel_table chs' (dict_set (PyStr.lower n) id table)
      | _ => Raise "AttributeError: lower"
      end
  end.

Fixpoint channel_names (chs : list value) : result (list string) :=
  match chs with
  | [] => Ok []
  | ch :: chs' =>
      let! name := subscript ch (VStr "name") in
      match name with
      | VStr n => let! rest := channel_names chs' in Ok (n :: rest)
      | _ => Raise "TypeError: join"
      end
  end.

(** [for ch in device["channels"]]: the elements of a list; an empty string
    or object has nothing to iterate over; the characters of a string and the
    keys of an object are strings, on which [ch["name"]] raises, and the
    other values are not iterable. *)
Definition channels_of (g : gadget) : result (list value) :=
  let! v := field "channels" g in
  match v with
  | VList chs => Ok chs
  | VStr "" => Ok []
  | VObj [] => Ok []
  | _ => Raise "TypeError: channels"
  end.

Definition control_tv (device_id channel : string) (t : tools)
  : result string * tools :=
  let t := load_devices t in
  match dict_get device_id (gadgets t) with
  | None => (Ok ("Device " +:+ device_id +:+ " not found"), t)
  | Some device =>
      if negb (String.eqb (g_type device) "tv")
      then (Ok (device_id +:+ " is not a TV"), t)
      else
        match (let! chs := channels_of device in
               let! table := channel_table chs [] in
               Ok (chs, table)) with
        | Raise e => (Raise e, t)
        | Ok (chs, table) =>
            match dict_get (PyStr.lower channel) table with
            | None =>
                match channel_names chs with
                | Ok names =>
                    (Ok ("Invalid channel. Available: "
                           +:+ PyStr.join ", " names), t)
                | Raise e => (Raise e, t)
                end
            | Some id =>
                let t1 := with_gadgets
                            (dict_alter (set_field "channel" id)
                               device_id (gadgets t)) t in
                (Ok ("Set " +:+ device_id +:+ " to channel: " +:+ channel),
                 save_devices t1)
            end
        end
  end.

End Reports.

(** ** Notions used to state the properties of the tool set *)

(** The gadget table [gs'] has the keys of [gs] in the same order, agrees
    with [gs] on every key but [device_id], and under [device_id] holds a
    gadget with the same id, type and room as before. *)
Definition touches_only (device_id : string)
    (gs gs' : list (string * Tools.gadget)) : Prop :=
  List.map fst gs' = List.map fst gs
  /\ forall k,
       if String.eqb k device_id then
         (fun g => (Tools.g_id g, Tools.g_type g, Tools.g_room g))
           <$> Tools.dict_get k gs'
         = (fun g => (Tools.g_id g, Tools.g_type g, Tools.g_room g))
             <$> Tools.dict_get k gs
       else Tools.dict_get k gs' = Tools.dict_get k gs.

(** The entry of a gadget, [None] (Python's) when there is none. *)
Definition field_or_null (k : string) (g : Tools.gadget) : value :=
  default VNull (Tools.g_fields g !! k).

Definition is_door_lock (g : Tools.gadget) : bool :=
  String.eqb (Tools.g_type g) "door_lock".

Definition is_locked (g : Tools.gadget) : bool :=
  Reports.truthy (field_or_null "locked" g).

Definition security_line (g : Tools.gadget) : string :=
  Tools.g_id g +:+ ": "
    +:+ (if is_locked g then "🔒 Locked" else "🔓 Unlocked").

(** The gadgets [get_energy_usage] counts as consuming. *)
Definition light_on (g : Tools.gadget) : bool :=
  String.eqb (Tools.g_type g) "light"
  && Reports.nonzero (field_or_null "state" g).

Definition ac_on (g : Tools.gadget) : bool :=
  String.eqb (Tools.g_type g) "ac"
  && Reports.truthy (field_or_null "on" g).

Definition tv_on (g : Tools.gadget) : bool :=
  String.eqb (Tools.g_type g) "tv"
  && Reports.nonzero (field_or_null "channel" g).

(** The entry that [get_energy_usage] reads of a gadget, if any. *)
Definition metered_field (g : Tools.gadget) : option string :=
  if String.eqb (Tools.g_type g) "light" then Some "state"
  else if String.eqb (Tools.g_type g) "ac" then Some "on"
  else if String.eqb (Tools.g_type g) "tv" then Some "channel"
  else None.

Definition metered (g : Tools.gadget) : bool :=
  match metered_field g with
  | Some k => bool_decide (is_Some (Tools.g_fields g !! k))
  | None => true
  end.

(** A channel document with the given name and id. *)
Definition channel_doc (ch : value) (entry : string * value) : Prop :=
  Reports.subscript ch (VStr "name") = Ok (VStr (fst entry))
  /\ Reports.subscript ch (VStr "id") = Ok (snd entry).

(** ** More sample data: the house of [embedded_devices.py] *)

Module House.

Definition channel (id : Z) (name color : string) : value :=
  VObj [("id", VNum (NInt id)); ("name", VStr name); ("color", VStr color)].

Definition channels : list value :=
  [channel 0 "Off" "gray"; channel 1 "News" "blue";
   channel 2 "Cartoon" "green"; channel 3 "Sports" "red";
   channel 4 "Movies" "purple"].

Definition channel_entries : list (string * value) :=
  [("Off", VNum (NInt 0)); ("News", VNum (NInt 1));
   ("Cartoon", VNum (NInt 2)); ("Sports", VNum (NInt 3));
   ("Movies", VNum (NInt 4))].

Definition modes : value :=
  VList [VStr "off"; VStr "warm_white"; VStr "bright_yellow"; VStr "cool_blue"].

Definition tv : Tools.gadget :=
  Tools.Gadget "tv_living" "tv" "living"
    (<["channel" := VNum (NInt 4)]> {[ "channels" := VList channels ]}).

Definition file : Tools.document :=
  Tools.Document
    [Tools.Gadget "light_living" "light" "living"
       (<["state" := VNum (NInt 0)]> {[ "color_modes" := modes ]});
     Tools.Gadget "ac_living" "ac" "living"
       (<["on" := VBool true]>
          (<["temperature" := VNum (NInt 20)]>
             {[ "range" := VList [VNum (NInt 18); VNum (NInt 28)] ]}));
     tv;
     Tools.Gadget "light_bedroom" "light" "bedroom"
       (<["state" := VNum (NInt 1)]> {[ "color_modes" := modes ]});
     Tools.Gadget "door_bedroom" "door_lock" "bedroom"
       {[ "locked" := VBool true ]}]
    [Tools.Room "living" ∅; Tools.Room "bedroom" ∅].

Definition tools0 : Tools.tools :=
  Tools.load_devices (Tools.ToolsState file [] [] []).

End House.

(** What [get_energy_usage] charges a gadget, its line and the sums. *)
Definition consumption (g : Tools.gadget) : option Z :=
  if light_on g then Some 10%Z
  else if ac_on g then Some 1500%Z
  else if tv_on g then Some 100%Z
  else None.

Definition energy_lines (gs : list Tools.gadget) : list string :=
  flat_map
    (fun g =>
       match consumption g with
       | Some n => [Tools.g_id g +:+ ": ~" +:+ str_Z n +:+ "W"]
       | None => []
       end) gs.

Definition energy_total (gs : list Tools.gadget) : Z :=
  fold_right (fun g s => (default 0%Z (consumption g) + s)%Z) 0%Z gs.

Definition count (p : Tools.gadget -> bool) (gs : list Tools.gadget) : Z :=
  Z.of_nat (length (List.filter p gs)).

(** A device whose room is [room] up to letter case, and one that is of type
    [ty] besides. *)
Definition in_room (room : string) (d : device) : Prop :=
  PyStr.lower (d_room d) = PyStr.lower room.

Definition device_of (ty room : string) (d : device) : Prop :=
  d_type d = ty /\ in_room room d.

(** The room of an intent is acceptable: a room of the registry or one of
    the two fallback rooms of the parser. *)
Definition room_ok (c : controller) (r : string) : Prop :=
  has_room c r = true \/ r = "living_room" \/ r = "kitchen".

(** * Properties *)

(** ** Text helpers *)

Lemma startswith_app (p s : string) : PyStr.startswith p (p +:+ s) = true.
Proof.
  induction p as [|a p IH]; simpl; [reflexivity|].
  rewrite Ascii.eqb_refl. exact IH.
Qed.

Lemma contains_here (sub s : string) : PyStr.contains sub (sub +:+ s) = true.
Proof.
  destruct sub as [|a sub]; destruct s as [|b s]; simpl;
    rewrite ?Ascii.eqb_refl, ?startswith_app; reflexivity.
Qed.

Lemma contains_skip (sub pre s : string) :
  PyStr.contains sub s = true -> PyStr.contains sub (pre +:+ s) = true.
Proof.
  intros H. induction pre as [|a pre IH]; simpl; [exact H|].
  rewrite IH. apply orb_true_r.
Qed.

Lemma contains_middle (sub pre post : string) :
  PyStr.contains sub (pre +:+ sub +:+ post) = true.
Proof. apply contains_skip, contains_here. Qed.

(** ** The registry *)

Section RegistryFacts.

Variable clock : nat -> datetime.

Lemma get_dev_alter_dev f id id' l :
  get_dev id' (alter_dev f id l)
  = if String.eqb id' id then f <$> get_dev id l else get_dev id' l.
Proof.
  induction l as [|[k d] l IH]; simpl.
  - destruct (String.eqb id' id); reflexivity.
  - destruct (String.eqb_spec k id) as [->|Hk]; simpl.
    + destruct (String.eqb_spec id' id) as [->|Hne].
      * rewrite String.eqb_refl. reflexivity.
      * destruct (String.eqb_spec id id') as [Heq|_]; [congruence|reflexivity].
    + rewrite IH. destruct (String.eqb_spec id' id) as [->|Hne].
      * destruct (String.eqb_spec k id); [congruence|reflexivity].
      * reflexivity.
Qed.

Lemma alter_dev_keys f id l :
  List.map fst (alter_dev f id l) = List.map fst l.
Proof.
  induction l as [|[k d] l IH]; simpl; [reflexivity|].
  destruct (String.eqb k id); simpl; congruence.
Qed.

Lemma update_device_state_history id st c :
  command_history (snd (update_device_state clock id st c)) = command_history c.
Proof.
  unfold update_device_state. destruct (get_dev id (devices c)); reflexivity.
Qed.

Lemma update_device_state_present id st c d :
  get_dev id (devices c) = Some d ->
  update_device_state clock id st c
  = (true,
     Controller
       (alter_dev (merge_state st (dt_iso (clock (ticks c)))) id (devices c))
       (command_history c) (S (ticks c))).
Proof. intros H. unfold update_device_state. rewrite H. reflexivity. Qed.

Lemma update_device_state_absent id st c :
  get_dev id (devices c) = None ->
  update_device_state clock id st c = (false, c).
Proof. intros H. unfold update_device_state. rewrite H. reflexivity. Qed.

Lemma update_lights_history lights st acc c :
  command_history (snd (update_lights clock lights st acc c))
  = command_history c.
Proof.
  revert acc c. induction lights as [|l lights IH]; intros acc c; simpl.
  - reflexivity.
  - pose proof (update_device_state_history (d_id l) st c) as H.
    destruct (update_device_state clock (d_id l) st c) as [ok c'].
    simpl in H. rewrite IH. exact H.
Qed.

Lemma get_dev_In l k d :
  NoDup l.*1 -> (k, d) ∈ l -> get_dev k l = Some d.
Proof.
  induction l as [|[k' d'] l IH]; simpl; intros Hnd Hin.
  - apply elem_of_nil in Hin. contradiction.
  - apply NoDup_cons in Hnd as [Hk Hnd].
    apply elem_of_cons in Hin as [Heq|Hin].
    + inversion Heq; subst. rewrite String.eqb_refl. reflexivity.
    + destruct (String.eqb_spec k' k) as [->|_].
      * exfalso. apply Hk. apply list_elem_of_fmap. exists (k, d). split; [reflexivity|exact Hin].
      * apply IH; assumption.
Qed.

Lemma registry_wf_get c d :
  registry_wf c -> In d (List.map snd (devices c)) ->
  get_dev (d_id d) (devices c) = Some d.
Proof.
  intros [Hnd Hid] Hin. apply in_map_iff in Hin as [[k d'] [Heq Hin]].
  simpl in Heq. subst d'. apply list_elem_of_In in Hin.
  rewrite Forall_forall in Hid. pose proof (Hid _ Hin) as Hk. simpl in Hk.
  rewrite Hk. apply get_dev_In; assumption.
Qed.

End RegistryFacts.

Lemma lookup_merged (partial st : gmap string value) (k : string) :
  (partial ∪ st) !! k
  = match partial !! k with Some v => Some v | None => st !! k end.
Proof.
  rewrite lookup_union. destruct (partial !! k), (st !! k); reflexivity.
Qed.

(** C9: for an id of the registry, [update_device_state] returns [True],
    merges the partial state into the device's state field by field (a field
    the partial state does not name keeps its value), stamps [last_updated]
    and touches no other device; for an unknown id it returns [False] and the
    controller is unchanged.  The function is total: nothing is raised. *)
Theorem update_device_state_merges (clock : nat -> datetime) (id : string)
    (partial : gmap string value) (c : controller) :
  match get_dev id (devices c) with
  | Some d =>
      let d' := Device (d_id d) (d_name d) (d_type d) (d_room d)
                  (partial ∪ d_state d) (dt_iso (clock (ticks c))) in
      let r := update_device_state clock id partial c in
      fst r = true
      /\ (forall id', get_dev id' (devices (snd r))
                      = if String.eqb id' id then Some d'
                        else get_dev id' (devices c))
      /\ (forall k, d_state d' !! k
                    = match partial !! k with
                      | Some v => Some v
                      | None => d_state d !! k
                      end)
      /\ List.map fst (devices (snd r)) = List.map fst (devices c)
      /\ command_history (snd r) = command_history c
  | None => update_device_state clock id partial c = (false, c)
  end.
Proof.
  destruct (get_dev id (devices c)) as [d|] eqn:Hget.
  - cbv zeta. rewrite (update_device_state_present clock id partial c d Hget).
    simpl. repeat split.
    + intros id'. rewrite get_dev_alter_dev, Hget. reflexivity.
    + intros k. apply lookup_merged.
    + apply alter_dev_keys.
  - apply update_device_state_absent. exact Hget.
Qed.

(** ** Controller-backed tools *)

(** What the room-and-type queries of the tools select, in terms of the
    registry: the devices of the type whose room is the room up to case, in
    the order of the registry. *)
Lemma filter_filter_and {A} (p q : A -> bool) (l : list A) :
  List.filter p (List.filter q l) = List.filter (fun x => q x && p x) l.
Proof.
  induction l as [|x l IH]; simpl; [reflexivity|].
  destruct (q x); simpl; [destruct (p x)|]; rewrite IH; reflexivity.
Qed.

Lemma filter_first {A} (p : A -> bool) (l : list A) (x : A) (rest : list A) :
  List.filter p l = x :: rest ->
  exists l1 l2,
    l = List.app l1 (x :: l2)
    /\ (forall y, In y l1 -> p y = false)
    /\ p x = true.
Proof.
  induction l as [|y l IH]; simpl; [discriminate|].
  destruct (p y) eqn:Hy.
  - intros H. injection H as -> _. exists [], l.
    split; [reflexivity|]. split; [intros z []| exact Hy].
  - intros H. destruct (IH H) as (l1 & l2 & -> & Hl1 & Hx).
    exists (y :: l1), l2. split; [reflexivity|]. split; [|exact Hx].
    intros z [<-|Hz]; [exact Hy | apply Hl1; exact Hz].
Qed.

Lemma device_of_spec (ty room : string) (d : device) :
  String.eqb (PyStr.lower (d_room d)) (PyStr.lower room)
    && String.eqb (d_type d) ty = true
  <-> device_of ty room d.
Proof.
  unfold device_of, in_room. rewrite andb_true_iff, !String.eqb_eq. tauto.
Qed.

Lemma typed_query_In (ty room : string) (c : controller) (d : device) :
  In d (List.filter (fun d => String.eqb (d_type d) ty)
          (get_devices_by_room c room))
  <-> In d (List.map snd (devices c)) /\ device_of ty room d.
Proof.
  unfold get_devices_by_room. rewrite filter_filter_and, filter_In.
  rewrite device_of_spec. tauto.
Qed.

Lemma typed_query_none (ty room : string) (c : controller) :
  (forall d, In d (List.map snd (devices c)) -> ~ device_of ty room d) ->
  List.filter (fun d => String.eqb (d_type d) ty) (get_devices_by_room c room)
  = [].
Proof.
  intros Hnone.
  destruct (List.filter _ (get_devices_by_room c room)) as [|x l] eqn:Hf;
    [reflexivity|].
  assert (Hx : In x (List.filter (fun d => String.eqb (d_type d) ty)
                       (get_devices_by_room c room)))
    by (rewrite Hf; left; reflexivity).
  apply typed_query_In in Hx as [Hin Hd]. destruct (Hnone x Hin Hd).
Qed.

Lemma typed_query_first (ty room : string) (c : controller) :
  (exists d, In d (List.map snd (devices c)) /\ device_of ty room d) ->
  exists before x after rest,
    List.filter (fun d => String.eqb (d_type d) ty)
      (get_devices_by_room c room) = x :: rest
    /\ List.map snd (devices c) = List.app before (x :: after)
    /\ device_of ty room x
    /\ (forall d, In d before -> ~ device_of ty room d).
Proof.
  intros (d & Hin & Hd).
  destruct (List.filter (fun d => String.eqb (d_type d) ty)
              (get_devices_by_room c room)) as [|x rest] eqn:Hf.
  - assert (H : In d []); [|destruct H].
    rewrite <- Hf. apply typed_query_In. split; assumption.
  - pose proof Hf as Hf'. unfold get_devices_by_room in Hf'.
    rewrite filter_filter_and in Hf'.
    apply filter_first in Hf' as (l1 & l2 & Hsplit & Hl1 & Hx).
    exists l1, x, l2, rest. split; [reflexivity|]. split; [exact Hsplit|].
    split; [apply device_of_spec; exact Hx|].
    intros y Hy Hdy. apply device_of_spec in Hdy.
    rewrite (Hl1 y Hy) in Hdy. discriminate.
Qed.

(** C7: on a registry as the data model has it (identifiers unique, every
    device stored under its own id) that holds a thermostat whose room is
    the room up to letter case, [set_thermostat] picks the first such
    thermostat of the registry, stores the temperature as its
    [target_temperature], sets its [status] to on, keeps its other entries
    and every other device, and answers with a message that contains the
    temperature.  When no device of the registry is a thermostat of the
    room, whatever the registry, it answers that none was found and the
    controller is unchanged.  The function is total: nothing is raised. *)
Theorem set_thermostat_sets_target (clock : nat -> datetime)
    (str_float : float -> string) (room : string) (t : num) (c : controller) :
  (registry_wf c ->
   (exists d, In d (List.map snd (devices c)) /\ device_of THERMOSTAT room d) ->
   exists before thermostat after d',
     List.map snd (devices c) = List.app before (thermostat :: after)
     /\ device_of THERMOSTAT room thermostat
     /\ (forall d, In d before -> ~ device_of THERMOSTAT room d)
     /\ fst (set_thermostat clock str_float room t c)
        = "Set thermostat in " +:+ room +:+ " to "
            +:+ str_num str_float t +:+ "°C"
     /\ PyStr.contains (str_num str_float t)
          (fst (set_thermostat clock str_float room t c)) = true
     /\ get_dev (d_id thermostat)
          (devices (snd (set_thermostat clock str_float room t c))) = Some d'
     /\ d_state d' !! "target_temperature" = Some (VNum t)
     /\ d_state d' !! "status" = Some (VStr "on")
     /\ (forall k, k <> "target_temperature" -> k <> "status" ->
                   d_state d' !! k = d_state thermostat !! k)
     /\ d_id d' = d_id thermostat
     /\ d_name d' = d_name thermostat
     /\ d_type d' = THERMOSTAT
     /\ d_room d' = d_room thermostat
     /\ (forall id, id <> d_id thermostat ->
           get_dev id (devices (snd (set_thermostat clock str_float room t c)))
           = get_dev id (devices c)))
  /\ ((forall d, In d (List.map snd (devices c)) ->
                 ~ device_of THERMOSTAT room d) ->
      set_thermostat clock str_float room t c
      = ("No thermostat found in " +:+ room, c)).
Proof.
  split.
  - intros Hwf Hex.
    destruct (typed_query_first THERMOSTAT room c Hex)
      as (before & th & after & rest & Hf & Hsplit & Hth & Hbefore).
    exists before, th, after.
    assert (Hin : In th (List.map snd (devices c))).
    { rewrite Hsplit. apply in_or_app. right. left. reflexivity. }
    pose proof (registry_wf_get c th Hwf Hin) as Hget.
    unfold set_thermostat. rewrite Hf. cbv zeta.
    rewrite (update_device_state_present clock _ _ c th Hget). simpl.
    eexists. split; [exact Hsplit|]. split; [exact Hth|].
    split; [exact Hbefore|]. split; [reflexivity|]. split.
    { apply (contains_skip _ "Set thermostat in "), (contains_skip _ room),
        (contains_skip _ " to "), contains_here. }
    split.
    { rewrite get_dev_alter_dev, String.eqb_refl, Hget. reflexivity. }
    simpl. split; [rewrite lookup_merged; reflexivity|].
    split; [rewrite lookup_merged; reflexivity|].
    split.
    { intros k Hk1 Hk2. rewrite lookup_merged.
      rewrite lookup_insert_ne by congruence.
      rewrite lookup_insert_ne by congruence.
      rewrite lookup_empty. reflexivity. }
    split; [reflexivity|]. split; [reflexivity|].
    split; [apply Hth|]. split; [reflexivity|].
    intros id Hid. rewrite get_dev_alter_dev.
    destruct (String.eqb_spec id (d_id th)); [contradiction | reflexivity].
  - intros Hnone. unfold set_thermostat.
    rewrite (typed_query_none THERMOSTAT room c Hnone). reflexivity.
Qed.

Lemma set_thermostat_sets_target_witness :
  registry_wf Sample.home
  /\ (exists d, In d (List.map snd (devices Sample.home))
                /\ device_of THERMOSTAT "Living_Room" d)
  /\ (exists before thermostat after d',
        List.map snd (devices Sample.home)
        = List.app before (thermostat :: after)
        /\ device_of THERMOSTAT "Living_Room" thermostat
        /\ (forall d, In d before -> ~ device_of THERMOSTAT "Living_Room" d)
        /\ fst (set_thermostat Sample.clock Sample.str_float "Living_Room"
                  (NInt 22) Sample.home)
           = "Set thermostat in " +:+ "Living_Room" +:+ " to "
               +:+ str_num Sample.str_float (NInt 22) +:+ "°C"
        /\ PyStr.contains (str_num Sample.str_float (NInt 22))
             (fst (set_thermostat Sample.clock Sample.str_float "Living_Room"
                     (NInt 22) Sample.home)) = true
        /\ get_dev (d_id thermostat)
             (devices (snd (set_thermostat Sample.clock Sample.str_float
                              "Living_Room" (NInt 22) Sample.home)))
           = Some d'
        /\ d_state d' !! "target_temperature" = Some (VNum (NInt 22))
        /\ d_state d' !! "status" = Some (VStr "on")
        /\ (forall k, k <> "target_temperature" -> k <> "status" ->
                      d_state d' !! k = d_state thermostat !! k)
        /\ d_id d' = d_id thermostat
        /\ d_name d' = d_name thermostat
        /\ d_type d' = THERMOSTAT
        /\ d_room d' = d_room thermostat
        /\ (forall id, id <> d_id thermostat ->
              get_dev id
                (devices (snd (set_thermostat Sample.clock Sample.str_float
                                 "Living_Room" (NInt 22) Sample.home)))
              = get_dev id (devices Sample.home)))
  /\ (forall d, In d (List.map snd (devices Sample.home)) ->
                ~ device_of THERMOSTAT "garage" d)
  /\ set_thermostat Sample.clock Sample.str_float "garage" (NInt 22)
       Sample.home
     = ("No thermostat found in garage", Sample.home)
  /\ fst (set_thermostat Sample.clock Sample.str_float "Living_Room" (NInt 22)
            Sample.home)
     = "Set thermostat in Living_Room to 22°C"
  /\ match get_dev "thermostat_living"
             (devices (snd (set_thermostat Sample.clock Sample.str_float
                              "Living_Room" (NInt 22) Sample.home))) with
     | Some d' =>
         d_state d' !! "target_temperature" = Some (VNum (NInt 22))
         /\ d_state d' !! "status" = Some (VStr "on")
         /\ d_state d' !! "current_temperature" = Some (VNum (NInt 21))
     | None => False
     end.
Proof.
  assert (Hwf : registry_wf Sample.home)
    by (split; apply (bool_decide_unpack _); vm_compute; reflexivity).
  assert (Hex : exists d, In d (List.map snd (devices Sample.home))
                          /\ device_of THERMOSTAT "Living_Room" d).
  { eexists. split; [right; left; reflexivity|].
    split; vm_compute; reflexivity. }
  assert (Hnone : forall d, In d (List.map snd (devices Sample.home)) ->
                            ~ device_of THERMOSTAT "garage" d).
  { intros d Hd [Hty Hroom]. simpl in Hd.
    destruct Hd as [<-|[<-|[<-|[<-|[]]]]]; vm_compute in Hty, Hroom;
      discriminate. }
  split; [exact Hwf|]. split; [exact Hex|]. split.
  { exact (proj1 (set_thermostat_sets_target Sample.clock Sample.str_float
                    "Living_Room" (NInt 22) Sample.home) Hwf Hex). }
  split; [exact Hnone|]. split.
  { exact (proj2 (set_thermostat_sets_target Sample.clock Sample.str_float
                    "garage" (NInt 22) Sample.home) Hnone). }
  split; [vm_compute; reflexivity|].
  vm_compute. repeat split.
Defined.

(** C3, the claim as stated fails: when no light is found in the room,
    [control_lights] returns before [log_command], so the invocation leaves
    no entry in the history. *)
Lemma control_lights_not_found_logs_nothing :
  control_lights Sample.clock "garage" "on" Sample.home
  = ("No lights found in garage", Sample.home)
  /\ length (command_history
               (snd (control_lights Sample.clock "garage" "on" Sample.home)))
     <> S (length (command_history Sample.home)).
Proof. split; [reflexivity | vm_compute; discriminate]. Qed.

Lemma room_query_In (room : string) (c : controller) (d : device) :
  In d (get_devices_by_room c room)
  <-> In d (List.map snd (devices c)) /\ in_room room d.
Proof.
  unfold get_devices_by_room, in_room. rewrite filter_In, String.eqb_eq.
  tauto.
Qed.

Lemma startswith_refl (s : string) : PyStr.startswith s s = true.
Proof.
  induction s as [|a s IH]; simpl; [reflexivity|].
  rewrite Ascii.eqb_refl. exact IH.
Qed.

Lemma startswith_app_l (p q s : string) :
  PyStr.startswith (p +:+ q) s = true -> PyStr.startswith p s = true.
Proof.
  revert s. induction p as [|a p IH]; intros s; [reflexivity|].
  change (String a p +:+ q) with (String a (p +:+ q)). simpl.
  destruct s as [|b s]; [discriminate|].
  destruct (Ascii.eqb a b); simpl; [apply IH | discriminate].
Qed.

(** A text built by appending to a header starts with the header. *)
Lemma fold_append_prefix {A} (line : A -> string) (l : list A)
    (header : string) :
  PyStr.startswith header
    (fold_left (fun status x => status +:+ line x) l header) = true.
Proof.
  revert header. induction l as [|x l IH]; intros header; simpl.
  - apply startswith_refl.
  - apply (startswith_app_l header (line x)). apply IH.
Qed.

(** C3, amended.  A target that is not found is answered with a descriptive
    string, and nothing is changed on that path: [control_lights],
    [set_thermostat], [control_device] and [get_room_status] of [SHAgent.py]
    return the controller as they got it (no history entry is appended),
    and [control_light], [control_ac], [control_tv], [control_door_lock],
    [create_scene] and [get_room_status] of [tools.py] answer an unknown
    device id, scene or room without changing a gadget or writing the file.
    [control_light], [control_tv] and [control_door_lock] validate before
    they mutate: unless they answer with their success message, no gadget
    is changed and the file is not written.  When the target is found,
    [control_lights] appends exactly one history entry, whose success flag
    tells whether at least one light was updated; [set_thermostat] and
    [control_device] append exactly one entry with success [True] when the
    update succeeds (always so on a registry keyed by device id) and none
    when [update_device_state] refuses, answering "Failed ..." with nothing
    changed.  [get_room_status] never logs. *)
Theorem tools_log_once_when_found (clock : nat -> datetime)
    (str_float : float -> string) (str_dict : gmap string value -> string)
    (str_other : value -> string) (c : controller) (t : Tools.tools) :
  (* control_lights *)
  (forall room act,
     let r := control_lights clock room act c in
     ((forall d, In d (List.map snd (devices c)) -> ~ device_of LIGHT room d) ->
      r = ("No lights found in " +:+ room, c))
     /\ ((exists d, In d (List.map snd (devices c)) /\ device_of LIGHT room d) ->
         exists e,
           command_history (snd r) = List.app (command_history c) [e]
           /\ command e = "Turn " +:+ act +:+ " lights in " +:+ room
           /\ action e = act
           /\ success e = Nat.ltb 0 (length (devices_affected e))
           /\ fst r = "Turned " +:+ act +:+ " "
                        +:+ str_nat (length (devices_affected e))
                        +:+ " lights in " +:+ room))
  (* set_thermostat *)
  /\ (forall room temp,
        let r := set_thermostat clock str_float room temp c in
        let logged :=
          exists e,
            command_history (snd r) = List.app (command_history c) [e]
            /\ command e = "Set thermostat in " +:+ room +:+ " to "
                             +:+ str_num str_float temp
            /\ action e = "set_temperature_" +:+ str_num str_float temp
            /\ (exists id, devices_affected e = [id])
            /\ success e = true
            /\ fst r = "Set thermostat in " +:+ room +:+ " to "
                         +:+ str_num str_float temp +:+ "°C" in
        ((forall d, In d (List.map snd (devices c)) ->
                    ~ device_of THERMOSTAT room d) ->
         r = ("No thermostat found in " +:+ room, c))
        /\ ((exists d, In d (List.map snd (devices c))
                       /\ device_of THERMOSTAT room d) ->
            (logged \/ r = ("Failed to set thermostat in " +:+ room, c))
            /\ (registry_wf c -> logged)))
  (* control_device *)
  /\ (forall device_id act,
        let r := control_device clock str_dict device_id act c in
        match get_dev device_id (devices c) with
        | None => r = ("Device " +:+ device_id +:+ " not found", c)
        | Some device =>
            fst r = "Successfully updated " +:+ d_name device
            /\ exists e,
                 command_history (snd r) = List.app (command_history c) [e]
                 /\ command e = "Control device " +:+ device_id
                 /\ action e = str_dict act
                 /\ devices_affected e = [device_id]
                 /\ success e = true
        end)
  (* get_room_status of SHAgent.py *)
  /\ (forall room,
        let r := get_room_status str_dict room c in
        snd r = c
        /\ ((forall d, In d (List.map snd (devices c)) -> ~ in_room room d) ->
            fst r = "No devices found in " +:+ room)
        /\ ((exists d, In d (List.map snd (devices c)) /\ in_room room d) ->
            PyStr.startswith
              ("Status of devices in " +:+ room +:+ String ":" (String "010" ""))
              (fst r) = true))
  (* the device controls of tools.py: an unknown id *)
  /\ (forall device_id arg temperature,
        Tools.dict_get device_id (Tools.gadgets (Tools.load_devices t)) = None ->
        Tools.control_light device_id arg t
        = (Ok ("Device " +:+ device_id +:+ " not found"), Tools.load_devices t)
        /\ Tools.control_ac device_id arg temperature t
           = (Ok ("Device " +:+ device_id +:+ " not found"),
              Tools.load_devices t)
        /\ Reports.control_tv device_id arg t
           = (Ok ("Device " +:+ device_id +:+ " not found"),
              Tools.load_devices t)
        /\ Tools.control_door_lock device_id arg t
           = (Ok ("Device " +:+ device_id +:+ " not found"),
              Tools.load_devices t))
  (* validation before mutation *)
  /\ (forall device_id arg,
        (snd (Tools.control_light device_id arg t) = Tools.load_devices t
         \/ fst (Tools.control_light device_id arg t)
            = Ok ("Set " +:+ device_id +:+ " to " +:+ arg))
        /\ (snd (Reports.control_tv device_id arg t) = Tools.load_devices t
            \/ fst (Reports.control_tv device_id arg t)
               = Ok ("Set " +:+ device_id +:+ " to channel: " +:+ arg))
        /\ (snd (Tools.control_door_lock device_id arg t) = Tools.load_devices t
            \/ fst (Tools.control_door_lock device_id arg t)
               = Ok (device_id +:+ " is now "
                       +:+ (if String.eqb (PyStr.lower arg) "lock"
                            then "locked" else "unlocked"))))
  (* an unknown scene, an unknown room *)
  /\ (forall scene_name,
        Tools.dict_get (PyStr.lower scene_name) Tools.scenes = None ->
        Tools.create_scene scene_name t
        = (Ok ("Scene '" +:+ scene_name +:+ "' not found. Available: "
                 +:+ "movie, sleep, away, morning"),
           Tools.load_devices t))
  /\ (forall room_name,
        snd (Reports.get_room_status str_other room_name t)
        = Tools.load_devices t
        /\ (Tools.dict_get room_name (Tools.rooms (Tools.load_devices t)) = None ->
            fst (Reports.get_room_status str_other room_name t)
            = Ok ("Room '" +:+ room_name +:+ "' not found. Available: "
                    +:+ PyStr.join ", "
                          (List.map fst (Tools.rooms (Tools.load_devices t))))))
  (* loading writes nothing *)
  /\ Tools.disk (Tools.load_devices t) = Tools.disk t.
Proof.
  split; [|split; [|split; [|split; [|split; [|split; [|split; [|split]]]]]]].
  - intros room act. cbv zeta. split.
    + intros Hnone. unfold control_lights.
      rewrite (typed_query_none LIGHT room c Hnone). reflexivity.
    + intros Hex.
      destruct (typed_query_first LIGHT room c Hex)
        as (before & l & after & ls & Hf & _).
      unfold control_lights. rewrite Hf. cbv zeta.
      pose proof (update_lights_history clock (l :: ls)
                    (<["power" := VStr act]> (<["status" := VStr act]> ∅)) [] c)
        as Hh.
      destruct (update_lights clock (l :: ls) _ [] c) as [affected c1].
      simpl in Hh. eexists. simpl. rewrite Hh.
      split; [reflexivity|]. split; [reflexivity|]. split; [reflexivity|].
      split; reflexivity.
  - intros room temp. cbv zeta. split.
    + intros Hnone. unfold set_thermostat.
      rewrite (typed_query_none THERMOSTAT room c Hnone). reflexivity.
    + intros Hex.
      destruct (typed_query_first THERMOSTAT room c Hex)
        as (before & th & after & rest & Hf & Hsplit & _).
      assert (Hlogged :
                forall d0, get_dev (d_id th) (devices c) = Some d0 ->
                exists e,
                  command_history
                    (snd (set_thermostat clock str_float room temp c))
                  = List.app (command_history c) [e]
                  /\ command e = "Set thermostat in " +:+ room +:+ " to "
                                   +:+ str_num str_float temp
                  /\ action e = "set_temperature_" +:+ str_num str_float temp
                  /\ (exists id, devices_affected e = [id])
                  /\ success e = true
                  /\ fst (set_thermostat clock str_float room temp c)
                     = "Set thermostat in " +:+ room +:+ " to "
                         +:+ str_num str_float temp +:+ "°C").
      { intros d0 Hget. unfold set_thermostat. rewrite Hf. cbv zeta.
        rewrite (update_device_state_present clock _ _ c d0 Hget). simpl.
        eexists. split; [reflexivity|]. split; [reflexivity|].
        split; [reflexivity|]. split; [eexists; reflexivity|].
        split; reflexivity. }
      split.
      * destruct (get_dev (d_id th) (devices c)) as [d0|] eqn:Hget.
        -- left. apply (Hlogged d0). reflexivity.
        -- right. unfold set_thermostat. rewrite Hf. cbv zeta.
           rewrite (update_device_state_absent clock _ _ c Hget). reflexivity.
      * intros Hwf. apply (Hlogged th). apply registry_wf_get; [exact Hwf|].
        rewrite Hsplit. apply in_or_app. right. left. reflexivity.
  - intros device_id act. unfold control_device, get_device.
    destruct (get_dev device_id (devices c)) as [d|] eqn:Hget; [|reflexivity].
    cbv zeta. rewrite (update_device_state_present clock _ _ c d Hget). simpl.
    split; [reflexivity|]. eexists. split; [reflexivity|].
    split; [reflexivity|]. split; [reflexivity|]. split; reflexivity.
  - intros room. cbv zeta. unfold get_room_status.
    destruct (get_devices_by_room c room) as [|x l] eqn:Hq.
    + split; [reflexivity|]. split; [reflexivity|].
      intros (d & Hin & Hd).
      assert (H : In d []); [|destruct H].
      rewrite <- Hq. apply room_query_In. split; assumption.
    + split; [reflexivity|]. split.
      * intros Hnone.
        assert (Hx : In x (get_devices_by_room c room))
          by (rewrite Hq; left; reflexivity).
        apply room_query_In in Hx as [Hin Hd]. destruct (Hnone x Hin Hd).
      * intros _. cbn [fst]. apply fold_append_prefix.
  - intros device_id arg temperature Hnone.
    unfold Tools.control_light, Tools.control_ac, Reports.control_tv,
      Tools.control_door_lock.
    cbv zeta. rewrite Hnone. repeat split; reflexivity.
  - intros device_id arg.
    unfold Tools.control_light, Reports.control_tv, Tools.control_door_lock.
    cbv zeta.
    destruct (Tools.dict_get device_id _) as [g|];
      [|repeat split; left; reflexivity].
    split; [|split].
    + destruct (negb (String.eqb (Tools.g_type g) "light"));
        [left; reflexivity|].
      destruct (Tools.color_modes g) as [modes|e]; [|left; reflexivity].
      destruct (negb (PyStr.mem arg modes)); [left | right]; reflexivity.
    + destruct (negb (String.eqb (Tools.g_type g) "tv"));
        [left; reflexivity|].
      destruct (Reports.channels_of g) as [chs|e]; cbn [bind];
        [|left; reflexivity].
      destruct (Reports.channel_table chs []) as [table|e]; cbn [bind];
        [|left; reflexivity].
      destruct (Tools.dict_get (PyStr.lower arg) table);
        [right; reflexivity|].
      destruct (Reports.channel_names chs); left; reflexivity.
    + destruct (negb (String.eqb (Tools.g_type g) "door_lock"));
        [left | right]; reflexivity.
  - intros scene_name Hnone. unfold Tools.create_scene. cbv zeta.
    rewrite Hnone. reflexivity.
  - intros room_name. unfold Reports.get_room_status. cbv zeta.
    destruct (Tools.dict_get room_name _) as [rm|].
    + split; [|discriminate].
      destruct (List.filter _ _); reflexivity.
    + split; [reflexivity|]. intros _. reflexivity.
  - reflexivity.
Qed.

(** ** The rule-based parser *)

Section ParserFacts.
Import Parser.

Variable c : controller.

Lemma mem_insert_sorted (x y : string) (l : list string) :
  PyStr.mem x (PyStr.insert_sorted y l) = String.eqb x y || PyStr.mem x l.
Proof.
  unfold PyStr.mem. induction l as [|z l IH]; simpl; [reflexivity|].
  destruct (String.compare y z) eqn:Hc; simpl.
  - apply String.compare_eq_iff in Hc. subst z.
    destruct (String.eqb x y); reflexivity.
  - reflexivity.
  - rewrite IH. destruct (String.eqb x y), (String.eqb x z); reflexivity.
Qed.

Lemma mem_sorted_set (x : string) (l : list string) :
  PyStr.mem x (PyStr.sorted_set l) = PyStr.mem x l.
Proof.
  induction l as [|y l IH]; simpl; [reflexivity|].
  rewrite mem_insert_sorted, IH. reflexivity.
Qed.

Lemma mem_available (r : string) :
  PyStr.mem r (_available_rooms c) = has_room c r.
Proof. apply mem_sorted_set. Qed.

(** What the first two rules return, given the outcome of their searches. *)
Lemma rule_set_temperature (cmd : string) (m : Re.rmatch_obj) :
  Re.search temp_re (PyStr.lower cmd) = Some m ->
  _rule_based_intent c cmd
  = (temp ← py_float (default "" (Re.group 1 m));
     Some (Intent "set_temperature" []
             (<["room" := VStr (or_str (room_of c (PyStr.lower cmd) None)
                                  "living_room")]>
                {[ "temperature" := VNum (NFloat temp) ]}))).
Proof. intros H. unfold _rule_based_intent. rewrite H. reflexivity. Qed.

Lemma rule_adjust_temperature (cmd : string) (m : Re.rmatch_obj) :
  Re.search temp_re (PyStr.lower cmd) = None ->
  Re.search rel_re (PyStr.lower cmd) = Some m ->
  _rule_based_intent c cmd
  = (delta ← match Re.group 2 m with
              | Some delta_str =>
                  if String.eqb delta_str "" then Some 1%float
                  else py_float delta_str
              | None => Some 1%float
              end;
     Some (adjust_intent (room_of c (PyStr.lower cmd) (Some "living_room"))
             (if negating (default "" (Re.group 1 m))
              then PrimFloat.opp delta else delta))).
Proof. intros H1 H2. unfold _rule_based_intent. rewrite H1, H2. reflexivity. Qed.

Lemma room_of_found (text : string) (dflt : option string) (m : Re.rmatch_obj) :
  Re.search room_re text = Some m ->
  room_of c text dflt = _normalize_room c (default "" (Re.group 1 m)).
Proof. intros H. unfold room_of. rewrite H. reflexivity. Qed.

(** The text "living room" resolves through the synonym table as soon as the
    registry knows [living_room] and has no room called [living]. *)
Lemma normalize_living_room :
  has_room c "living_room" = true ->
  has_room c "living" = false ->
  _normalize_room c "living room" = Some "living_room".
Proof.
  intros Hyes Hno. unfold _normalize_room.
  replace (String.eqb "living room" "") with false by reflexivity.
  replace (room_text "living room") with "living"
    by (vm_compute; reflexivity).
  unfold match_room.
  replace (candidates "living")
    with ["living"; "living"; "living"; "living room"; "living_room";
          "master bedroom"; "master_bedroom"; "bedroom"; "master_bedroom"]
    by reflexivity.
  replace (PyStr.replace " " "_" "living") with "living" in * by reflexivity.
  cbn [List.find].
  replace (PyStr.replace " " "_" "living") with "living" by reflexivity.
  replace (PyStr.replace " " "_" "living room") with "living_room"
    by reflexivity.
  rewrite !mem_available, Hno, Hyes. reflexivity.
Qed.

End ParserFacts.

(** C4, at a registry with the rooms [living_room], [master_bedroom] and
    [entrance]: the three spellings of the living room resolve to
    [living_room]; but every synonym key and value is appended to the
    candidates whatever the text was, so "bedroom" resolves to [living_room]
    (not [master_bedroom]) and a text that names no room resolves to
    [living_room] as well (not [None]). *)
Theorem normalize_room_synonyms_shadow :
  Parser._available_rooms Sample.home
  = ["entrance"; "living_room"; "master_bedroom"]
  /\ Parser._normalize_room Sample.home "Living Room" = Some "living_room"
  /\ Parser._normalize_room Sample.home "living_room" = Some "living_room"
  /\ Parser._normalize_room Sample.home "in the living room" = Some "living_room"
  /\ Parser._normalize_room Sample.home "bedroom" = Some "living_room"
  /\ Parser._normalize_room Sample.home "attic" = Some "living_room".
Proof. repeat split; vm_compute; reflexivity. Qed.

(** C5: a command with the word "unlock" in it (and the word "lock", and
    matching neither temperature rule) is resolved by the unlock rule, which
    is tried before the lock rule. *)
Theorem unlock_rule_precedes_lock_rule (c : controller) (cmd : string) :
  Re.found Parser.lock_word_re (PyStr.lower cmd) = true ->
  Re.found Parser.unlock_word_re (PyStr.lower cmd) = true ->
  Re.search Parser.temp_re (PyStr.lower cmd) = None ->
  Re.search Parser.rel_re (PyStr.lower cmd) = None ->
  exists i, Parser._rule_based_intent c cmd = Some i /\ i_action i = "unlock".
Proof.
  intros _ Hunlock Htemp Hrel. unfold Parser._rule_based_intent.
  rewrite Htemp, Hrel, Hunlock.
  eexists. split; [reflexivity|].
  unfold Parser.lock_intent.
  destruct (Re.found Parser.front_door_re _); reflexivity.
Qed.

Lemma unlock_rule_precedes_lock_rule_witness :
  Re.found Parser.lock_word_re
    (PyStr.lower "don't forget to lock after you unlock") = true
  /\ Re.found Parser.unlock_word_re
       (PyStr.lower "don't forget to lock after you unlock") = true
  /\ Re.search Parser.temp_re
       (PyStr.lower "don't forget to lock after you unlock") = None
  /\ Re.search Parser.rel_re
       (PyStr.lower "don't forget to lock after you unlock") = None
  /\ exists i,
       Parser._rule_based_intent Sample.home
         "don't forget to lock after you unlock" = Some i
       /\ i_action i = "unlock".
Proof.
  repeat split; try (vm_compute; reflexivity).
  apply (unlock_rule_precedes_lock_rule Sample.home
           "don't forget to lock after you unlock");
    vm_compute; reflexivity.
Defined.

Lemma negating_iff (d : string) :
  Parser.negating d = true <-> d = "decrease" \/ d = "lower" \/ d = "cooler".
Proof.
  unfold Parser.negating, PyStr.mem. simpl.
  rewrite !orb_true_iff, !String.eqb_eq. intuition discriminate.
Qed.

(** C6: with [living_room] among the rooms of the registry (and no room
    called [living]), "set living room temperature to 25" is parsed as
    [set_temperature] of 25.0 in [living_room] and "increase the living room
    temperature by 2" as [adjust_temperature] by 2.0 in [living_room].  For a
    relative adjustment the delta is 1.0 when the command gives no number,
    the given number otherwise, and its sign is flipped exactly for the
    directions "decrease", "lower" and "cooler". *)
Theorem rule_based_temperature_intents (c : controller) :
  has_room c "living_room" = true ->
  has_room c "living" = false ->
  Parser._rule_based_intent c "set living room temperature to 25"
  = Some (Intent "set_temperature" []
            (<["room" := VStr "living_room"]>
               {[ "temperature" := VNum (NFloat 25%float) ]}))
  /\ Parser._rule_based_intent c "increase the living room temperature by 2"
     = Some (Intent "adjust_temperature" []
               (<["room" := VStr "living_room"]>
                  {[ "delta" := VNum (NFloat 2%float) ]}))
  /\ (forall cmd m,
        Re.search Parser.temp_re (PyStr.lower cmd) = None ->
        Re.search Parser.rel_re (PyStr.lower cmd) = Some m ->
        Re.group 2 m = None ->
        Parser._rule_based_intent c cmd
        = Some (Parser.adjust_intent
                  (Parser.room_of c (PyStr.lower cmd) (Some "living_room"))
                  (if Parser.negating (default "" (Re.group 1 m))
                   then (-1)%float else 1%float)))
  /\ (forall cmd m n x,
        Re.search Parser.temp_re (PyStr.lower cmd) = None ->
        Re.search Parser.rel_re (PyStr.lower cmd) = Some m ->
        Re.group 2 m = Some n ->
        String.eqb n "" = false ->
        Parser.py_float n = Some x ->
        Parser._rule_based_intent c cmd
        = Some (Parser.adjust_intent
                  (Parser.room_of c (PyStr.lower cmd) (Some "living_room"))
                  (if Parser.negating (default "" (Re.group 1 m))
                   then PrimFloat.opp x else x)))
  /\ (forall d,
        Parser.negating d = true
        <-> d = "decrease" \/ d = "lower" \/ d = "cooler")
  /\ Parser._rule_based_intent c "lower the temperature"
     = Some (Parser.adjust_intent (Some "living_room") (-1)%float)
  /\ Parser._rule_based_intent c "raise the temperature"
     = Some (Parser.adjust_intent (Some "living_room") 1%float)
  /\ Parser._rule_based_intent c "decrease the temperature by 3"
     = Some (Parser.adjust_intent (Some "living_room") (-3)%float).
Proof.
  intros Hyes Hno.
  split; [|split; [|split; [|split; [|split; [|split; [|split]]]]]].
  - erewrite rule_set_temperature by (vm_compute; reflexivity).
    erewrite room_of_found by (vm_compute; reflexivity).
    match goal with
    | |- context [Parser._normalize_room c ?t] =>
        replace t with "living room" by (vm_compute; reflexivity)
    end.
    rewrite (normalize_living_room c Hyes Hno).
    vm_compute. reflexivity.
  - erewrite rule_adjust_temperature by (vm_compute; reflexivity).
    erewrite room_of_found by (vm_compute; reflexivity).
    match goal with
    | |- context [Parser._normalize_room c ?t] =>
        replace t with "living room" by (vm_compute; reflexivity)
    end.
    rewrite (normalize_living_room c Hyes Hno).
    vm_compute. reflexivity.
  - intros cmd m Htemp Hrel Hnone.
    rewrite (rule_adjust_temperature c cmd m Htemp Hrel), Hnone. simpl.
    destruct (Parser.negating _); reflexivity.
  - intros cmd m n x Htemp Hrel Hn Hne Hx.
    rewrite (rule_adjust_temperature c cmd m Htemp Hrel), Hn, Hne, Hx.
    reflexivity.
  - apply negating_iff.
  - vm_compute. reflexivity.
  - vm_compute. reflexivity.
  - vm_compute. reflexivity.
Qed.

Lemma rule_based_temperature_intents_witness :
  has_room Sample.home "living_room" = true
  /\ has_room Sample.home "living" = false
  /\ Parser._rule_based_intent Sample.home "set living room temperature to 25"
     = Some (Intent "set_temperature" []
               (<["room" := VStr "living_room"]>
                  {[ "temperature" := VNum (NFloat 25%float) ]}))
  /\ Parser._rule_based_intent Sample.home
       "increase the living room temperature by 2"
     = Some (Intent "adjust_temperature" []
               (<["room" := VStr "living_room"]>
                  {[ "delta" := VNum (NFloat 2%float) ]})).
Proof.
  split; [vm_compute; reflexivity|]. split; [vm_compute; reflexivity|].
  destruct (rule_based_temperature_intents Sample.home) as (H1 & H2 & _);
    [vm_compute; reflexivity | vm_compute; reflexivity |].
  split; [exact H1 | exact H2].
Defined.

(** ** The command pipeline *)

Section PipelineFacts.
Import Pipeline.

Variable agent_executor :
  option (string -> controller -> result outcome * controller).
Variable llm : option (string -> result llm_reply).

Lemma parsed_command (cmd : string) :
  intent_command
    (Some (Intent "tool_agent" [] {[ "command" := VStr cmd ]})) = cmd.
Proof. unfold intent_command. simpl. rewrite lookup_singleton_eq. reflexivity. Qed.

Lemma execute_action_total (st : wstate) (a : agent) (cmd : string) :
  st_intent st = Some (Intent "tool_agent" [] {[ "command" := VStr cmd ]}) ->
  exists ctrl,
    execute_action agent_executor llm st a
    = Ok (WState (st_command st) (st_intent st)
            (Some (answer agent_executor llm cmd (a_controller a)))
            (st_learned_patterns st) (st_response st),
          Agent ctrl (memory a) (last_intent a)
            (answer agent_executor llm cmd (a_controller a))
            (last_response a)).
Proof.
  intros Hi. unfold execute_action, answer. rewrite Hi, parsed_command. simpl.
  destruct agent_executor as [ainvoke|]; [|eexists; reflexivity].
  destruct (ainvoke cmd (a_controller a)) as [[out|e] ctrl]; simpl.
  - destruct out as [o|s]; eexists; reflexivity.
  - unfold fallback_answer. destruct llm as [invoke|]; simpl.
    + destruct (invoke (fallback_prompt cmd)); eexists; reflexivity.
    + eexists; reflexivity.
Qed.

End PipelineFacts.

(** C1: [process_command] returns a string for every command and never
    raises, whatever the executor and the language model do.  When the
    executor raises, the completion without tools is attempted and its text
    is the response; when that raises too, the response is the fixed
    apology. *)
Theorem process_command_never_raises
    (agent_executor :
       option (string -> controller -> result Pipeline.outcome * controller))
    (llm : option (string -> result Pipeline.llm_reply))
    (cmd : string) (a : Pipeline.agent) :
  exists response a',
    Pipeline.process_command agent_executor llm cmd a = Ok (response, a')
    /\ Pipeline.last_response a' = Some response
    /\ match agent_executor with
       | Some ainvoke =>
           match fst (ainvoke cmd (Pipeline.a_controller a)) with
           | Raise _ =>
               match llm with
               | Some invoke =>
                   match invoke (Pipeline.fallback_prompt cmd) with
                   | Raise _ =>
                       response
                       = "Sorry, I hit a parsing hiccup. Please rephrase or try again."
                   | Ok reply =>
                       response
                       = if Pipeline.truthy (Pipeline.content reply)
                         then default "" (Pipeline.content reply)
                         else Pipeline.reply_str reply
                   end
               | None => response = "I'm unable to process this right now."
               end
           | Ok out =>
               let final := match out with
                            | Pipeline.OutDict o => o
                            | Pipeline.OutOther s => Some s
                            end in
               response
               = if Pipeline.truthy final then default "" final
                 else "I couldn't understand that command. Please try again."
           end
       | None => response = "No agent available to handle the request."
       end.
Proof.
  unfold Pipeline.process_command, Pipeline.workflow, Pipeline.parse_intent.
  cbn [bind].
  destruct (execute_action_total agent_executor llm
              (Pipeline.WState (Some cmd)
                 (Some (Intent "tool_agent" [] {[ "command" := VStr cmd ]}))
                 None None None)
              (Pipeline.Agent (Pipeline.a_controller a) (Pipeline.memory a)
                 (Some (Intent "tool_agent" [] {[ "command" := VStr cmd ]}))
                 (Pipeline.last_results a) (Pipeline.last_response a))
              cmd eq_refl) as [ctrl Hexec].
  simpl in Hexec |- *. rewrite Hexec. simpl.
  unfold Pipeline.learn_from_history. simpl.
  destruct (Nat.ltb 10 _); simpl; (do 2 eexists; split; [reflexivity|]);
    (split; [reflexivity|]);
    unfold Pipeline.answer;
    (destruct agent_executor as [ainvoke|]; [|reflexivity]);
    (destruct (fst (ainvoke cmd (Pipeline.a_controller a))) as [out|e];
       [destruct out as [o|s];
        [destruct (Pipeline.truthy o) | destruct (Pipeline.truthy (Some s))];
        reflexivity|]);
    (destruct llm as [invoke|]; [|reflexivity]);
    destruct (invoke (Pipeline.fallback_prompt cmd)); reflexivity.
Qed.

(** ** The file-backed tool set *)

Section DictFacts.
Import Tools.
Local Open Scope list_scope.

Context {A : Type}.

Lemma dict_get_alter (f : A -> A) (k k' : string) (d : list (string * A)) :
  dict_get k' (dict_alter f k d)
  = if String.eqb k' k then f <$> dict_get k d else dict_get k' d.
Proof.
  induction d as [|[k0 v] d IH]; csimpl.
  - destruct (String.eqb k' k); reflexivity.
  - destruct (String.eqb_spec k0 k) as [->|Hk]; csimpl.
    + destruct (String.eqb_spec k' k) as [->|Hne].
      * rewrite String.eqb_refl. reflexivity.
      * destruct (String.eqb_spec k k'); [congruence|reflexivity].
    + rewrite IH. destruct (String.eqb_spec k' k) as [->|Hne].
      * destruct (String.eqb_spec k0 k); [congruence|reflexivity].
      * reflexivity.
Qed.

Lemma dict_alter_keys (f : A -> A) (k : string) (d : list (string * A)) :
  (dict_alter f k d).*1 = d.*1.
Proof.
  induction d as [|[k0 v] d IH]; csimpl; [reflexivity|].
  destruct (String.eqb k0 k); csimpl; congruence.
Qed.

Lemma dict_set_fresh (k : string) (v : A) (d : list (string * A)) :
  k ∉ d.*1 -> dict_set k v d = d ++ [(k, v)].
Proof.
  induction d as [|[k0 v0] d IH]; csimpl; intros Hk; [reflexivity|].
  apply not_elem_of_cons in Hk as [Hne Hk].
  destruct (String.eqb_spec k0 k); [congruence|].
  rewrite IH by exact Hk. reflexivity.
Qed.

Lemma dict_set_keys_subset (k : string) (v : A) (d : list (string * A)) x :
  x ∈ (dict_set k v d).*1 -> x = k \/ x ∈ d.*1.
Proof.
  induction d as [|[k0 v0] d IH]; csimpl; intros Hx.
  - apply list_elem_of_singleton in Hx. left. exact Hx.
  - destruct (String.eqb_spec k0 k) as [->|Hne]; csimpl in Hx.
    + apply elem_of_cons in Hx as [->|Hx]; [left; reflexivity|].
      right. apply elem_of_cons. right. exact Hx.
    + apply elem_of_cons in Hx as [->|Hx].
      * right. apply elem_of_cons. left. reflexivity.
      * destruct (IH Hx) as [->|H]; [left; reflexivity|].
        right. apply elem_of_cons. right. exact H.
Qed.

Lemma dict_set_keyed (key : A -> string) (x : A) (d : list (string * A)) :
  keyed key d -> keyed key (dict_set (key x) x d).
Proof.
  induction d as [|[k0 v0] d IH]; csimpl; intros [Hnd Hk].
  - split; [apply NoDup_singleton | repeat constructor].
  - apply NoDup_cons in Hnd as [Hfresh Hnd].
    apply Forall_cons in Hk as [Hk0 Hk]. csimpl in Hk0.
    destruct (String.eqb_spec k0 (key x)) as [Heq|Hne].
    + split.
      * csimpl. apply NoDup_cons. rewrite <- Heq. split; assumption.
      * apply Forall_cons. split; [reflexivity | exact Hk].
    + destruct (IH (conj Hnd Hk)) as [Hnd' Hk'].
      split.
      * csimpl. apply NoDup_cons. split; [|exact Hnd'].
        intros Hin. apply dict_set_keys_subset in Hin as [Heq|Hin];
          [congruence | contradiction].
      * apply Forall_cons. split; [exact Hk0 | exact Hk'].
Qed.

Lemma dict_of_list_keyed (key : A -> string) (l : list A) :
  keyed key (dict_of_list key l).
Proof.
  unfold dict_of_list.
  assert (H : forall d, keyed key d ->
            keyed key (fold_left (fun d x => dict_set (key x) x d) l d)).
  { induction l as [|x l IH]; intros d Hd; csimpl; [exact Hd|].
    apply IH, dict_set_keyed, Hd. }
  apply H. split; [apply NoDup_nil_2 | constructor].
Qed.

(** Reading back the values of a keyed dict rebuilds it. *)
Lemma dict_of_list_values (key : A -> string) (d : list (string * A)) :
  keyed key d -> dict_of_list key d.*2 = d.
Proof.
  unfold dict_of_list.
  assert (H : forall d2 d1, keyed key (d1 ++ d2) ->
            fold_left (fun d x => dict_set (key x) x d) d2.*2 d1 = d1 ++ d2).
  { induction d2 as [|[k v] d2 IH]; intros d1 [Hnd Hk]; csimpl.
    - rewrite app_nil_r. reflexivity.
    - assert (Hkv : key v = k).
      { apply Forall_app in Hk as [_ Hk]. apply Forall_cons in Hk as [Hk _].
        exact Hk. }
      rewrite Hkv, dict_set_fresh.
      + rewrite IH; rewrite <- app_assoc; [reflexivity|]. split; assumption.
      + rewrite fmap_app in Hnd. apply NoDup_app in Hnd as (_ & Hdisj & _).
        intros Hin. apply (Hdisj k Hin). csimpl. apply elem_of_cons. left.
        reflexivity. }
  intros Hd. apply (H d []). exact Hd.
Qed.

(** On a dict with unique keys [dict_alter] acts entry by entry. *)
Lemma dict_alter_absent (f : A -> A) (k : string) (d : list (string * A)) :
  k ∉ d.*1 -> dict_alter f k d = d.
Proof.
  induction d as [|[k0 v] d IH]; csimpl; intros Hk; [reflexivity|].
  apply not_elem_of_cons in Hk as [Hne Hk].
  destruct (String.eqb_spec k0 k); [congruence|].
  rewrite IH by exact Hk. reflexivity.
Qed.

Lemma dict_alter_pointwise (f : A -> A) (k : string) (d : list (string * A)) :
  NoDup d.*1 ->
  dict_alter f k d
  = (fun kv => (fst kv, if String.eqb (fst kv) k then f (snd kv) else snd kv))
      <$> d.
Proof.
  induction d as [|[k0 v] d IH]; csimpl; intros Hnd; [reflexivity|].
  apply NoDup_cons in Hnd as [Hfresh Hnd].
  destruct (String.eqb_spec k0 k) as [->|Hne].
  - f_equal. rewrite <- (dict_alter_absent f k d Hfresh) at 1.
    apply IH. exact Hnd.
  - f_equal. apply IH. exact Hnd.
Qed.

End DictFacts.

Lemma dict_of_list_map_snd {A} (key : A -> string) (d : list (string * A)) :
  Tools.keyed key d -> Tools.dict_of_list key (List.map snd d) = d.
Proof. apply dict_of_list_values. Qed.

Section SceneFacts.
Import Tools.

Lemma update_fields_twice (c2 c1 : gmap string value) (g : gadget) :
  update_fields c2 (update_fields c1 g) = update_fields (c2 ∪ c1) g.
Proof.
  unfold update_fields. simpl. f_equal. apply (assoc_L (∪)).
Qed.

Lemma scene_effect_update acts k :
  exists changes, forall g, scene_effect acts k g = update_fields changes g.
Proof.
  induction acts as [|[id ch] acts IH]; simpl.
  - exists ∅. intros [i ty r f]. unfold update_fields. simpl.
    f_equal. symmetry. apply (left_id_L ∅ (∪)).
  - destruct IH as [changes IH]. unfold scene_effect in *. simpl.
    destruct (String.eqb k id).
    + exists (changes ∪ ch). intros g. rewrite IH. apply update_fields_twice.
    + exists changes. exact IH.
Qed.

Lemma scene_effect_idempotent acts k g :
  scene_effect acts k (scene_effect acts k g) = scene_effect acts k g.
Proof.
  destruct (scene_effect_update acts k) as [changes H].
  rewrite !H, update_fields_twice. f_equal. apply (idemp_L (∪)).
Qed.

Lemma apply_actions_keys acts (gs : list (string * gadget)) :
  (apply_actions acts gs).*1 = gs.*1.
Proof.
  unfold apply_actions. revert gs.
  induction acts as [|a acts IH]; intros gs; simpl; [reflexivity|].
  rewrite IH. apply dict_alter_keys.
Qed.

Lemma apply_actions_pointwise acts (gs : list (string * gadget)) :
  NoDup gs.*1 ->
  apply_actions acts gs
  = (fun kv => (fst kv, scene_effect acts (fst kv) (snd kv))) <$> gs.
Proof.
  unfold apply_actions, scene_effect. revert gs.
  induction acts as [|a acts IH]; intros gs Hnd; simpl.
  - induction gs as [|[k g] gs IHgs]; csimpl; [reflexivity|].
    f_equal. apply IHgs. apply NoDup_cons in Hnd as [_ Hnd]. exact Hnd.
  - rewrite IH by (rewrite dict_alter_keys; exact Hnd).
    rewrite dict_alter_pointwise by exact Hnd.
    rewrite <- list_fmap_compose. apply list_fmap_ext.
    intros i [k g] _. reflexivity.
Qed.

Lemma apply_actions_idempotent acts (gs : list (string * gadget)) :
  NoDup gs.*1 ->
  apply_actions acts (apply_actions acts gs) = apply_actions acts gs.
Proof.
  intros Hnd.
  rewrite (apply_actions_pointwise acts (apply_actions acts gs))
    by (rewrite apply_actions_keys; exact Hnd).
  rewrite (apply_actions_pointwise acts gs Hnd).
  rewrite <- list_fmap_compose. apply list_fmap_ext.
  intros i [k g] _. simpl. rewrite scene_effect_idempotent. reflexivity.
Qed.

Lemma update_fields_id changes g : g_id (update_fields changes g) = g_id g.
Proof. reflexivity. Qed.

Lemma apply_actions_keyed acts (gs : list (string * gadget)) :
  keyed g_id gs -> keyed g_id (apply_actions acts gs).
Proof.
  intros [Hnd Hk]. split.
  - rewrite apply_actions_keys. exact Hnd.
  - rewrite (apply_actions_pointwise acts gs Hnd).
    apply Forall_fmap. eapply Forall_impl; [exact Hk|].
    intros [k g] H. simpl in *.
    destruct (scene_effect_update acts k) as [changes Hc].
    rewrite Hc. exact H.
Qed.

End SceneFacts.

(** C8: activating a scene twice in a row leaves the tool set, its gadgets
    and the file exactly as activating it once does, and answers the same;
    this holds for each of the four scenes (and for an unknown name, which
    changes nothing). *)
Theorem create_scene_idempotent (scene_name : string) (t : Tools.tools) :
  let once := Tools.create_scene scene_name t in
  let twice := Tools.create_scene scene_name (snd once) in
  snd twice = snd once
  /\ fst twice = fst once
  /\ match Tools.dict_get (PyStr.lower scene_name) Tools.scenes with
     | Some sc =>
         fst once = Ok ("Activated scene: " +:+ Tools.description sc)
         /\ Tools.gadgets (snd once)
            = Tools.apply_actions (Tools.actions sc)
                (Tools.gadgets (Tools.load_devices t))
         /\ Tools.doc_gadgets (Tools.disk (snd once))
            = (Tools.gadgets (snd once)).*2
     | None => snd once = Tools.load_devices t
     end.
Proof.
  unfold Tools.create_scene.
  destruct (Tools.dict_get (PyStr.lower scene_name) Tools.scenes) as [sc|];
    cbv zeta.
  - pose proof (dict_of_list_keyed Tools.g_id
                  (Tools.doc_gadgets (Tools.disk t))) as Hk0.
    pose proof (apply_actions_keyed (Tools.actions sc) _ Hk0) as Hk1.
    unfold Tools.load_devices, Tools.save_devices, Tools.with_gadgets in *.
    cbn [Tools.disk Tools.gadgets Tools.data_rooms Tools.rooms
         Tools.doc_gadgets Tools.doc_rooms snd fst] in *.
    rewrite (dict_of_list_map_snd Tools.g_id _ Hk1).
    rewrite (apply_actions_idempotent _ _ (proj1 Hk0)).
    repeat split; reflexivity.
  - repeat split; reflexivity.
Qed.

(** C10: on a door lock of the gadget table, [control_door_lock] sets
    [locked] to [True] exactly when the action is "lock" up to letter case;
    any other action is not rejected: it sets [locked] to [False], and the
    answer reports the resulting state.  The change is written to the file. *)
Theorem control_door_lock_any_action (device_id act : string)
    (t : Tools.tools) (device : Tools.gadget) :
  Tools.dict_get device_id (Tools.gadgets (Tools.load_devices t)) = Some device ->
  Tools.g_type device = "door_lock" ->
  let locked := String.eqb (PyStr.lower act) "lock" in
  let r := Tools.control_door_lock device_id act t in
  fst r = Ok (device_id +:+ " is now "
                +:+ (if locked then "locked" else "unlocked"))
  /\ Tools.dict_get device_id (Tools.gadgets (snd r))
     = Some (Tools.set_field "locked" (VBool locked) device)
  /\ Tools.g_fields (Tools.set_field "locked" (VBool locked) device) !! "locked"
     = Some (VBool locked)
  /\ Tools.doc_gadgets (Tools.disk (snd r))
     = List.map snd (Tools.gadgets (snd r)).
Proof.
  intros Hget Hty. cbv zeta. unfold Tools.control_door_lock.
  rewrite Hget, Hty. simpl. repeat split.
  - rewrite dict_get_alter, String.eqb_refl.
    unfold Tools.load_devices in Hget. simpl in Hget. rewrite Hget.
    reflexivity.
  - apply lookup_insert_eq.
Qed.

Lemma control_door_lock_any_action_witness :
  Tools.dict_get "door_bedroom" (Tools.gadgets (Tools.load_devices Sample.tools0))
  = Some (Sample.gadget_of "door_bedroom" "door_lock" "bedroom"
            {[ "locked" := VBool false ]})
  /\ fst (Tools.control_door_lock "door_bedroom" "LOCK" Sample.tools0)
     = Ok "door_bedroom is now locked"
  /\ fst (Tools.control_door_lock "door_bedroom" "toggle"
            (snd (Tools.control_door_lock "door_bedroom" "LOCK" Sample.tools0)))
     = Ok "door_bedroom is now unlocked".
Proof.
  split; [vm_compute; reflexivity|]. split.
  - apply (control_door_lock_any_action "door_bedroom" "LOCK" Sample.tools0
             (Sample.gadget_of "door_bedroom" "door_lock" "bedroom"
                {[ "locked" := VBool false ]}));
      vm_compute; reflexivity.
  - apply (control_door_lock_any_action "door_bedroom" "toggle"
             (snd (Tools.control_door_lock "door_bedroom" "LOCK" Sample.tools0))
             (Sample.gadget_of "door_bedroom" "door_lock" "bedroom"
                {[ "locked" := VBool true ]}));
      vm_compute; reflexivity.
Defined.

(** What holds of a rejected temperature: the answer names the range, the
    file is not written and the [temperature] entry is kept; the gadget in
    memory, however, already carries the new [on]. *)
Lemma control_ac_out_of_range (device_id power : string) (temp lo hi : Z)
    (t : Tools.tools) (device : Tools.gadget) :
  Tools.dict_get device_id (Tools.gadgets (Tools.load_devices t)) = Some device ->
  Tools.g_type device = "ac" ->
  Tools.g_fields device !! "range"
  = Some (VList [VNum (NInt lo); VNum (NInt hi)]) ->
  Z.leb lo temp && Z.leb temp hi = false ->
  let r := Tools.control_ac device_id power (Some temp) t in
  fst r = Ok ("Temperature must be between " +:+ str_Z lo +:+ "°C and "
                +:+ str_Z hi +:+ "°C")
  /\ Tools.disk (snd r) = Tools.disk t
  /\ Tools.dict_get device_id (Tools.gadgets (snd r))
     = Some (Tools.set_field "on"
               (VBool (String.eqb (PyStr.lower power) "on")) device)
  /\ Tools.g_fields
       (Tools.set_field "on" (VBool (String.eqb (PyStr.lower power) "on")) device)
     !! "temperature"
     = Tools.g_fields device !! "temperature".
Proof.
  intros Hget Hty Hrange Hout. cbv zeta. unfold Tools.control_ac.
  rewrite Hget, Hty. simpl. unfold Tools.temp_range. rewrite Hrange, Hout.
  simpl. repeat split.
  - rewrite dict_get_alter, String.eqb_refl.
    unfold Tools.load_devices in Hget. simpl in Hget. rewrite Hget.
    reflexivity.
  - apply lookup_insert_ne. discriminate.
Qed.

(** C2, at a living-room AC that is off, set to 24 degrees, with range
    [18, 28]: asking for "on" at 35 degrees is rejected with the range
    message, the file and the [temperature] entry stay as they were, but the
    gadget held by the tool set has been switched on. *)
Theorem control_ac_rejection_switches_on :
  let r := Tools.control_ac "ac_living" "on" (Some 35%Z) Sample.tools0 in
  let field t k :=
    g ← Tools.dict_get "ac_living" (Tools.gadgets t); Tools.g_fields g !! k in
  fst r = Ok "Temperature must be between 18°C and 28°C"
  /\ Tools.disk (snd r) = Tools.disk Sample.tools0
  /\ field Sample.tools0 "temperature" = Some (VNum (NInt 24))
  /\ field (snd r) "temperature" = Some (VNum (NInt 24))
  /\ field Sample.tools0 "on" = Some (VBool false)
  /\ field (snd r) "on" = Some (VBool true).
Proof. cbv zeta. repeat split; vm_compute; reflexivity. Qed.

(** * Further properties of [SHAgent.py] *)

(** ** Text and patterns *)

Lemma rmatch_lit (s : string) (st : Re.mstate)
    (k : Re.mstate -> option Re.mstate) :
  Re.rmatch (Re.lit s) st k
  = if PyStr.startswith s (Re.m_rest st) then k (advance s st) else None.
Proof.
  revert st. induction s as [|c s IH]; intros st; simpl; [reflexivity|].
  destruct (Re.m_rest st) as [|c0 rest]; [reflexivity|].
  destruct (Ascii.eqb c c0); simpl; [|reflexivity].
  rewrite IH. reflexivity.
Qed.

Lemma search_from_lit (s text : string) prev (rest : string) (pos : nat) :
  match Re.search_from (Re.lit s) text prev rest pos with
  | Some _ => true
  | None => false
  end = PyStr.contains s rest.
Proof.
  revert prev pos. induction rest as [|c rest IH]; intros prev pos.
  - simpl. rewrite rmatch_lit. simpl.
    destruct (PyStr.startswith s ""); reflexivity.
  - cbn [Re.search_from PyStr.contains]. rewrite rmatch_lit.
    cbn [Re.m_rest].
    destruct (PyStr.startswith s (String c rest)); [reflexivity|].
    rewrite IH. reflexivity.
Qed.

(** Searching a literal is the substring test. *)
Lemma found_lit (s text : string) :
  Re.found (Re.lit s) text = PyStr.contains s text.
Proof. unfold Re.found, Re.search. apply search_from_lit. Qed.

(** ** The parser *)

(** X1: a command whose text contains "unlock" is never parsed as a "lock"
    intent, whichever rule answers. *)
Theorem unlock_text_never_locks (c : controller) (cmd : string) :
  PyStr.contains "unlock" (PyStr.lower cmd) = true ->
  i_action <$> Parser._rule_based_intent c cmd <> Some "lock".
Proof.
  intros Hu. unfold Parser._rule_based_intent.
  destruct (Re.search Parser.temp_re _) as [m|].
  { destruct (Parser.py_float _); simpl; discriminate. }
  destruct (Re.search Parser.rel_re _) as [m|].
  { destruct (match Re.group 2 m with Some _ => _ | None => _ end);
      simpl; discriminate. }
  destruct (Re.found Parser.unlock_word_re _).
  { unfold Parser.lock_intent.
    destruct (Re.found Parser.front_door_re _); simpl; discriminate. }
  unfold Parser.unlock_re. rewrite found_lit, Hu, andb_false_r.
  repeat match goal with
         | |- context [if ?b then _ else _] => destruct b
         end; simpl; discriminate.
Qed.

Lemma unlock_text_never_locks_witness :
  PyStr.contains "unlock" (PyStr.lower "Lock up, but leave the garage unlocked")
  = true
  /\ i_action <$> Parser._rule_based_intent Sample.home
                    "Lock up, but leave the garage unlocked"
     <> Some "lock".
Proof.
  split; [vm_compute; reflexivity|].
  apply (unlock_text_never_locks Sample.home
           "Lock up, but leave the garage unlocked").
  vm_compute. reflexivity.
Defined.

(** X2: the action of a parsed intent is one of the eight labels of the
    parser; the embedding has no intent only for a temperature command whose
    numeral is beyond the modelled range of [float]. *)
Theorem rule_based_intent_actions (c : controller) (cmd : string) :
  match Parser._rule_based_intent c cmd with
  | Some i => In (i_action i) intent_actions
  | None =>
      Re.search Parser.temp_re (PyStr.lower cmd) <> None
      \/ Re.search Parser.rel_re (PyStr.lower cmd) <> None
  end.
Proof.
  unfold Parser._rule_based_intent, intent_actions.
  destruct (Re.search Parser.temp_re _) as [m|].
  { destruct (Parser.py_float _); simpl; [tauto | left; discriminate]. }
  destruct (Re.search Parser.rel_re _) as [m|].
  { destruct (match Re.group 2 m with Some _ => _ | None => _ end);
      simpl; [tauto | right; discriminate]. }
  unfold Parser.lock_intent.
  repeat match goal with
         | |- context [if ?b then _ else _] => destruct b
         end; simpl; tauto.
Qed.

(** ** Rooms *)

Lemma replace_idempotent (a b : ascii) (s : string) :
  PyStr.replace a b (PyStr.replace a b s) = PyStr.replace a b s.
Proof.
  induction s as [|c s IH]; simpl; [reflexivity|]. rewrite IH. f_equal.
  destruct (Ascii.eqb_spec c a) as [->|Hne].
  - destruct (Ascii.eqb b a); reflexivity.
  - destruct (Ascii.eqb_spec c a); [contradiction | reflexivity].
Qed.

Lemma mem_In (x : string) (l : list string) : PyStr.mem x l = true <-> In x l.
Proof.
  unfold PyStr.mem. rewrite existsb_exists. split.
  - intros (y & Hy & Heq). apply String.eqb_eq in Heq. subst. exact Hy.
  - intros H. exists x. split; [exact H | apply String.eqb_refl].
Qed.

Lemma normalize_room_in_registry (c : controller) (text : string) :
  match Parser._normalize_room c text with
  | Some r => has_room c r = true
  | None => True
  end.
Proof.
  unfold Parser._normalize_room. destruct (String.eqb text ""); [exact I|].
  unfold Parser.match_room.
  destruct (List.find _ (Parser.candidates _)) as [cand|] eqn:Hc.
  - apply find_some in Hc as [_ Hc]. rewrite mem_available in Hc. exact Hc.
  - destruct (List.find _ (Parser._available_rooms c)) as [r|] eqn:Hr;
      [|exact I].
    apply find_some in Hr as [Hin _].
    rewrite <- mem_available. apply mem_In. exact Hin.
Qed.

(** X3: whatever the text, [_normalize_room] answers [None] or a room of the
    registry: it never makes up a room.  The empty text, and any text on an
    empty registry, give [None]. *)
Theorem normalize_room_answers_registry_room (c : controller) (text : string) :
  match Parser._normalize_room c text with
  | Some r => has_room c r = true
  | None => True
  end
  /\ Parser._normalize_room c "" = None
  /\ (match devices c with
      | [] => Parser._normalize_room c text = None
      | _ :: _ => True
      end).
Proof.
  pose proof (normalize_room_in_registry c text) as H1.
  split; [exact H1|]. split; [reflexivity|].
  destruct (devices c) eqn:Hd; [|exact I].
  destruct (Parser._normalize_room c text) as [r|]; [|reflexivity].
  unfold has_room in H1. rewrite Hd in H1. discriminate.
Qed.

(** X4: a room id of the registry that cleaning leaves alone (lower case, no
    filler word, no space) resolves to itself. *)
Theorem normalize_room_exact_id (c : controller) (r : string) :
  has_room c r = true ->
  String.eqb r "" = false ->
  Parser.room_text r = r ->
  PyStr.replace " " "_" r = r ->
  Parser._normalize_room c r = Some r.
Proof.
  intros Hroom Hne Hclean Hrep. unfold Parser._normalize_room.
  rewrite Hne, Hclean. unfold Parser.match_room, Parser.candidates.
  cbn [List.app List.find]. rewrite Hrep, mem_available, Hroom, Hrep.
  reflexivity.
Qed.

Lemma normalize_room_exact_id_witness :
  has_room Sample.home "master_bedroom" = true
  /\ Parser.room_text "master_bedroom" = "master_bedroom"
  /\ Parser._normalize_room Sample.home "master_bedroom" = Some "master_bedroom".
Proof.
  split; [vm_compute; reflexivity|]. split; [vm_compute; reflexivity|].
  apply (normalize_room_exact_id Sample.home "master_bedroom");
    vm_compute; reflexivity.
Defined.

(** X5: with [living_room] in the registry, a non-empty text none of whose
    three spellings is a room resolves to [living_room]: the synonym entries
    follow the spellings in the candidate list whatever the text says. *)
Theorem normalize_room_falls_to_living_room (c : controller) (text : string) :
  has_room c "living_room" = true ->
  String.eqb text "" = false ->
  has_room c (PyStr.replace " " "_" (Parser.room_text text)) = false ->
  has_room c (PyStr.replace " " "_"
                (PyStr.replace "_" " " (Parser.room_text text))) = false ->
  Parser._normalize_room c text = Some "living_room".
Proof.
  intros Hliving Hne H1 H3. unfold Parser._normalize_room. rewrite Hne.
  unfold Parser.match_room, Parser.candidates.
  cbn [List.app List.find]. rewrite replace_idempotent, !mem_available, H1, H3.
  cbn [flat_map Parser.synonyms List.app List.find fst snd].
  replace (PyStr.replace " " "_" "living room") with "living_room"
    by reflexivity.
  rewrite mem_available, Hliving. reflexivity.
Qed.

Lemma normalize_room_falls_to_living_room_witness :
  has_room Sample.home "living_room" = true
  /\ Parser.room_text "the Garden Shed" = "garden shed"
  /\ has_room Sample.home "garden_shed" = false
  /\ Parser._normalize_room Sample.home "the Garden Shed" = Some "living_room".
Proof.
  split; [vm_compute; reflexivity|]. split; [vm_compute; reflexivity|].
  split; [vm_compute; reflexivity|].
  apply (normalize_room_falls_to_living_room Sample.home "the Garden Shed");
    vm_compute; reflexivity.
Defined.

Lemma increasing_insert_sorted (x : string) (l : list string) :
  increasing l = true -> increasing (PyStr.insert_sorted x l) = true.
Proof.
  induction l as [|y l IH]; intros Hl; [reflexivity|].
  cbn [PyStr.insert_sorted].
  destruct (String.compare x y) eqn:Hxy.
  - exact Hl.
  - cbn [increasing]. rewrite Hxy. exact Hl.
  - assert (Hyx : String.compare y x = Lt).
    { rewrite String.compare_antisym, Hxy. reflexivity. }
    destruct l as [|z l].
    + cbn. rewrite Hyx. reflexivity.
    + cbn [increasing] in Hl. destruct (String.compare y z) eqn:Hyz;
        try discriminate.
      specialize (IH Hl). cbn [PyStr.insert_sorted] in IH |- *.
      destruct (String.compare x z) eqn:Hxz.
      * cbn [increasing]. rewrite Hyz. exact Hl.
      * cbn [increasing] in IH |- *. rewrite Hyx. exact IH.
      * cbn [increasing] in IH |- *. rewrite Hyz. exact IH.
Qed.

(** X6: [_available_rooms] lists exactly the rooms of the devices, in
    strictly increasing order (hence each once). *)
Theorem available_rooms_sorted_set (c : controller) :
  increasing (Parser._available_rooms c) = true
  /\ (forall r, PyStr.mem r (Parser._available_rooms c) = has_room c r)
  /\ (forall r, In r (Parser._available_rooms c)
                <-> exists k d, In (k, d) (devices c) /\ d_room d = r).
Proof.
  split; [|split].
  - unfold Parser._available_rooms, PyStr.sorted_set.
    induction (List.map _ (devices c)) as [|x l IH]; [reflexivity|].
    simpl. apply increasing_insert_sorted, IH.
  - apply mem_available.
  - intros r. rewrite <- mem_In, mem_available. unfold has_room.
    rewrite mem_In, in_map_iff. split.
    + intros ([k d] & Hr & Hin). exists k, d. auto.
    + intros (k & d & Hin & Hr). exists (k, d). auto.
Qed.

(** ** [control_lights] *)

Section LightsFacts.

Variable clock : nat -> datetime.

Lemma get_dev_Some_In l k d : get_dev k l = Some d -> In (k, d) l.
Proof.
  induction l as [|[k' d'] l IH]; simpl; [discriminate|].
  destruct (String.eqb_spec k' k) as [->|_].
  - intros H. inversion H. left. reflexivity.
  - intros H. right. apply IH. exact H.
Qed.

Lemma merge_state_twice (st : gmap string value) (s : gmap string value) :
  st ∪ (st ∪ s) = st ∪ s.
Proof. rewrite (assoc_L (∪)), (idemp_L (∪)). reflexivity. Qed.

(** The loop over the lights: every listed id is recorded, and exactly the
    listed devices have the new state merged into theirs. *)
Lemma update_lights_effect (ls : list device) (st : gmap string value)
    (acc : list string) (c : controller) :
  (forall l, In l ls -> get_dev (d_id l) (devices c) <> None) ->
  fst (update_lights clock ls st acc c) = List.app acc (List.map d_id ls)
  /\ forall id,
       (fun d => (d_id d, d_name d, d_type d, d_room d, d_state d))
         <$> get_dev id (devices (snd (update_lights clock ls st acc c)))
       = (fun d => (d_id d, d_name d, d_type d, d_room d,
                    if PyStr.mem id (List.map d_id ls)
                    then st ∪ d_state d else d_state d))
           <$> get_dev id (devices c).
Proof.
  revert acc c. induction ls as [|l ls IH]; intros acc c Hpres.
  - simpl. rewrite app_nil_r. split; [reflexivity|]. intros id. reflexivity.
  - cbn [update_lights].
    destruct (get_dev (d_id l) (devices c)) as [d0|] eqn:Hget.
    2: { exfalso. apply (Hpres l); [left; reflexivity | exact Hget]. }
    rewrite (update_device_state_present clock _ _ c d0 Hget).
    set (c1 := Controller _ _ _).
    assert (Hpres1 : forall l', In l' ls -> get_dev (d_id l') (devices c1) <> None).
    { intros l' Hin. unfold c1. cbn [devices]. rewrite get_dev_alter_dev.
      destruct (String.eqb (d_id l') (d_id l)).
      - rewrite Hget. discriminate.
      - apply Hpres. right. exact Hin. }
    destruct (IH (List.app acc [d_id l]) c1 Hpres1) as [Hacc Hst].
    split.
    + rewrite Hacc, <- app_assoc. reflexivity.
    + intros id. rewrite Hst. unfold c1. cbn [devices].
      rewrite get_dev_alter_dev. cbn [List.map PyStr.mem existsb].
      fold (PyStr.mem id (List.map d_id ls)).
      destruct (String.eqb_spec id (d_id l)) as [->|Hne].
      * rewrite Hget. cbn. unfold merge_state. cbn.
        destruct (PyStr.mem (d_id l) (List.map d_id ls));
          rewrite ?merge_state_twice; reflexivity.
      * reflexivity.
Qed.

Lemma in_room_lights (c : controller) (room id : string) (d : device) :
  registry_wf c ->
  get_dev id (devices c) = Some d ->
  PyStr.mem id
    (List.map d_id
       (List.filter (fun d => String.eqb (d_type d) LIGHT)
          (get_devices_by_room c room)))
  = String.eqb (PyStr.lower (d_room d)) (PyStr.lower room)
    && String.eqb (d_type d) LIGHT.
Proof.
  intros Hwf Hget.
  pose proof (get_dev_Some_In _ _ _ Hget) as Hin.
  assert (Hid : d_id d = id).
  { destruct Hwf as [_ Hk]. rewrite Forall_forall in Hk.
    apply (Hk (id, d)). apply list_elem_of_In. exact Hin. }
  match goal with |- ?a = ?b => destruct b eqn:Hb end.
  - apply mem_In, in_map_iff. exists d. split; [exact Hid|].
    apply andb_true_iff in Hb as [Hr Ht].
    apply filter_In. split; [|exact Ht].
    apply filter_In. split; [|exact Hr].
    apply in_map_iff. exists (id, d). split; [reflexivity | exact Hin].
  - destruct (PyStr.mem id _) eqn:Hm; [|reflexivity].
    apply mem_In, in_map_iff in Hm as (d' & Hid' & Hin').
    apply filter_In in Hin' as [Hin' Ht].
    apply filter_In in Hin' as [Hin' Hr].
    pose proof (registry_wf_get c d' Hwf Hin') as Hget'.
    rewrite Hid', Hget in Hget'. inversion Hget'; subst d'.
    rewrite Hr, Ht in Hb. discriminate.
Qed.

End LightsFacts.

(** X7: on a well-formed registry, [control_lights] sets ["power"] and
    ["status"] to the action on every light of the room (a room is matched
    up to letter case) and on nothing else: the other devices, and the other
    state entries of the lights, are as before.  The answer counts the lights
    of the room and the history entry lists their ids. *)
Theorem control_lights_switches_room (clock : nat -> datetime)
    (room act : string) (c : controller) :
  registry_wf c ->
  let lights := List.filter (fun d => String.eqb (d_type d) LIGHT)
                  (get_devices_by_room c room) in
  let r := control_lights clock room act c in
  match lights with
  | [] => r = ("No lights found in " +:+ room, c)
  | _ :: _ =>
      fst r = "Turned " +:+ act +:+ " " +:+ str_nat (length lights)
                +:+ " lights in " +:+ room
      /\ (exists e,
            command_history (snd r) = List.app (command_history c) [e]
            /\ devices_affected e = List.map d_id lights
            /\ success e = true)
      /\ forall id,
           d_state <$> get_dev id (devices (snd r))
           = (fun d =>
                if String.eqb (PyStr.lower (d_room d)) (PyStr.lower room)
                   && String.eqb (d_type d) LIGHT
                then <["power" := VStr act]> (<["status" := VStr act]> ∅)
                       ∪ d_state d
                else d_state d)
               <$> get_dev id (devices c)
  end.
Proof.
  intros Hwf. cbv zeta. unfold control_lights.
  destruct (List.filter _ (get_devices_by_room c room)) as [|l ls] eqn:Hf;
    [reflexivity|].
  cbv zeta.
  assert (Hpres : forall x, In x (l :: ls) -> get_dev (d_id x) (devices c) <> None).
  { intros x Hin. rewrite <- Hf in Hin.
    apply filter_In in Hin as [Hin _]. apply filter_In in Hin as [Hin _].
    rewrite (registry_wf_get c x Hwf Hin). discriminate. }
  pose proof (update_lights_effect clock (l :: ls)
                (<["power" := VStr act]> (<["status" := VStr act]> ∅)) [] c Hpres)
    as [Hacc Hst].
  pose proof (update_lights_history clock (l :: ls)
                (<["power" := VStr act]> (<["status" := VStr act]> ∅)) [] c)
    as Hh.
  destruct (update_lights clock (l :: ls) _ [] c) as [affected c1].
  cbn [fst snd List.app] in *. subst affected.
  rewrite List.length_map. split; [reflexivity|]. split.
  - eexists. cbn. rewrite Hh. repeat split; reflexivity.
  - intros id. cbn [log_command devices snd].
    specialize (Hst id).
    destruct (get_dev id (devices c1)) as [d1|] eqn:H1;
      destruct (get_dev id (devices c)) as [d|] eqn:H0;
      cbn [fmap option_fmap option_map] in Hst |- *; try discriminate;
      [|reflexivity].
    f_equal. rewrite <- (in_room_lights c room id d Hwf H0), Hf.
    injection Hst as _ _ _ _ Hs. exact Hs.
Qed.

Lemma control_lights_switches_room_witness :
  registry_wf Sample.home
  /\ fst (control_lights Sample.clock "LIVING_ROOM" "on" Sample.home)
     = "Turned on 1 lights in LIVING_ROOM"
  /\ d_state <$> get_dev "light_living"
                   (devices (snd (control_lights Sample.clock "LIVING_ROOM" "on"
                                    Sample.home)))
     = Some (<["power" := VStr "on"]> (<["status" := VStr "on"]> ∅)
               ∪ <["power" := VStr "off"]> {[ "brightness" := VNum (NInt 80) ]})
  /\ d_state <$> get_dev "light_bedroom"
                   (devices (snd (control_lights Sample.clock "LIVING_ROOM" "on"
                                    Sample.home)))
     = Some {[ "power" := VStr "on" ]}.
Proof.
  assert (Hwf : registry_wf Sample.home)
    by (split; apply (bool_decide_unpack _); vm_compute; reflexivity).
  split; [exact Hwf|].
  pose proof (control_lights_switches_room Sample.clock "LIVING_ROOM" "on"
                Sample.home Hwf) as H.
  cbv zeta in H.
  change (List.filter (fun d => String.eqb (d_type d) LIGHT)
            (get_devices_by_room Sample.home "LIVING_ROOM"))
    with [snd (Sample.dev "light_living" "Living Room Light" "light"
                 "living_room"
                 (<["power" := VStr "off"]>
                    {[ "brightness" := VNum (NInt 80) ]}))] in H.
  destruct H as (Hmsg & _ & Hst).
  split; [exact Hmsg|]. split.
  - rewrite (Hst "light_living"). reflexivity.
  - rewrite (Hst "light_bedroom"). reflexivity.
Defined.

(** ** [_extract_json_object] *)

Section JsonFacts.
Import Json.

Lemma append_cons (c : ascii) (a b : string) :
  String c a +:+ b = String c (a +:+ b).
Proof. reflexivity. Qed.

Lemma append_empty_l (b : string) : "" +:+ b = b.
Proof. reflexivity. Qed.

Lemma append_empty_r (a : string) : a +:+ "" = a.
Proof.
  induction a as [|c a IH]; [reflexivity|]. rewrite append_cons, IH. reflexivity.
Qed.

Lemma substring_skip (pre s : string) (n : nat) :
  String.substring (String.length pre) n (pre +:+ s) = String.substring 0 n s.
Proof.
  induction pre as [|c pre IH]; [reflexivity|].
  rewrite append_cons. simpl. exact IH.
Qed.

Lemma substring_prefix (a b : string) :
  String.substring 0 (String.length a) (a +:+ b) = a.
Proof.
  induction a as [|c a IH].
  - rewrite append_empty_l. destruct b; reflexivity.
  - rewrite append_cons. simpl. rewrite IH. reflexivity.
Qed.

Lemma length_append (a b : string) :
  String.length (a +:+ b) = String.length a + String.length b.
Proof.
  induction a as [|c a IH]; [reflexivity|].
  rewrite append_cons. simpl. rewrite IH. reflexivity.
Qed.

Lemma append_assoc (a b c : string) : (a +:+ b) +:+ c = a +:+ (b +:+ c).
Proof.
  induction a as [|x a IH]; [reflexivity|].
  rewrite !append_cons, IH. reflexivity.
Qed.

Lemma extract_skips_plain (text pre rest : string) (i : nat) start depth :
  brace_free pre = true ->
  extract_from text (pre +:+ rest) i start depth
  = extract_from text rest (i + String.length pre) start depth.
Proof.
  revert i. induction pre as [|c pre IH]; intros i Hfree.
  - rewrite append_empty_l. simpl. rewrite Nat.add_0_r. reflexivity.
  - rewrite append_cons. simpl in Hfree |- *.
    apply andb_true_iff in Hfree as [Hc Hfree].
    apply andb_true_iff in Hc as [Ho Hc].
    apply negb_true_iff in Ho, Hc. rewrite Ho, Hc, IH by exact Hfree.
    f_equal. lia.
Qed.

Lemma extract_plain_end (text rest : string) (i : nat) start depth :
  brace_free rest = true -> extract_from text rest i start depth = None.
Proof.
  intros Hfree. rewrite <- (append_empty_r rest).
  rewrite extract_skips_plain by exact Hfree. reflexivity.
Qed.

Lemma extract_closes (text w post : string) (i s d : nat) :
  stays_open (S d) w = Some 1 ->
  extract_from text (w +:+ String "}" post) i (Some s) (Z.of_nat (S d))
  = Some (String.substring s (S (i + String.length w) - s) text).
Proof.
  revert i d. induction w as [|c w IH]; intros i d Hopen.
  - simpl in Hopen. injection Hopen as Hd. subst d.
    rewrite append_empty_l. simpl. rewrite Nat.add_0_r. reflexivity.
  - rewrite append_cons. cbn [extract_from stays_open] in *.
    destruct (Ascii.eqb c "{") eqn:Ho.
    + replace (Z.eqb (Z.of_nat (S d)) 0) with false
        by (symmetry; apply Z.eqb_neq; lia).
      replace (Z.of_nat (S d) + 1)%Z with (Z.of_nat (S (S d))) by lia.
      rewrite (IH (S i) (S d) Hopen). do 3 f_equal. simpl. lia.
    + destruct (Ascii.eqb c "}") eqn:Hc.
      * destruct d as [|d]; [discriminate|].
        replace (Z.eqb (Z.of_nat (S (S d)) - 1) 0) with false
          by (symmetry; apply Z.eqb_neq; lia).
        replace (Z.of_nat (S (S d)) - 1)%Z with (Z.of_nat (S d)) by lia.
        rewrite (IH (S i) d Hopen). do 3 f_equal. simpl. lia.
      * rewrite (IH (S i) d Hopen). do 3 f_equal. simpl. lia.
Qed.

End JsonFacts.

(** X8: from a text that starts with brace-free chatter, [_extract_json_object]
    returns the first top-level object whole, nested objects included, and
    ignores whatever follows its closing brace. *)
Theorem extract_json_object_first_object (pre inner post : string) :
  Json.brace_free pre = true ->
  Json.stays_open 1 inner = Some 1 ->
  Json._extract_json_object
    (pre +:+ String "{" (inner +:+ String "}" post))
  = Some (String "{" (inner +:+ "}")).
Proof.
  intros Hpre Hin. unfold Json._extract_json_object.
  rewrite extract_skips_plain by exact Hpre.
  cbn [Json.extract_from]. rewrite Ascii.eqb_refl. cbn [Z.eqb Z.add].
  change 1%Z with (Z.of_nat 1).
  rewrite (extract_closes _ inner post _ _ 0 Hin). f_equal.
  replace (S (S (0 + String.length pre) + String.length inner)
           - (0 + String.length pre))
    with (String.length (String "{" (inner +:+ "}")))
    by (simpl; rewrite length_append; simpl; lia).
  rewrite Nat.add_0_l, substring_skip.
  replace (String "{" (inner +:+ String "}" post))
    with (String "{" (inner +:+ "}") +:+ post)
    by (rewrite append_cons, append_assoc; reflexivity).
  apply substring_prefix.
Qed.

Lemma extract_json_object_first_object_witness :
  Json.brace_free "Here you go: " = true
  /\ Json.stays_open 1 "action: on, params: {room: kitchen}" = Some 1
  /\ Json._extract_json_object
       "Here you go: {action: on, params: {room: kitchen}} and {more}"
     = Some "{action: on, params: {room: kitchen}}".
Proof.
  split; [reflexivity|]. split; [reflexivity|].
  apply (extract_json_object_first_object "Here you go: "
           "action: on, params: {room: kitchen}" " and {more}");
    reflexivity.
Defined.

(** X9: [_extract_json_object] gives [None] for a text without an opening
    brace; and a closing brace met before any opening one hides a flat
    object that follows it, because the depth counter is then negative. *)
Theorem extract_json_object_none (pre body post : string) :
  Json.brace_free pre = true ->
  Json.brace_free body = true ->
  Json.brace_free post = true ->
  Json._extract_json_object pre = None
  /\ Json._extract_json_object
       (pre +:+ String "}" (String "{" (body +:+ String "}" post))) = None.
Proof.
  intros Hpre Hbody Hpost. unfold Json._extract_json_object. split.
  - apply extract_plain_end. exact Hpre.
  - rewrite extract_skips_plain by exact Hpre.
    cbn [Json.extract_from]. cbn [Ascii.eqb Bool.eqb]. cbn [Z.sub Z.eqb Z.add Z.opp Z.pos_sub].
    rewrite extract_skips_plain by exact Hbody.
    cbn [Json.extract_from]. cbn [Ascii.eqb Bool.eqb].
    cbn [Z.sub Z.eqb Z.add Z.opp Z.pos_sub].
    apply extract_plain_end. exact Hpost.
Qed.

Lemma extract_json_object_none_witness :
  Json._extract_json_object "no object here" = None
  /\ Json._extract_json_object "oops } {state: 2} done" = None.
Proof.
  apply (extract_json_object_none "oops " "state: 2" " done"); reflexivity.
Defined.

(** ** The pipeline's bookkeeping *)

Section PipelineMore.
Import Pipeline.

Variable agent_executor :
  option (string -> controller -> result outcome * controller).
Variable llm : option (string -> result llm_reply).

Lemma execute_action_controller (st : wstate) (a : agent) (cmd : string) :
  st_intent st = Some (Intent "tool_agent" [] {[ "command" := VStr cmd ]}) ->
  execute_action agent_executor llm st a
  = Ok (WState (st_command st) (st_intent st)
          (Some (answer agent_executor llm cmd (a_controller a)))
          (st_learned_patterns st) (st_response st),
        Agent (match agent_executor with
               | Some ainvoke => snd (ainvoke cmd (a_controller a))
               | None => a_controller a
               end)
          (memory a) (last_intent a)
          (answer agent_executor llm cmd (a_controller a))
          (last_response a)).
Proof.
  intros Hi. unfold execute_action, answer. rewrite Hi, parsed_command. simpl.
  destruct agent_executor as [ainvoke|]; [|reflexivity].
  destruct (ainvoke cmd (a_controller a)) as [[out|e] ctrl]; simpl.
  - destruct out as [o|s]; reflexivity.
  - unfold fallback_answer. destruct llm as [invoke|]; simpl; [|reflexivity].
    destruct (invoke (fallback_prompt cmd)); reflexivity.
Qed.

Lemma time_patterns_fold (l : list CommandHistory)
    (m : gmap nat (list string)) (hour : nat) :
  fold_left
    (fun (m : gmap nat (list string)) cmd =>
       <[dt_hour (timestamp cmd) :=
           List.app (default [] (m !! dt_hour (timestamp cmd))) [command cmd]]> m)
    l m !! hour
  = match List.map command
            (List.filter (fun e => Nat.eqb (dt_hour (timestamp e)) hour) l) with
    | [] => m !! hour
    | cs => Some (List.app (default [] (m !! hour)) cs)
    end.
Proof.
  revert m. induction l as [|e l IH]; intros m; [reflexivity|].
  cbn [fold_left List.filter]. rewrite IH.
  destruct (Nat.eqb_spec (dt_hour (timestamp e)) hour) as [->|Hne].
  - rewrite lookup_insert_eq. cbn [List.map default from_option id].
    destruct (List.map command _) as [|x cs]; [reflexivity|].
    rewrite <- app_assoc. reflexivity.
  - rewrite lookup_insert_ne by exact Hne. reflexivity.
Qed.

End PipelineMore.

(** X10: [learn_from_history] does nothing while the history has at most ten
    entries; with more, it stores a table in which the bucket of an hour
    holds, in order, the commands of the last twenty history entries stamped
    with that hour, and an hour without such an entry has no bucket.  The
    agent is never changed. *)
Theorem learn_from_history_buckets (st : Pipeline.wstate) (a : Pipeline.agent) :
  let history := command_history (Pipeline.a_controller a) in
  let recent := Pipeline.last_n 20 history in
  if Nat.ltb 10 (length history) then
    exists table,
      Pipeline.learn_from_history st a
      = Ok (Pipeline.WState (Pipeline.st_command st) (Pipeline.st_intent st)
              (Pipeline.st_results st) (Some table) (Pipeline.st_response st),
            a)
      /\ length recent = Nat.min 20 (length history)
      /\ forall hour,
           table !! hour
           = match List.map command
                     (List.filter
                        (fun e => Nat.eqb (dt_hour (timestamp e)) hour) recent)
             with
             | [] => None
             | cs => Some cs
             end
  else Pipeline.learn_from_history st a = Ok (st, a).
Proof.
  cbv zeta. unfold Pipeline.learn_from_history.
  destruct (Nat.ltb 10 _) eqn:Hlen; [|reflexivity].
  eexists. split; [reflexivity|]. split.
  - unfold Pipeline.last_n. rewrite length_skipn. lia.
  - intros hour. unfold Pipeline.time_patterns.
    rewrite time_patterns_fold, lookup_empty. reflexivity.
Qed.

(** X11: one [process_command] appends exactly the user's command and then the
    response to the conversation memory, records the response and the results
    it was joined from, and leaves as last intent the pass-through
    [tool_agent] intent that wraps the command (the rule-based parser is not
    consulted).  The registry is the one the executor leaves, and the very
    same one when there is no executor. *)
Theorem process_command_bookkeeping
    (agent_executor :
       option (string -> controller -> result Pipeline.outcome * controller))
    (llm : option (string -> result Pipeline.llm_reply))
    (cmd : string) (a : Pipeline.agent) :
  exists response a',
    Pipeline.process_command agent_executor llm cmd a = Ok (response, a')
    /\ Pipeline.memory a'
       = List.app (Pipeline.memory a)
           [Pipeline.HumanMessage cmd; Pipeline.AIMessage response]
    /\ Pipeline.last_response a' = Some response
    /\ Pipeline.last_intent a'
       = Some (Intent "tool_agent" [] {[ "command" := VStr cmd ]})
    /\ Pipeline.last_results a'
       = Pipeline.answer agent_executor llm cmd (Pipeline.a_controller a)
    /\ response
       = match Pipeline.last_results a' with
         | [] => "I couldn't understand that command. Please try again."
         | results => PyStr.join (String "010" "") results
         end
    /\ Pipeline.a_controller a'
       = match agent_executor with
         | Some ainvoke => snd (ainvoke cmd (Pipeline.a_controller a))
         | None => Pipeline.a_controller a
         end.
Proof.
  unfold Pipeline.process_command, Pipeline.workflow, Pipeline.parse_intent.
  cbn [bind].
  pose proof (execute_action_controller agent_executor llm
                (Pipeline.WState (Some cmd)
                   (Some (Intent "tool_agent" [] {[ "command" := VStr cmd ]}))
                   None None None)
                (Pipeline.Agent (Pipeline.a_controller a) (Pipeline.memory a)
                   (Some (Intent "tool_agent" [] {[ "command" := VStr cmd ]}))
                   (Pipeline.last_results a) (Pipeline.last_response a))
                cmd eq_refl) as Hexec.
  simpl in Hexec |- *. rewrite Hexec. simpl.
  unfold Pipeline.learn_from_history. simpl.
  destruct (Nat.ltb 10 _); simpl; (do 2 eexists; split; [reflexivity|]);
    simpl; repeat split; try reflexivity;
    destruct (Pipeline.answer agent_executor llm cmd (Pipeline.a_controller a))
      as [|x [|y l]]; reflexivity.
Qed.

(** * Further properties of [tools.py] *)

(** ** Loading and saving *)

Section LoadSaveFacts.
Import Tools.

Lemma dict_get_set {A} (k k' : string) (v : A) (d : list (string * A)) :
  dict_get k (dict_set k' v d)
  = if String.eqb k' k then Some v else dict_get k d.
Proof.
  induction d as [|[k0 v0] d IH]; simpl.
  - reflexivity.
  - destruct (String.eqb_spec k0 k') as [->|Hne]; simpl.
    + destruct (String.eqb k' k); reflexivity.
    + rewrite IH. destruct (String.eqb_spec k0 k) as [->|Hne'].
      * destruct (String.eqb_spec k' k); [congruence | reflexivity].
      * reflexivity.
Qed.

Lemma find_snoc {A} (p : A -> bool) (l : list A) (x : A) :
  List.find p (List.app l [x])
  = match List.find p l with
    | Some y => Some y
    | None => if p x then Some x else None
    end.
Proof.
  induction l as [|y l IH]; simpl; [reflexivity|].
  destruct (p y); [reflexivity | exact IH].
Qed.

Lemma dict_get_of_list {A} (key : A -> string) (k : string) (l : list A) :
  dict_get k (dict_of_list key l)
  = List.find (fun x => String.eqb (key x) k) (List.rev l).
Proof.
  unfold dict_of_list.
  assert (H : forall d,
            dict_get k (fold_left (fun d x => dict_set (key x) x d) l d)
            = match List.find (fun x => String.eqb (key x) k) (List.rev l) with
              | Some x => Some x
              | None => dict_get k d
              end).
  { induction l as [|x l IH]; intros d; [reflexivity|].
    cbn [fold_left List.rev]. rewrite IH, find_snoc, dict_get_set.
    destruct (List.find _ (List.rev l)); [reflexivity|].
    destruct (String.eqb (key x) k); reflexivity. }
  rewrite H. destruct (List.find _ (List.rev l)); reflexivity.
Qed.

Lemma load_devices_twice (t : tools) :
  load_devices (load_devices t) = load_devices t.
Proof. reflexivity. Qed.

(** A table that is keyed by id, once saved, is what loading gives back. *)
Lemma saved_table_reloads (gs : list (string * gadget)) (t : tools) :
  keyed g_id gs ->
  load_devices (save_devices (with_gadgets gs (load_devices t)))
  = save_devices (with_gadgets gs (load_devices t)).
Proof.
  intros Hk. unfold load_devices, save_devices, with_gadgets.
  cbn [disk data_rooms gadgets rooms doc_gadgets doc_rooms].
  rewrite (dict_of_list_map_snd g_id gs Hk). reflexivity.
Qed.

Lemma set_field_keyed k v id (gs : list (string * gadget)) :
  keyed g_id gs -> keyed g_id (dict_alter (set_field k v) id gs).
Proof.
  intros [Hnd Hk]. split.
  - rewrite dict_alter_keys. exact Hnd.
  - rewrite (dict_alter_pointwise _ _ _ Hnd).
    apply Forall_fmap. eapply Forall_impl; [exact Hk|].
    intros [k0 g] H. simpl in *. destruct (String.eqb k0 id); exact H.
Qed.

Lemma loaded_keyed (t : tools) : keyed g_id (gadgets (load_devices t)).
Proof. apply dict_of_list_keyed. Qed.

End LoadSaveFacts.

(** X12: loading indexes the gadgets of the file by id, each id once; where the
    file lists an id several times the last listing is the one kept.
    Loading twice is loading once, and after a save a reload gives back
    exactly the saved table. *)
Theorem load_save_round_trip (t : Tools.tools) :
  Tools.keyed Tools.g_id (Tools.gadgets (Tools.load_devices t))
  /\ (forall k,
        Tools.dict_get k (Tools.gadgets (Tools.load_devices t))
        = List.find (fun g => String.eqb (Tools.g_id g) k)
            (List.rev (Tools.doc_gadgets (Tools.disk t))))
  /\ Tools.load_devices (Tools.load_devices t) = Tools.load_devices t
  /\ Tools.load_devices (Tools.save_devices (Tools.load_devices t))
     = Tools.save_devices (Tools.load_devices t)
  /\ NoDup (Tools.g_id <$>
              Tools.doc_gadgets
                (Tools.disk (Tools.save_devices (Tools.load_devices t)))).
Proof.
  pose proof (loaded_keyed t) as Hk.
  split; [exact Hk|]. split; [|split; [reflexivity|split]].
  - intros k. apply dict_get_of_list.
  - apply (saved_table_reloads _ t Hk).
  - destruct Hk as [Hnd Hid]. cbn [Tools.save_devices Tools.disk Tools.doc_gadgets].
    replace (Tools.g_id <$> List.map snd (Tools.gadgets (Tools.load_devices t)))
      with ((Tools.gadgets (Tools.load_devices t)).*1); [exact Hnd|].
    clear Hnd. induction Hid as [|[k g] l Hkg Hid IH]; [reflexivity|].
    csimpl. simpl in Hkg. rewrite Hkg. f_equal. exact IH.
Qed.

(** X13: after [control_light], [control_tv], [control_door_lock] and
    [create_scene], whatever their arguments and whether they succeed, the
    gadget table in memory is the one a reload from the file gives: nothing
    is left changed in memory only. *)
Theorem tools_leave_memory_in_step_with_file (device_id arg : string)
    (t : Tools.tools) :
  Tools.load_devices (snd (Tools.control_light device_id arg t))
  = snd (Tools.control_light device_id arg t)
  /\ Tools.load_devices (snd (Reports.control_tv device_id arg t))
     = snd (Reports.control_tv device_id arg t)
  /\ Tools.load_devices (snd (Tools.control_door_lock device_id arg t))
     = snd (Tools.control_door_lock device_id arg t)
  /\ Tools.load_devices (snd (Tools.create_scene arg t))
     = snd (Tools.create_scene arg t).
Proof.
  pose proof (loaded_keyed t) as Hk.
  split; [|split; [|split]].
  - unfold Tools.control_light.
    destruct (Tools.dict_get device_id _) as [g|]; [|reflexivity].
    destruct (negb _); [reflexivity|].
    destruct (Tools.color_modes g) as [modes|e]; [|reflexivity].
    destruct (negb _); [reflexivity|].
    cbn [snd]. apply saved_table_reloads, set_field_keyed, Hk.
  - unfold Reports.control_tv.
    destruct (Tools.dict_get device_id _) as [g|]; [|reflexivity].
    destruct (negb _); [reflexivity|].
    destruct (bind _ _) as [[chs table]|e]; [|reflexivity].
    destruct (Tools.dict_get _ table) as [id|].
    + cbn [snd]. apply saved_table_reloads, set_field_keyed, Hk.
    + destruct (Reports.channel_names chs); reflexivity.
  - unfold Tools.control_door_lock.
    destruct (Tools.dict_get device_id _) as [g|]; [|reflexivity].
    destruct (negb _); [reflexivity|].
    cbn [snd]. apply saved_table_reloads, set_field_keyed, Hk.
  - unfold Tools.create_scene.
    destruct (Tools.dict_get _ Tools.scenes) as [sc|]; [|reflexivity].
    cbn [snd]. apply saved_table_reloads, apply_actions_keyed, Hk.
Qed.

(** ** The device controls *)

Section ControlFacts.
Import Tools.

Lemma touches_only_refl id gs : touches_only id gs gs.
Proof.
  split; [reflexivity|]. intros k. destruct (String.eqb k id); reflexivity.
Qed.

Lemma touches_only_set_field id key v gs :
  touches_only id gs (dict_alter (set_field key v) id gs).
Proof.
  split.
  - pose proof (dict_alter_keys (set_field key v) id gs) as H.
    exact H.
  - intros k. rewrite dict_get_alter.
    destruct (String.eqb_spec k id) as [->|Hne]; [|reflexivity].
    destruct (dict_get id gs); reflexivity.
Qed.

Lemma touches_only_trans id gs1 gs2 gs3 :
  touches_only id gs1 gs2 -> touches_only id gs2 gs3 ->
  touches_only id gs1 gs3.
Proof.
  intros [Hk1 H1] [Hk2 H2]. split; [congruence|].
  intros k. specialize (H1 k). specialize (H2 k).
  destruct (String.eqb k id); congruence.
Qed.

End ControlFacts.

(** X14: [control_light], [control_ac], [control_tv] and [control_door_lock],
    whatever their arguments and outcome, add and remove no gadget, keep the
    order of the table, leave every gadget but the addressed one exactly as
    loaded, and never change the id, type or room of the addressed one. *)
Theorem controls_touch_one_gadget (device_id arg : string)
    (temperature : option Z) (t : Tools.tools) :
  let loaded := Tools.gadgets (Tools.load_devices t) in
  touches_only device_id loaded
    (Tools.gadgets (snd (Tools.control_light device_id arg t)))
  /\ touches_only device_id loaded
       (Tools.gadgets (snd (Tools.control_ac device_id arg temperature t)))
  /\ touches_only device_id loaded
       (Tools.gadgets (snd (Reports.control_tv device_id arg t)))
  /\ touches_only device_id loaded
       (Tools.gadgets (snd (Tools.control_door_lock device_id arg t))).
Proof.
  cbv zeta. split; [|split; [|split]].
  - unfold Tools.control_light.
    destruct (Tools.dict_get device_id _) as [g|]; [|apply touches_only_refl].
    destruct (negb _); [apply touches_only_refl|].
    destruct (Tools.color_modes g); [|apply touches_only_refl].
    destruct (negb _); [apply touches_only_refl|].
    apply touches_only_set_field.
  - unfold Tools.control_ac.
    destruct (Tools.dict_get device_id _) as [g|]; [|apply touches_only_refl].
    destruct (negb _); [apply touches_only_refl|].
    destruct temperature as [temp|]; [|apply touches_only_set_field].
    destruct (Tools.temp_range g) as [[lo hi]|]; [|apply touches_only_set_field].
    destruct (_ && _); [|apply touches_only_set_field].
    eapply touches_only_trans; apply touches_only_set_field.
  - unfold Reports.control_tv.
    destruct (Tools.dict_get device_id _) as [g|]; [|apply touches_only_refl].
    destruct (negb _); [apply touches_only_refl|].
    destruct (bind _ _) as [[chs table]|]; [|apply touches_only_refl].
    destruct (Tools.dict_get _ table); [apply touches_only_set_field|].
    destruct (Reports.channel_names chs); apply touches_only_refl.
  - unfold Tools.control_door_lock.
    destruct (Tools.dict_get device_id _) as [g|]; [|apply touches_only_refl].
    destruct (negb _); [apply touches_only_refl|].
    apply touches_only_set_field.
Qed.

(** X15: a control addressed to an id that is not in the file, or to a gadget
    of another type, answers with a message saying so, changes nothing and
    does not write the file. *)
Theorem controls_reject_wrong_target (device_id arg : string)
    (temperature : option Z) (t : Tools.tools) :
  match Tools.dict_get device_id (Tools.gadgets (Tools.load_devices t)) with
  | None =>
      Tools.control_light device_id arg t
      = (Ok ("Device " +:+ device_id +:+ " not found"), Tools.load_devices t)
      /\ Tools.control_ac device_id arg temperature t
         = (Ok ("Device " +:+ device_id +:+ " not found"), Tools.load_devices t)
      /\ Reports.control_tv device_id arg t
         = (Ok ("Device " +:+ device_id +:+ " not found"), Tools.load_devices t)
      /\ Tools.control_door_lock device_id arg t
         = (Ok ("Device " +:+ device_id +:+ " not found"), Tools.load_devices t)
  | Some g =>
      (if String.eqb (Tools.g_type g) "light" then True
       else Tools.control_light device_id arg t
            = (Ok (device_id +:+ " is not a light"), Tools.load_devices t))
      /\ (if String.eqb (Tools.g_type g) "ac" then True
          else Tools.control_ac device_id arg temperature t
               = (Ok (device_id +:+ " is not an AC"), Tools.load_devices t))
      /\ (if String.eqb (Tools.g_type g) "tv" then True
          else Reports.control_tv device_id arg t
               = (Ok (device_id +:+ " is not a TV"), Tools.load_devices t))
      /\ (if String.eqb (Tools.g_type g) "door_lock" then True
          else Tools.control_door_lock device_id arg t
               = (Ok (device_id +:+ " is not a door lock"),
                  Tools.load_devices t))
  end
  /\ Tools.disk (Tools.load_devices t) = Tools.disk t.
Proof.
  split; [|reflexivity].
  unfold Tools.control_light, Tools.control_ac, Reports.control_tv,
    Tools.control_door_lock.
  destruct (Tools.dict_get device_id _) as [g|]; [|repeat split; reflexivity].
  repeat split;
    match goal with
    | |- if ?b then _ else _ => destruct b; [exact I | reflexivity]
    end.
Qed.

Section LightFacts.
Import Tools.

Lemma strings_of_names (modes : list string) :
  strings_of (List.map VStr modes) = Ok modes.
Proof.
  induction modes as [|m modes IH]; [reflexivity|].
  simpl. rewrite IH. reflexivity.
Qed.

Lemma index_of_nth (x : string) (l : list string) (i : Z) :
  PyStr.mem x l = true ->
  exists n,
    index_of x l i = (i + Z.of_nat n)%Z
    /\ List.nth_error l n = Some x
    /\ n < length l.
Proof.
  revert i. induction l as [|y l IH]; intros i Hin; [discriminate|].
  simpl in Hin |- *. destruct (String.eqb_spec y x) as [->|Hne].
  - exists 0. repeat split; [lia | simpl; lia].
  - destruct (String.eqb_spec x y) as [->|_]; [contradiction|].
    simpl in Hin. destruct (IH (i + 1)%Z Hin) as (n & Hi & Hn & Hlen).
    exists (S n). repeat split; [lia | exact Hn | simpl; lia].
Qed.

Lemma list_item_nth {A} (l : list A) (n : nat) :
  n < length l -> Reports.list_item l (Z.of_nat n) = List.nth_error l n.
Proof.
  intros Hn. unfold Reports.list_item.
  replace (Z.leb 0 (Z.of_nat n)) with true by (symmetry; apply Z.leb_le; lia).
  replace (Z.ltb (Z.of_nat n) (Z.of_nat (length l))) with true
    by (symmetry; apply Z.ltb_lt; lia).
  simpl. rewrite Nat2Z.id. reflexivity.
Qed.

End LightFacts.

(** X16: on a light whose [color_modes] are names, [control_light] with one of
    these names stores as [state] a position at which [color_modes] holds
    that name, writes the file and says so, and [_get_device_status] then
    reads the name back;
    with any other name it answers with the list of modes and changes
    nothing. *)
Theorem control_light_sets_mode (str_other : value -> string)
    (device_id mode : string) (modes : list string)
    (t : Tools.tools) (device : Tools.gadget) :
  Tools.dict_get device_id (Tools.gadgets (Tools.load_devices t)) = Some device ->
  Tools.g_type device = "light" ->
  Tools.g_fields device !! "color_modes" = Some (VList (List.map VStr modes)) ->
  let r := Tools.control_light device_id mode t in
  if PyStr.mem mode modes then
    exists n,
      List.nth_error modes n = Some mode
      /\ fst r = Ok ("Set " +:+ device_id +:+ " to " +:+ mode)
      /\ Tools.dict_get device_id (Tools.gadgets (snd r))
         = Some (Tools.set_field "state" (VNum (NInt (Z.of_nat n))) device)
      /\ Tools.doc_gadgets (Tools.disk (snd r))
         = List.map snd (Tools.gadgets (snd r))
      /\ Reports._get_device_status str_other
           (Tools.set_field "state" (VNum (NInt (Z.of_nat n))) device)
         = Ok mode
  else
    r = (Ok ("Invalid mode. Available: " +:+ PyStr.join ", " modes),
         Tools.load_devices t).
Proof.
  intros Hget Hty Hmodes. cbv zeta. unfold Tools.control_light.
  rewrite Hget, Hty. cbn [String.eqb Ascii.eqb Bool.eqb negb andb].
  unfold Tools.color_modes. rewrite Hmodes, strings_of_names.
  destruct (PyStr.mem mode modes) eqn:Hmem; cbn [negb]; [|reflexivity].
  destruct (index_of_nth mode modes 0 Hmem) as (n & Hi & Hn & Hlen).
  rewrite Hi, Z.add_0_l. exists n. split; [exact Hn|]. split; [reflexivity|].
  split; [|split; [reflexivity|]].
  - cbn [snd Tools.save_devices Tools.with_gadgets Tools.gadgets].
    rewrite dict_get_alter, String.eqb_refl.
    unfold Tools.load_devices in Hget. cbn [Tools.gadgets] in Hget.
    cbn [Tools.load_devices Tools.gadgets]. rewrite Hget. reflexivity.
  - unfold Reports._get_device_status, Tools.set_field. cbn [Tools.g_type].
    rewrite Hty. cbn [String.eqb Ascii.eqb Bool.eqb andb].
    unfold Reports.field. cbn [Tools.g_fields].
    rewrite lookup_insert_ne by discriminate. rewrite Hmodes.
    rewrite lookup_insert_eq. cbn [bind Reports.subscript Reports.index_int].
    rewrite list_item_nth by (rewrite List.length_map; exact Hlen).
    rewrite List.nth_error_map, Hn. reflexivity.
Qed.

Lemma control_light_sets_mode_witness :
  Tools.dict_get "light_living"
    (Tools.gadgets (Tools.load_devices Sample.tools0))
  = Some (Sample.gadget_of "light_living" "light" "living"
            (<["state" := VNum (NInt 1)]>
               {[ "color_modes" :=
                    VList (List.map VStr
                             ["off"; "warm_white"; "bright_yellow";
                              "cool_blue"]) ]}))
  /\ fst (Tools.control_light "light_living" "cool_blue" Sample.tools0)
     = Ok "Set light_living to cool_blue"
  /\ Tools.control_light "light_living" "purple" Sample.tools0
     = (Ok "Invalid mode. Available: off, warm_white, bright_yellow, cool_blue",
        Tools.load_devices Sample.tools0).
Proof.
  split; [vm_compute; reflexivity|]. split.
  - destruct (control_light_sets_mode (fun _ => "?") "light_living" "cool_blue"
                ["off"; "warm_white"; "bright_yellow"; "cool_blue"]
                Sample.tools0
                (Sample.gadget_of "light_living" "light" "living"
                   (<["state" := VNum (NInt 1)]>
                      {[ "color_modes" :=
                           VList (List.map VStr
                                    ["off"; "warm_white"; "bright_yellow";
                                     "cool_blue"]) ]})))
      as (n & _ & Hmsg & _); [vm_compute; reflexivity .. | exact Hmsg].
  - apply (control_light_sets_mode (fun _ => "?") "light_living" "purple"
             ["off"; "warm_white"; "bright_yellow"; "cool_blue"]
             Sample.tools0
             (Sample.gadget_of "light_living" "light" "living"
                (<["state" := VNum (NInt 1)]>
                   {[ "color_modes" :=
                        VList (List.map VStr
                                 ["off"; "warm_white"; "bright_yellow";
                                  "cool_blue"]) ]})));
      vm_compute; reflexivity.
Defined.

(** X17: on an AC with an integer range, [control_ac] with a temperature
    inside the range stores the power and the temperature, writes the file
    and answers with the power (and the temperature when the unit is on and
    the temperature is not 0); without a temperature only the power is
    stored.  [_get_device_status] then reports both. *)
Theorem control_ac_accepts_in_range (str_other : value -> string)
    (device_id power : string) (temperature : option Z) (lo hi : Z)
    (t : Tools.tools) (device : Tools.gadget) :
  Tools.dict_get device_id (Tools.gadgets (Tools.load_devices t)) = Some device ->
  Tools.g_type device = "ac" ->
  Tools.g_fields device !! "range"
  = Some (VList [VNum (NInt lo); VNum (NInt hi)]) ->
  match temperature with
  | Some temp => Z.leb lo temp && Z.leb temp hi = true
  | None => True
  end ->
  let on := String.eqb (PyStr.lower power) "on" in
  let r := Tools.control_ac device_id power temperature t in
  let device' :=
    match temperature with
    | Some temp =>
        Tools.set_field "temperature" (VNum (NInt temp))
          (Tools.set_field "on" (VBool on) device)
    | None => Tools.set_field "on" (VBool on) device
    end in
  fst r
  = Ok ("Set " +:+ device_id +:+ " to "
          +:+ match temperature with
              | Some temp =>
                  if on && negb (Z.eqb temp 0)
                  then "ON at " +:+ str_Z temp +:+ "°C"
                  else Tools.on_off on
              | None => Tools.on_off on
              end)
  /\ Tools.dict_get device_id (Tools.gadgets (snd r)) = Some device'
  /\ Tools.load_devices (snd r) = snd r
  /\ match temperature with
     | Some temp =>
         Reports._get_device_status str_other device'
         = Ok (Tools.on_off on +:+ ", " +:+ str_Z temp +:+ "°C")
     | None => True
     end.
Proof.
  intros Hget Hty Hrange Hin. cbv zeta. unfold Tools.control_ac.
  rewrite Hget, Hty. cbn [String.eqb Ascii.eqb Bool.eqb negb andb].
  pose proof (loaded_keyed t) as Hk.
  assert (Hget' : Tools.dict_get device_id
                    (Tools.dict_of_list Tools.g_id
                       (Tools.doc_gadgets (Tools.disk t))) = Some device)
    by exact Hget.
  destruct temperature as [temp|].
  - unfold Tools.temp_range. rewrite Hrange, Hin.
    cbn [fst snd Tools.save_devices Tools.with_gadgets Tools.gadgets
         Tools.load_devices default from_option id].
    split; [|split; [|split]].
    + destruct (String.eqb (PyStr.lower power) "on"); cbn [andb Tools.on_off];
        destruct (Z.eqb temp 0); reflexivity.
    + rewrite !dict_get_alter, String.eqb_refl, Hget'. reflexivity.
    + apply (saved_table_reloads _ t).
      apply set_field_keyed, set_field_keyed, Hk.
    + unfold Reports._get_device_status, Tools.set_field. cbn [Tools.g_type].
      rewrite Hty. cbn [String.eqb Ascii.eqb Bool.eqb andb].
      unfold Reports.field. cbn [Tools.g_fields].
      rewrite lookup_insert_ne by discriminate. rewrite lookup_insert_eq.
      rewrite lookup_insert_eq. cbn [bind Reports.truthy Reports.str_value].
      destruct (String.eqb (PyStr.lower power) "on"); reflexivity.
  - cbn [fst snd Tools.save_devices Tools.with_gadgets Tools.gadgets
         Tools.load_devices andb].
    rewrite andb_false_r.
    split; [reflexivity|]. split; [|split; [|exact I]].
    + rewrite dict_get_alter, String.eqb_refl, Hget'. reflexivity.
    + apply (saved_table_reloads _ t). apply set_field_keyed, Hk.
Qed.

Lemma control_ac_accepts_in_range_witness :
  fst (Tools.control_ac "ac_living" "ON" (Some 21%Z) Sample.tools0)
  = Ok "Set ac_living to ON at 21°C"
  /\ fst (Tools.control_ac "ac_living" "off" None Sample.tools0)
     = Ok "Set ac_living to OFF".
Proof.
  split.
  - apply (control_ac_accepts_in_range (fun _ => "?") "ac_living" "ON"
             (Some 21%Z) 18 28 Sample.tools0
             (Sample.gadget_of "ac_living" "ac" "living"
                (<["on" := VBool false]>
                   (<["temperature" := VNum (NInt 24)]>
                      {[ "range" := VList [VNum (NInt 18); VNum (NInt 28)] ]}))));
      vm_compute; reflexivity.
  - apply (control_ac_accepts_in_range (fun _ => "?") "ac_living" "off"
             None 18 28 Sample.tools0
             (Sample.gadget_of "ac_living" "ac" "living"
                (<["on" := VBool false]>
                   (<["temperature" := VNum (NInt 24)]>
                      {[ "range" := VList [VNum (NInt 18); VNum (NInt 28)] ]}))));
      vm_compute; reflexivity.
Defined.

Section TvFacts.
Import Tools Reports.

Lemma channel_table_entries (chs : list value)
    (entries : list (string * value)) (table : list (string * value)) :
  Forall2 channel_doc chs entries ->
  channel_table chs table
  = Ok (fold_left
          (fun d e => dict_set (PyStr.lower (fst e)) (snd e) d) entries table).
Proof.
  intros H. revert table.
  induction H as [|ch e chs entries [Hn Hi] _ IH]; intros table;
    [reflexivity|].
  cbn [channel_table fold_left]. rewrite Hn, Hi. cbn [bind]. apply IH.
Qed.

Lemma channel_names_entries (chs : list value)
    (entries : list (string * value)) :
  Forall2 channel_doc chs entries ->
  channel_names chs = Ok (List.map fst entries).
Proof.
  induction 1 as [|ch e chs entries [Hn Hi] _ IH]; [reflexivity|].
  cbn [channel_names List.map]. rewrite Hn, IH. reflexivity.
Qed.

Lemma dict_get_channel_fold (k : string) (entries : list (string * value))
    (table : list (string * value)) :
  dict_get k
    (fold_left (fun d e => dict_set (PyStr.lower (fst e)) (snd e) d)
       entries table)
  = match List.find (fun e => String.eqb (PyStr.lower (fst e)) k)
            (List.rev entries) with
    | Some e => Some (snd e)
    | None => dict_get k table
    end.
Proof.
  revert table. induction entries as [|e entries IH]; intros table;
    [reflexivity|].
  cbn [fold_left List.rev]. rewrite IH, find_snoc, dict_get_set.
  destruct (List.find _ (List.rev entries)); [reflexivity|].
  destruct (String.eqb (PyStr.lower (fst e)) k); reflexivity.
Qed.

End TvFacts.

(** X18: on a TV whose channels are documents with a name and an id,
    [control_tv] looks the channel up by name without regard to letter case
    (of two channels with the same name the later one counts), stores that
    channel's id as [channel], writes the file and echoes the name as it was
    typed; a name that no channel bears is answered with the list of channel
    names and changes nothing. *)
Theorem control_tv_selects_by_name (device_id channel : string)
    (chs : list value) (entries : list (string * value))
    (t : Tools.tools) (device : Tools.gadget) :
  Tools.dict_get device_id (Tools.gadgets (Tools.load_devices t)) = Some device ->
  Tools.g_type device = "tv" ->
  Tools.g_fields device !! "channels" = Some (VList chs) ->
  Forall2 channel_doc chs entries ->
  let r := Reports.control_tv device_id channel t in
  match List.find
          (fun e => String.eqb (PyStr.lower (fst e)) (PyStr.lower channel))
          (List.rev entries) with
  | Some e =>
      fst r = Ok ("Set " +:+ device_id +:+ " to channel: " +:+ channel)
      /\ Tools.dict_get device_id (Tools.gadgets (snd r))
         = Some (Tools.set_field "channel" (snd e) device)
      /\ Tools.doc_gadgets (Tools.disk (snd r))
         = List.map snd (Tools.gadgets (snd r))
  | None =>
      r = (Ok ("Invalid channel. Available: "
                 +:+ PyStr.join ", " (List.map fst entries)),
           Tools.load_devices t)
  end.
Proof.
  intros Hget Hty Hchs Hdocs. cbv zeta. unfold Reports.control_tv.
  rewrite Hget, Hty. cbn [String.eqb Ascii.eqb Bool.eqb negb andb].
  unfold Reports.channels_of, Reports.field. rewrite Hchs. cbn [bind].
  rewrite (channel_table_entries chs entries [] Hdocs). cbn [bind].
  rewrite dict_get_channel_fold.
  destruct (List.find _ (List.rev entries)) as [e|].
  - split; [reflexivity|]. split; [|reflexivity].
    cbn [snd Tools.save_devices Tools.with_gadgets Tools.gadgets].
    rewrite dict_get_alter, String.eqb_refl.
    unfold Tools.load_devices in Hget. cbn [Tools.gadgets] in Hget.
    cbn [Tools.load_devices Tools.gadgets]. rewrite Hget. reflexivity.
  - cbn [Tools.dict_get].
    rewrite (channel_names_entries chs entries Hdocs). reflexivity.
Qed.

Lemma control_tv_selects_by_name_witness :
  Forall2 channel_doc House.channels House.channel_entries
  /\ fst (Reports.control_tv "tv_living" "NEWS" House.tools0)
     = Ok "Set tv_living to channel: NEWS"
  /\ Tools.dict_get "tv_living"
       (Tools.gadgets (snd (Reports.control_tv "tv_living" "NEWS" House.tools0)))
     = Some (Tools.set_field "channel" (VNum (NInt 1)) House.tv)
  /\ Reports.control_tv "tv_living" "Netflix" House.tools0
     = (Ok "Invalid channel. Available: Off, News, Cartoon, Sports, Movies",
        Tools.load_devices House.tools0).
Proof.
  assert (Hdocs : Forall2 channel_doc House.channels House.channel_entries)
    by (repeat (constructor; [split; reflexivity|]); constructor).
  split; [exact Hdocs|].
  pose proof (control_tv_selects_by_name "tv_living" "NEWS" House.channels
                House.channel_entries House.tools0 House.tv
                eq_refl eq_refl eq_refl Hdocs) as H1.
  pose proof (control_tv_selects_by_name "tv_living" "Netflix" House.channels
                House.channel_entries House.tools0 House.tv
                eq_refl eq_refl eq_refl Hdocs) as H2.
  cbv zeta in H1, H2.
  change (List.find _ (List.rev House.channel_entries))
    with (Some ("News", VNum (NInt 1))) in H1.
  change (List.find _ (List.rev House.channel_entries))
    with (@None (string * value)) in H2.
  destruct H1 as (Hmsg & Hget & _).
  split; [exact Hmsg|]. split; [exact Hget | exact H2].
Defined.

(** ** Reports *)

Section ReportFacts.
Import Tools Reports.

Lemma security_loop_lines (locks : list gadget) (acc : list string) (b : bool) :
  Forall (fun g => is_Some (g_fields g !! "locked")) locks ->
  security_loop locks acc b
  = Ok (List.app acc (List.map security_line locks),
        b && forallb is_locked locks).
Proof.
  intros H. revert acc b.
  induction H as [|g locks [v Hv] _ IH]; intros acc b.
  - simpl. rewrite app_nil_r, andb_true_r. reflexivity.
  - assert (Hl : is_locked g = truthy v)
      by (unfold is_locked, field_or_null; rewrite Hv; reflexivity).
    cbn [security_loop]. unfold field. rewrite Hv. cbn [bind].
    rewrite IH. cbn [List.map forallb].
    change (security_line g)
      with (g_id g +:+ ": "
              +:+ (if is_locked g then "🔒 Locked" else "🔓 Unlocked")).
    rewrite Hl, <- app_assoc. cbn [List.app].
    destruct (truthy v), b; reflexivity.
Qed.

Lemma watts_consumption (g : gadget) :
  metered g = true -> watts g = Ok (consumption g).
Proof.
  unfold metered, metered_field, watts, consumption, light_on, ac_on, tv_on,
    field, field_or_null.
  destruct (String.eqb_spec (g_type g) "light") as [Hl|Hl].
  { rewrite Hl. cbn [String.eqb Ascii.eqb Bool.eqb andb].
    intros H. apply bool_decide_eq_true in H as [v Hv]. rewrite Hv. cbn.
    destruct (nonzero v); reflexivity. }
  destruct (String.eqb_spec (g_type g) "ac") as [Ha|Ha].
  { rewrite Ha. cbn [String.eqb Ascii.eqb Bool.eqb andb].
    intros H. apply bool_decide_eq_true in H as [v Hv]. rewrite Hv. cbn.
    destruct (truthy v); reflexivity. }
  destruct (String.eqb (g_type g) "tv").
  { intros H. apply bool_decide_eq_true in H as [v Hv]. rewrite Hv. cbn.
    destruct (nonzero v); reflexivity. }
  reflexivity.
Qed.

Lemma energy_loop_sums (gs : list gadget) (acc : list string) (total : Z) :
  forallb metered gs = true ->
  energy_loop gs acc total
  = Ok (List.app acc (energy_lines gs), (total + energy_total gs)%Z).
Proof.
  revert acc total. induction gs as [|g gs IH]; intros acc total H.
  - simpl. rewrite app_nil_r, Z.add_0_r. reflexivity.
  - cbn [forallb] in H. apply andb_true_iff in H as [Hg H].
    cbn [energy_loop]. rewrite (watts_consumption g Hg). cbn [bind].
    unfold energy_lines, energy_total. cbn [flat_map fold_right].
    fold (energy_lines gs). fold (energy_total gs).
    destruct (consumption g) as [n|]; rewrite (IH _ _ H).
    + rewrite <- app_assoc. cbn [default from_option id List.app].
      do 2 f_equal. lia.
    + cbn [default from_option id List.app]. do 2 f_equal.
Qed.

Lemma one_meter (g : gadget) :
  (light_on g = true -> ac_on g = false /\ tv_on g = false)
  /\ (ac_on g = true -> tv_on g = false).
Proof.
  unfold light_on, ac_on, tv_on.
  destruct (String.eqb_spec (g_type g) "light") as [Hl|Hl].
  - rewrite Hl. split; [split; reflexivity|]. discriminate.
  - split; [discriminate|].
    destruct (String.eqb_spec (g_type g) "ac") as [Ha|Ha];
      [rewrite Ha; reflexivity | discriminate].
Qed.

Lemma energy_total_counts (gs : list gadget) :
  energy_total gs
  = (10 * count light_on gs + 1500 * count ac_on gs + 100 * count tv_on gs)%Z
  /\ Z.of_nat (length (energy_lines gs))
     = (count light_on gs + count ac_on gs + count tv_on gs)%Z.
Proof.
  unfold count. induction gs as [|g gs [IH1 IH2]]; [split; reflexivity|].
  unfold energy_total, energy_lines in *. cbn [fold_right flat_map List.filter].
  rewrite length_app, Nat2Z.inj_add, IH1, IH2. unfold consumption.
  destruct (one_meter g) as [H1 H2].
  destruct (light_on g) eqn:HL.
  - destruct (H1 eq_refl) as [HA HT]. rewrite HA, HT.
    cbn [length default from_option id]. split; lia.
  - destruct (ac_on g) eqn:HA.
    + rewrite (H2 eq_refl). cbn [length default from_option id]. split; lia.
    + destruct (tv_on g); cbn [length default from_option id]; split; lia.
Qed.

End ReportFacts.

(** X19: [get_security_status] never writes; with no door lock it says so;
    otherwise, when every door lock has a [locked] entry, it lists each lock
    with its state and heads the list with "Secure - all doors locked"
    exactly when all of them are locked, with the warning otherwise. *)
Theorem get_security_status_report (t : Tools.tools) :
  let locks := List.filter is_door_lock
                 (List.map snd (Tools.gadgets (Tools.load_devices t))) in
  Forall (fun g => is_Some (Tools.g_fields g !! "locked")) locks ->
  Reports.get_security_status t
  = (Ok (match locks with
         | [] => "No door locks found"
         | _ :: _ =>
             (if forallb is_locked locks then "Secure - all doors locked"
              else "Warning - some doors unlocked")
               +:+ Reports.newline
               +:+ PyStr.join Reports.newline (List.map security_line locks)
         end),
     Tools.load_devices t).
Proof.
  cbv zeta. intros H. unfold Reports.get_security_status.
  fold is_door_lock.
  change (fun g => String.eqb (Tools.g_type g) "door_lock") with is_door_lock.
  destruct (List.filter is_door_lock _) as [|g locks]; [reflexivity|].
  rewrite (security_loop_lines _ [] true H). reflexivity.
Qed.

Lemma get_security_status_report_witness :
  fst (Reports.get_security_status House.tools0)
  = Ok ("Secure - all doors locked" +:+ Reports.newline
          +:+ "door_bedroom: 🔒 Locked")
  /\ fst (Reports.get_security_status
            (snd (Tools.control_door_lock "door_bedroom" "unlock" House.tools0)))
     = Ok ("Warning - some doors unlocked" +:+ Reports.newline
             +:+ "door_bedroom: 🔓 Unlocked").
Proof.
  split.
  - rewrite (get_security_status_report House.tools0);
      [reflexivity | repeat constructor; eexists; reflexivity].
  - rewrite (get_security_status_report
               (snd (Tools.control_door_lock "door_bedroom" "unlock"
                       House.tools0)));
      [reflexivity | repeat constructor; eexists; reflexivity].
Defined.

(** X20: [get_energy_usage] never writes; when every light has a [state], every
    AC an [on] and every TV a [channel] entry, it charges 10 W for each light
    whose state is not 0, 1500 W for each AC that is on and 100 W for each TV
    whose channel is not 0, lists these gadgets in table order and reports
    the sum; with none of them it says that nothing is consuming. *)
Theorem get_energy_usage_report (t : Tools.tools) :
  let gs := List.map snd (Tools.gadgets (Tools.load_devices t)) in
  forallb metered gs = true ->
  Reports.get_energy_usage t
  = (Ok (match energy_lines gs with
         | [] => "No devices currently consuming energy"
         | _ :: _ =>
             "Active devices:" +:+ Reports.newline
               +:+ PyStr.join Reports.newline (energy_lines gs)
               +:+ Reports.newline +:+ Reports.newline +:+ "Total: ~"
               +:+ str_Z (energy_total gs) +:+ "W"
         end),
     Tools.load_devices t)
  /\ energy_total gs
     = (10 * count light_on gs + 1500 * count ac_on gs
        + 100 * count tv_on gs)%Z
  /\ Z.of_nat (length (energy_lines gs))
     = (count light_on gs + count ac_on gs + count tv_on gs)%Z.
Proof.
  cbv zeta. intros H. split; [|apply energy_total_counts].
  unfold Reports.get_energy_usage.
  rewrite (energy_loop_sums _ [] 0%Z H). cbn [bind List.app].
  rewrite Z.add_0_l. destruct (energy_lines _); reflexivity.
Qed.

Lemma get_energy_usage_report_witness :
  forallb metered (List.map snd (Tools.gadgets (Tools.load_devices House.tools0)))
  = true
  /\ fst (Reports.get_energy_usage House.tools0)
     = Ok ("Active devices:" +:+ Reports.newline
             +:+ "ac_living: ~1500W" +:+ Reports.newline
             +:+ "tv_living: ~100W" +:+ Reports.newline
             +:+ "light_bedroom: ~10W" +:+ Reports.newline
             +:+ Reports.newline +:+ "Total: ~1610W").
Proof.
  split; [vm_compute; reflexivity|].
  destruct (get_energy_usage_report House.tools0) as [H _];
    [vm_compute; reflexivity|].
  rewrite H. vm_compute. reflexivity.
Defined.

(** ** Scenes *)

Section SceneEffect.
Import Tools.

Lemma scene_effect_absent acts k g :
  k ∉ acts.*1 -> scene_effect acts k g = g.
Proof.
  unfold scene_effect. revert g.
  induction acts as [|[id ch] acts IH]; intros g Hk; [reflexivity|].
  csimpl in Hk. apply not_elem_of_cons in Hk as [Hne Hk]. simpl.
  destruct (String.eqb_spec k id); [contradiction|]. apply IH. exact Hk.
Qed.

Lemma scene_effect_patch acts k g :
  NoDup acts.*1 ->
  scene_effect acts k g
  = match dict_get k acts with
    | Some patch => update_fields patch g
    | None => g
    end.
Proof.
  revert g. induction acts as [|[id ch] acts IH]; intros g Hnd; [reflexivity|].
  csimpl in Hnd. apply NoDup_cons in Hnd as [Hfresh Hnd].
  unfold scene_effect. cbn [fold_left fst snd dict_get].
  destruct (String.eqb_spec k id) as [->|Hne].
  - rewrite String.eqb_refl. apply scene_effect_absent. exact Hfresh.
  - destruct (String.eqb_spec id k); [congruence|]. apply IH. exact Hnd.
Qed.

Lemma dict_get_fmap_values {A} (f : string -> A -> A) (k : string)
    (d : list (string * A)) :
  dict_get k ((fun kv => (fst kv, f (fst kv) (snd kv))) <$> d)
  = f k <$> dict_get k d.
Proof.
  induction d as [|[k0 v] d IH]; csimpl; [reflexivity|].
  destruct (String.eqb_spec k0 k) as [->|_]; [reflexivity | exact IH].
Qed.

Lemma scenes_distinct (name : string) (sc : scene) :
  dict_get name scenes = Some sc -> NoDup (actions sc).*1.
Proof.
  unfold scenes. cbn [dict_get].
  repeat (destruct (String.eqb _ name);
          [intros H; injection H as <-;
           apply (bool_decide_unpack _); vm_compute; reflexivity|]).
  discriminate.
Qed.

End SceneEffect.

(** X21: a known scene (the name is taken without regard to letter case)
    updates each gadget it names, if the file has it, with the scene's patch
    for it: the patched entries get the scene's values, every other entry,
    the id, the type and the room stay; gadgets the scene does not name are
    untouched, and none is added for a name the file does not have. *)
Theorem create_scene_patches_named_gadgets (scene_name : string)
    (sc : Tools.scene) (t : Tools.tools) :
  Tools.dict_get (PyStr.lower scene_name) Tools.scenes = Some sc ->
  let r := Tools.create_scene scene_name t in
  let loaded := Tools.gadgets (Tools.load_devices t) in
  List.map fst (Tools.gadgets (snd r)) = List.map fst loaded
  /\ forall k,
       Tools.dict_get k (Tools.gadgets (snd r))
       = match Tools.dict_get k (Tools.actions sc) with
         | Some patch =>
             (fun g =>
                Tools.Gadget (Tools.g_id g) (Tools.g_type g) (Tools.g_room g)
                  (patch ∪ Tools.g_fields g))
               <$> Tools.dict_get k loaded
         | None => Tools.dict_get k loaded
         end.
Proof.
  intros Hsc. cbv zeta. unfold Tools.create_scene. rewrite Hsc.
  cbn [snd Tools.save_devices Tools.with_gadgets Tools.gadgets].
  pose proof (loaded_keyed t) as [Hnd _]. split.
  - pose proof (apply_actions_keys (Tools.actions sc)
                  (Tools.gadgets (Tools.load_devices t))) as H. exact H.
  - intros k. rewrite (apply_actions_pointwise _ _ Hnd).
    rewrite (dict_get_fmap_values (Tools.scene_effect (Tools.actions sc))).
    destruct (Tools.dict_get k (Tools.gadgets (Tools.load_devices t))) as [g|];
      cbn [fmap option_fmap option_map].
    + rewrite (scene_effect_patch _ _ _ (scenes_distinct _ _ Hsc)).
      destruct (Tools.dict_get k (Tools.actions sc)); reflexivity.
    + destruct (Tools.dict_get k (Tools.actions sc)); reflexivity.
Qed.

Lemma create_scene_patches_named_gadgets_witness :
  Tools.dict_get (PyStr.lower "Away") Tools.scenes
  = Some (Tools.Scene "Away mode - secure home"
            [("light_living", {[ "state" := Tools.int_v 0 ]});
             ("light_bedroom", {[ "state" := Tools.int_v 0 ]});
             ("tv_living", {[ "channel" := Tools.int_v 0 ]});
             ("ac_living", {[ "on" := VBool false ]});
             ("door_bedroom", {[ "locked" := VBool true ]})])
  /\ List.map fst (Tools.gadgets (snd (Tools.create_scene "Away" Sample.tools0)))
     = ["light_living"; "ac_living"; "tv_living"; "door_bedroom"]
  /\ fst (Reports.get_energy_usage
            (snd (Tools.create_scene "Away" House.tools0)))
     = Ok "No devices currently consuming energy".
Proof.
  split; [reflexivity|]. split.
  - apply (create_scene_patches_named_gadgets "Away"
             (Tools.Scene "Away mode - secure home"
                [("light_living", {[ "state" := Tools.int_v 0 ]});
                 ("light_bedroom", {[ "state" := Tools.int_v 0 ]});
                 ("tv_living", {[ "channel" := Tools.int_v 0 ]});
                 ("ac_living", {[ "on" := VBool false ]});
                 ("door_bedroom", {[ "locked" := VBool true ]})])
             Sample.tools0).
    reflexivity.
  - vm_compute. reflexivity.
Defined.

(** ** Rooms of parsed intents *)

Section IntentRooms.
Import Parser.

Variable c : controller.

Lemma normalize_room_ok (text : string) :
  match _normalize_room c text with
  | Some r => has_room c r = true
  | None => True
  end.
Proof. apply normalize_room_in_registry. Qed.

Lemma room_of_ok (text : string) (dflt : option string) :
  match room_of c text dflt with
  | Some r => has_room c r = true \/ dflt = Some r
  | None => True
  end.
Proof.
  unfold room_of. destruct (Re.search room_re text) as [m|].
  - pose proof (normalize_room_ok (default "" (Re.group 1 m))) as H.
    destruct (_normalize_room c _); [left; exact H | exact I].
  - destruct dflt; [right; reflexivity | exact I].
Qed.

Lemma adjust_intent_room_entry (text : string) (delta : float) :
  let i := adjust_intent (room_of c text (Some "living_room")) delta in
  match i_parameters i !! "room" with
  | Some (VStr r) =>
      room_ok c r
      /\ In (i_action i)
           ["set_temperature"; "adjust_temperature"; "light_on"; "light_off"]
  | Some VNull =>
      i_action i = "adjust_temperature"
      /\ exists m,
           Re.search room_re text = Some m
           /\ _normalize_room c (default "" (Re.group 1 m)) = None
  | Some _ => False
  | None => In (i_action i) ["unlock"; "lock"; "status"; "unknown"]
  end
  /\ (i_action i = "status" ->
      Forall (fun r => has_room c r = true) (i_targets i)).
Proof.
  cbv zeta. split; [|discriminate].
  unfold adjust_intent. cbn [i_parameters i_action].
  rewrite lookup_insert_eq.
  pose proof (room_of_ok text (Some "living_room")) as H.
  unfold room_of in *.
  destruct (Re.search room_re text) as [m|].
  - destruct (_normalize_room c (default "" (Re.group 1 m))) as [r|] eqn:Hn;
      cbn [opt_str].
    + split; [|right; left; reflexivity].
      destruct H as [H|H]; [left; exact H | right; left; congruence].
    + split; [reflexivity|]. exists m. split; [reflexivity | exact Hn].
  - cbn [opt_str]. split; [right; left; reflexivity|].
    right. left. reflexivity.
Qed.

End IntentRooms.

(** X22: the ["room"] entry of an intent of [_rule_based_intent].  When it
    is a string, the intent is a [set_temperature], [adjust_temperature],
    [light_on] or [light_off] one and the string is a room of the registry or
    one of the parser's two fallback rooms, "living_room" and "kitchen".  It
    is null only in an [adjust_temperature] intent, when the text names a
    room of the gazetteer that [_normalize_room] cannot resolve.  It is
    absent exactly from the [unlock], [lock], [status] and [unknown]
    intents (so [set_temperature] and the light intents always carry a room
    name).  The targets of a [status] intent are rooms of the registry.  The
    embedding has no intent only for a temperature command whose numeral is
    beyond the modelled range of [float]. *)
Theorem rule_based_intent_room (c : controller) (cmd : string) :
  match Parser._rule_based_intent c cmd with
  | Some i =>
      match i_parameters i !! "room" with
      | Some (VStr r) =>
          room_ok c r
          /\ In (i_action i)
               ["set_temperature"; "adjust_temperature"; "light_on";
                "light_off"]
      | Some VNull =>
          i_action i = "adjust_temperature"
          /\ exists m,
               Re.search Parser.room_re (PyStr.lower cmd) = Some m
               /\ Parser._normalize_room c (default "" (Re.group 1 m)) = None
      | Some _ => False
      | None => In (i_action i) ["unlock"; "lock"; "status"; "unknown"]
      end
      /\ (i_action i = "status" ->
          Forall (fun r => has_room c r = true) (i_targets i))
  | None =>
      Re.search Parser.temp_re (PyStr.lower cmd) <> None
      \/ Re.search Parser.rel_re (PyStr.lower cmd) <> None
  end.
Proof.
  unfold Parser._rule_based_intent.
  destruct (Re.search Parser.temp_re _) as [m|].
  { destruct (Parser.py_float _) as [temp|]; [|left; discriminate].
    cbn [mbind option_bind i_parameters i_action].
    rewrite lookup_insert_eq. split; [|discriminate].
    split; [|left; reflexivity].
    pose proof (room_of_ok c (PyStr.lower cmd) None) as H.
    unfold Parser.or_str.
    destruct (Parser.room_of c (PyStr.lower cmd) None) as [r|].
    - destruct (String.eqb r ""); [right; left; reflexivity|].
      destruct H as [H|H]; [left; exact H | discriminate].
    - right. left. reflexivity. }
  destruct (Re.search Parser.rel_re _) as [m|].
  { destruct (match Re.group 2 m with Some _ => _ | None => _ end);
      [|right; discriminate].
    cbn [mbind option_bind]. apply adjust_intent_room_entry. }
  destruct (Re.found Parser.unlock_word_re _).
  { unfold Parser.lock_intent. destruct (Re.found Parser.front_door_re _);
      cbn [i_parameters i_action];
      rewrite lookup_singleton_ne by discriminate;
      (split; [left; reflexivity | discriminate]). }
  destruct (_ && negb _).
  { unfold Parser.lock_intent. destruct (Re.found Parser.front_door_re _);
      cbn [i_parameters i_action];
      rewrite lookup_singleton_ne by discriminate;
      (split; [right; left; reflexivity | discriminate]). }
  destruct (_ && _).
  { cbn [i_parameters i_action]. rewrite lookup_singleton_eq.
    split; [|destruct (Re.found Parser.light_on_re _); discriminate].
    split.
    - unfold Parser.or_str.
      match goal with
      | |- context [Parser._normalize_room c ?t] =>
          pose proof (normalize_room_ok c t) as H;
          destruct (Parser._normalize_room c t) as [r|]
      end.
      + destruct (String.eqb r ""); [right; right; reflexivity | left; exact H].
      + right. right. reflexivity.
    - destruct (Re.found Parser.light_on_re _);
        [right; right; left; reflexivity
        | right; right; right; left; reflexivity]. }
  destruct (existsb _ _).
  { cbn [i_parameters i_action i_targets]. rewrite lookup_empty.
    split; [right; right; left; reflexivity|]. intros _.
    pose proof (room_of_ok c (PyStr.lower cmd) None) as H.
    destruct (Parser.room_of c (PyStr.lower cmd) None) as [r|];
      [|constructor].
    destruct (String.eqb r ""); [constructor|].
    constructor; [|constructor].
    destruct H as [H|H]; [exact H | discriminate]. }
  destruct (Re.found Parser.warmer_re _); [apply adjust_intent_room_entry|].
  destruct (Re.found Parser.cooler_re _); [apply adjust_intent_room_entry|].
  cbn [i_parameters i_action]. rewrite lookup_empty.
  split; [right; right; right; left; reflexivity | discriminate].
Qed.

(** X23: what [control_door_lock] answers is what [_get_device_status] then
    reports of the gadget: "Locked" after an action that is "lock" up to
    letter case, "Unlocked" after any other. *)
Theorem door_lock_status_after_control (str_other : value -> string)
    (device_id act : string) (t : Tools.tools) (device : Tools.gadget) :
  Tools.dict_get device_id (Tools.gadgets (Tools.load_devices t)) = Some device ->
  Tools.g_type device = "door_lock" ->
  exists device',
    Tools.dict_get device_id
      (Tools.gadgets (snd (Tools.control_door_lock device_id act t)))
    = Some device'
    /\ Reports._get_device_status str_other device'
       = Ok (if String.eqb (PyStr.lower act) "lock" then "Locked"
             else "Unlocked")
    /\ is_locked device' = String.eqb (PyStr.lower act) "lock".
Proof.
  intros Hget Hty. unfold Tools.control_door_lock. rewrite Hget, Hty.
  cbn [String.eqb Ascii.eqb Bool.eqb negb andb snd Tools.save_devices
       Tools.with_gadgets Tools.gadgets].
  eexists. split.
  - rewrite dict_get_alter, String.eqb_refl.
    unfold Tools.load_devices in Hget. cbn [Tools.gadgets] in Hget.
    cbn [Tools.load_devices Tools.gadgets]. rewrite Hget. reflexivity.
  - unfold Reports._get_device_status, is_locked, field_or_null, Reports.field,
      Tools.set_field.
    cbn [Tools.g_type Tools.g_fields]. rewrite Hty, lookup_insert_eq.
    cbn. destruct (String.eqb (PyStr.lower act) "lock"); split; reflexivity.
Qed.

Lemma door_lock_status_after_control_witness :
  Tools.dict_get "door_bedroom" (Tools.gadgets (Tools.load_devices House.tools0))
  = Some (Tools.Gadget "door_bedroom" "door_lock" "bedroom"
            {[ "locked" := VBool true ]})
  /\ exists device',
       Tools.dict_get "door_bedroom"
         (Tools.gadgets
            (snd (Tools.control_door_lock "door_bedroom" "open" House.tools0)))
       = Some device'
       /\ Reports._get_device_status (fun _ => "?") device' = Ok "Unlocked"
       /\ is_locked device' = false.
Proof.
  split; [reflexivity|].
  apply (door_lock_status_after_control (fun _ => "?") "door_bedroom" "open"
           House.tools0
           (Tools.Gadget "door_bedroom" "door_lock" "bedroom"
              {[ "locked" := VBool true ]}));
    reflexivity.
Defined.

Section ListingFacts.
Import Tools Reports.

Lemma lines_of_outcome {A} (line : A -> result string) (l : list A) :
  match lines_of line l with
  | Ok lines => Forall2 (fun x s => line x = Ok s) l lines
  | Raise e => Exists (fun x => line x = Raise e) l
  end.
Proof.
  induction l as [|x l IH]; cbn [lines_of]; [constructor|].
  destruct (line x) as [s|e] eqn:Hx; cbn [bind].
  - destruct (lines_of line l) as [lines|e]; cbn [bind].
    + constructor; assumption.
    + apply Exists_cons_tl. exact IH.
  - apply Exists_cons_hd. exact Hx.
Qed.

End ListingFacts.

(** X24: [get_all_devices] never writes.  It answers with one line per gadget,
    in table order, each made of the id, type, room and status of the
    gadget; if the status of some gadget cannot be read (an entry is
    missing, an index is out of range) the whole listing raises that
    error. *)
Theorem get_all_devices_lines (str_other : value -> string) (t : Tools.tools) :
  let line := fun kv : string * Tools.gadget =>
    bind (Reports._get_device_status str_other (snd kv))
      (fun status =>
         Ok ("- " +:+ fst kv +:+ " (" +:+ Tools.g_type (snd kv) +:+ " in "
               +:+ Tools.g_room (snd kv) +:+ "): " +:+ status)) in
  let gs := Tools.gadgets (Tools.load_devices t) in
  snd (Reports.get_all_devices str_other t) = Tools.load_devices t
  /\ match fst (Reports.get_all_devices str_other t) with
     | Ok text =>
         exists lines,
           text = PyStr.join Reports.newline lines
           /\ Forall2 (fun kv s => line kv = Ok s) gs lines
     | Raise e =>
         Exists
           (fun kv => Reports._get_device_status str_other (snd kv) = Raise e)
           gs
     end.
Proof.
  cbv zeta. split; [reflexivity|].
  unfold Reports.get_all_devices. cbn [fst].
  match goal with
  | |- context [Reports.lines_of ?f ?l] =>
      pose proof (lines_of_outcome f l) as H;
      destruct (Reports.lines_of f l) as [lines|e]
  end; cbn [bind].
  - exists lines. split; [reflexivity | exact H].
  - eapply Exists_impl; [exact H|]. intros kv Hkv. cbv beta in Hkv.
    destruct (Reports._get_device_status str_other (snd kv));
      [discriminate | exact Hkv].
Qed.
